(** * MeshChat synchronisation engine: a shallow embedding of
      [meshchat/meshchat.py] and the properties of its merge, prune,
      probe and fetch paths.

    The embedding follows the Python source method by method.  The SQLite
    connection is a pair of databases (what is committed, and what the
    connection currently sees); every method is a computation over that
    connection which either returns or raises, and which leaves its
    writes behind when it raises, as the Python code does (no method of
    the class ever rolls back). *)

From Stdlib Require Import ZArith List Bool Ascii String Lia.
From Stdlib Require Import Permutation Sorted OrdersEx RelationClasses.
Import ListNotations.

Local Open Scope string_scope.
Local Open Scope Z_scope.
Local Open Scope list_scope.

(* ===================================================================== *)
(** ** Python strings

    A [str] is modelled as a [string] whose characters are the code
    points 0..255 of the text.  Line boundaries and white space are the
    ones [str.splitlines] and [int] use, restricted to that range. *)
(* ===================================================================== *)

Module PyStr.

Definition code (c : ascii) : Z := Z.of_N (N_of_ascii c).

Definition TAB : ascii := ascii_of_N 9.
Definition LF : ascii := ascii_of_N 10.
Definition CR : ascii := ascii_of_N 13.

(** [s.split(sep)] for a one-character separator: never empty. *)
Fixpoint split (sep : ascii) (s : string) : list string :=
  match s with
  | EmptyString => [EmptyString]
  | String c rest =>
      if Ascii.eqb c sep then EmptyString :: split sep rest
      else match split sep rest with
           | f :: fs => String c f :: fs
           | [] => [String c EmptyString]
           end
  end.

(** The characters at which [str.splitlines] breaks a line:
    LF, VT, FF, CR, FS, GS, RS and NEL. *)
Definition is_linebreak (c : ascii) : bool :=
  let n := code c in
  ((10 <=? n) && (n <=? 13)) || ((28 <=? n) && (n <=? 30)) || (n =? 133).

(** The pieces between line boundaries; [after_cr] tells that the
    previous character was a CR, so that a LF here ends the same line. *)
Fixpoint segments (after_cr : bool) (s : string) : list string :=
  match s with
  | EmptyString => [EmptyString]
  | String c rest =>
      if after_cr && Ascii.eqb c LF then segments false rest
      else if is_linebreak c then EmptyString :: segments (Ascii.eqb c CR) rest
      else match segments false rest with
           | l :: ls => String c l :: ls
           | [] => [String c EmptyString]
           end
  end.

(** [s.splitlines()]: the pieces, without the empty piece that follows a
    final line boundary (and without any piece for the empty string). *)
Definition splitlines (s : string) : list string :=
  let segs := segments false s in
  match last segs EmptyString with
  | EmptyString => removelast segs
  | String _ _ => segs
  end.

(** [fields[lo:hi]] for [0 <= lo <= hi]. *)
Definition slice {A : Type} (lo hi : nat) (l : list A) : list A :=
  firstn (hi - lo) (skipn lo l).

(** White space as [int] strips it from a [str]. *)
Definition is_space (c : ascii) : bool :=
  let n := code c in
  ((9 <=? n) && (n <=? 13)) || ((28 <=? n) && (n <=? 32))
  || (n =? 133) || (n =? 160).

Fixpoint lstrip (l : list ascii) : list ascii :=
  match l with
  | c :: r => if is_space c then lstrip r else l
  | [] => []
  end.

Definition strip (l : list ascii) : list ascii :=
  rev (lstrip (rev (lstrip l))).

(** The value of a digit character in bases up to 36. *)
Definition digit_value (c : ascii) : option Z :=
  let n := code c in
  if (48 <=? n) && (n <=? 57) then Some (n - 48)
  else if (97 <=? n) && (n <=? 122) then Some (n - 97 + 10)
  else if (65 <=? n) && (n <=? 90) then Some (n - 65 + 10)
  else None.

Definition UNDERSCORE : ascii := ascii_of_N 95.

(** The digits of an integer literal.  [us_ok]: an underscore may come
    next; [end_ok]: the literal may end here.  Underscores stand singly
    between digits (or right after a base prefix). *)
Fixpoint digits (base : Z) (us_ok end_ok : bool) (acc : Z) (l : list ascii)
  : option Z :=
  match l with
  | [] => if end_ok then Some acc else None
  | c :: r =>
      if Ascii.eqb c UNDERSCORE then
        if us_ok then digits base false false acc r else None
      else
        match digit_value c with
        | Some d =>
            if d <? base then digits base true true (acc * base + d) r
            else None
        | None => None
        end
  end.

Definition is_x (c : ascii) : bool := (code c =? 120) || (code c =? 88).

(** After the sign: for base 16 an optional [0x] / [0X] prefix. *)
Definition magnitude (base : Z) (l : list ascii) : option Z :=
  match l with
  | z :: x :: r =>
      if (base =? 16) && (code z =? 48) && is_x x
      then digits base true false 0 r
      else digits base false false 0 l
  | _ => digits base false false 0 l
  end.

(** [int(s, base)] for base 10 and base 16: [None] is [ValueError]. *)
Definition py_int (base : Z) (s : string) : option Z :=
  match strip (list_ascii_of_string s) with
  | c :: r =>
      if code c =? 45 then option_map Z.opp (magnitude base r)
      else if code c =? 43 then magnitude base r
      else magnitude base (c :: r)
  | [] => None
  end.

(** ASCII lower-casing, for case-insensitive header names. *)
Definition lower (c : ascii) : ascii :=
  let n := code c in
  if (65 <=? n) && (n <=? 90) then ascii_of_N (Z.to_N (n + 32)) else c.

Fixpoint lower_string (s : string) : string :=
  match s with
  | EmptyString => EmptyString
  | String c r => String (lower c) (lower_string r)
  end.

End PyStr.

(* ===================================================================== *)
(** ** [hashlib.md5(...).hexdigest()]

    RFC 1321 over a byte string, 32-bit words as [Z] reduced modulo 2^32. *)
(* ===================================================================== *)

Module MD5.

Definition mask32 (x : Z) : Z := Z.land x 0xffffffff.

Definition rotl (x n : Z) : Z :=
  mask32 (Z.lor (Z.shiftl x n) (Z.shiftr x (32 - n))).

Definition not32 (x : Z) : Z := Z.lxor x 0xffffffff.

Definition K : list Z :=
  [ 0xd76aa478; 0xe8c7b756; 0x242070db; 0xc1bdceee;
    0xf57c0faf; 0x4787c62a; 0xa8304613; 0xfd469501;
    0x698098d8; 0x8b44f7af; 0xffff5bb1; 0x895cd7be;
    0x6b901122; 0xfd987193; 0xa679438e; 0x49b40821;
    0xf61e2562; 0xc040b340; 0x265e5a51; 0xe9b6c7aa;
    0xd62f105d; 0x02441453; 0xd8a1e681; 0xe7d3fbc8;
    0x21e1cde6; 0xc33707d6; 0xf4d50d87; 0x455a14ed;
    0xa9e3e905; 0xfcefa3f8; 0x676f02d9; 0x8d2a4c8a;
    0xfffa3942; 0x8771f681; 0x6d9d6122; 0xfde5380c;
    0xa4beea44; 0x4bdecfa9; 0xf6bb4b60; 0xbebfbc70;
    0x289b7ec6; 0xeaa127fa; 0xd4ef3085; 0x04881d05;
    0xd9d4d039; 0xe6db99e5; 0x1fa27cf8; 0xc4ac5665;
    0xf4292244; 0x432aff97; 0xab9423a7; 0xfc93a039;
    0x655b59c3; 0x8f0ccc92; 0xffeff47d; 0x85845dd1;
    0x6fa87e4f; 0xfe2ce6e0; 0xa3014314; 0x4e0811a1;
    0xf7537e82; 0xbd3af235; 0x2ad7d2bb; 0xeb86d391 ].

Definition shifts : list Z :=
  [ 7; 12; 17; 22; 7; 12; 17; 22; 7; 12; 17; 22; 7; 12; 17; 22;
    5; 9; 14; 20; 5; 9; 14; 20; 5; 9; 14; 20; 5; 9; 14; 20;
    4; 11; 16; 23; 4; 11; 16; 23; 4; 11; 16; 23; 4; 11; 16; 23;
    6; 10; 15; 21; 6; 10; 15; 21; 6; 10; 15; 21; 6; 10; 15; 21 ].

Record state := State { sa : Z; sb : Z; sc : Z; sd : Z }.

Definition init : state :=
  State 0x67452301 0xefcdab89 0x98badcfe 0x10325476.

(** One of the 64 operations of a block, on the block's 16 words [M]. *)
Definition step (M : list Z) (st : state) (i : nat) : state :=
  let '(State a b c d) := st in
  let iz := Z.of_nat i in
  let '(f, g) :=
    if iz <? 16 then (Z.lor (Z.land b c) (Z.land (not32 b) d), iz)
    else if iz <? 32 then
      (Z.lor (Z.land d b) (Z.land (not32 d) c), (5 * iz + 1) mod 16)
    else if iz <? 48 then (Z.lxor b (Z.lxor c d), (3 * iz + 5) mod 16)
    else (Z.lxor c (Z.lor b (not32 d)), (7 * iz) mod 16) in
  let x := mask32 (f + a + nth i K 0 + nth (Z.to_nat g) M 0) in
  State d (mask32 (b + rotl x (nth i shifts 0))) b c.

Definition block (st : state) (M : list Z) : state :=
  let '(State a b c d) := fold_left (step M) (seq 0 64) st in
  State (mask32 (sa st + a)) (mask32 (sb st + b))
        (mask32 (sc st + c)) (mask32 (sd st + d)).

(** Little-endian bytes of a word, and back. *)
Fixpoint le_bytes (n : nat) (x : Z) : list Z :=
  match n with
  | O => []
  | S n' => Z.land x 0xff :: le_bytes n' (Z.shiftr x 8)
  end.

Fixpoint le_word (bs : list Z) : Z :=
  match bs with
  | [] => 0
  | b :: r => b + 256 * le_word r
  end.

(** The message followed by 0x80, zeros up to 56 modulo 64, and the
    length in bits as 8 little-endian bytes. *)
Definition pad (msg : list Z) : list Z :=
  let len := Z.of_nat (List.length msg) in
  let zeros := Z.to_nat ((55 - len) mod 64) in
  msg ++ [0x80] ++ repeat 0 zeros
      ++ le_bytes 8 (Z.land (8 * len) 0xffffffffffffffff).

(** Cut into groups of [n]; [fuel] bounds the number of groups. *)
Fixpoint chunks {A : Type} (fuel n : nat) (l : list A) : list (list A) :=
  match fuel, l with
  | _, [] => []
  | O, _ => []
  | S fuel', _ => firstn n l :: chunks fuel' n (skipn n l)
  end.

Definition words (blk : list Z) : list Z :=
  map le_word (chunks 16 4 blk).

Definition digest (msg : list Z) : list Z :=
  let padded := pad msg in
  let '(State a b c d) :=
    fold_left block (map words (chunks (List.length padded) 64 padded)) init in
  le_bytes 4 a ++ le_bytes 4 b ++ le_bytes 4 c ++ le_bytes 4 d.

Definition hex_digit (n : Z) : ascii :=
  if n <? 10 then ascii_of_N (Z.to_N (48 + n))
  else ascii_of_N (Z.to_N (87 + n)).

Fixpoint hex (bs : list Z) : string :=
  match bs with
  | [] => EmptyString
  | b :: r =>
      String (hex_digit (Z.shiftr b 4)) (String (hex_digit (Z.land b 15)) (hex r))
  end.

Definition hexdigest (content : string) : string :=
  hex (digest (map PyStr.code (list_ascii_of_string content))).

End MD5.

(* ===================================================================== *)
(** ** SQLite values and tables

    Stored values are NULL, integers or text (floating-point values are
    outside the model).  The tables are the ones [init_sqlite] creates;
    a table is the list of its rows in rowid order. *)
(* ===================================================================== *)

Inductive sqlval : Type :=
| VNull
| VInt (n : Z)
| VText (s : string).

(** What fits an SQLite INTEGER (and what [sqlite3] accepts as an int). *)
Definition int64 (n : Z) : bool :=
  (- 2 ^ 63 <=? n) && (n <? 2 ^ 63).

Definition sql_space (c : ascii) : bool :=
  let n := PyStr.code c in ((9 <=? n) && (n <=? 13)) || (n =? 32).

Fixpoint sql_lstrip (l : list ascii) : list ascii :=
  match l with
  | c :: r => if sql_space c then sql_lstrip r else l
  | [] => []
  end.

Fixpoint decimal (acc : Z) (l : list ascii) : option Z :=
  match l with
  | [] => Some acc
  | c :: r =>
      let n := PyStr.code c in
      if (48 <=? n) && (n <=? 57) then decimal (acc * 10 + (n - 48)) r
      else None
  end.

(** The integer a text spells, if it is an optionally signed run of
    decimal digits within surrounding white space. *)
Definition integer_literal (s : string) : option Z :=
  match rev (sql_lstrip (rev (sql_lstrip (list_ascii_of_string s)))) with
  | [] => None
  | c :: r =>
      if PyStr.code c =? 45 then
        match r with [] => None | _ => option_map Z.opp (decimal 0 r) end
      else if PyStr.code c =? 43 then
        match r with [] => None | _ => decimal 0 r end
      else decimal 0 (c :: r)
  end.

(** INTEGER column affinity: text that spells a 64-bit integer is stored
    as that integer, any other value as it is.  (Text that spells a real
    number is kept as text here; SQLite would store a floating-point
    value.) *)
Definition integer_affinity (v : sqlval) : sqlval :=
  match v with
  | VText s =>
      match integer_literal s with
      | Some n => if int64 n then VInt n else v
      | None => v
      end
  | _ => v
  end.

(** SQLite's order on stored values: NULL, then integers, then text
    (compared character by character). *)
Definition sql_compare (a b : sqlval) : comparison :=
  match a, b with
  | VNull, VNull => Eq
  | VNull, _ => Lt
  | _, VNull => Gt
  | VInt x, VInt y => x ?= y
  | VInt _, VText _ => Lt
  | VText _, VInt _ => Gt
  | VText s, VText t => String_as_OT.compare s t
  end.

(** [a = b] in a WHERE clause or a UNIQUE constraint: never true of NULL. *)
Definition sql_eq (a b : sqlval) : bool :=
  match a, b with
  | VInt x, VInt y => x =? y
  | VText s, VText t => String.eqb s t
  | _, _ => false
  end.

(** messages (id INTEGER UNIQUE, epoch INTEGER, message TEXT,
    call_sign TEXT, node TEXT, platform TEXT, channel TEXT).
    Both INSERT sites bind a Python int for [id], so it is an integer. *)
Record message_row : Type := Message {
  m_id : Z;
  m_epoch : sqlval;
  m_message : sqlval;
  m_call_sign : sqlval;
  m_node : sqlval;
  m_platform : sqlval;
  m_channel : sqlval
}.

(** users (id TEXT, call_sign TEXT, epoch INTEGER, node TEXT,
    platform TEXT, UNIQUE(id, call_sign, node)). *)
Record user_row : Type := User {
  u_id : sqlval;
  u_call_sign : sqlval;
  u_epoch : sqlval;
  u_node : sqlval;
  u_platform : sqlval
}.

(** files (file TEXT, epoch INTEGER, size INTEGER, node TEXT,
    local INTEGER, platform TEXT, UNIQUE(file, node)). *)
Record file_row : Type := File {
  f_file : sqlval;
  f_epoch : sqlval;
  f_size : sqlval;
  f_node : sqlval;
  f_local : sqlval;
  f_platform : sqlval
}.

(** nodes (name TEXT UNIQUE, port INTEGER, messages_version INTEGER,
    alive INTEGER, last_polled INTEGER, non_mesh INTEGER). *)
Record node_row : Type := Node {
  n_name : sqlval;
  n_port : sqlval;
  n_messages_version : sqlval;
  n_alive : sqlval;
  n_last_polled : sqlval;
  n_non_mesh : sqlval
}.

Record database : Type := Database {
  messages : list message_row;
  users : list user_row;
  files : list file_row;
  nodes : list node_row
}.

Definition empty_database : database := Database [] [] [] [].

Definition set_messages (db : database) (ms : list message_row) : database :=
  Database ms (users db) (files db) (nodes db).
Definition set_users (db : database) (us : list user_row) : database :=
  Database (messages db) us (files db) (nodes db).
Definition set_files (db : database) (fs : list file_row) : database :=
  Database (messages db) (users db) fs (nodes db).
Definition set_nodes (db : database) (ns : list node_row) : database :=
  Database (messages db) (users db) (files db) ns.

(** The connection [self.db]: the committed database and the one the
    connection sees, which also holds the writes of the open
    transaction. *)
Record connection : Type := Connection {
  committed : database;
  working : database
}.

Definition fresh_connection : connection :=
  Connection empty_database empty_database.

(* ===================================================================== *)
(** ** Computations that return or raise *)
(* ===================================================================== *)

Inductive exn : Type :=
| ValueError
| ProgrammingError
| OverflowError
| IntegrityError
| ConnectionError
| ReadTimeout
| RequestException.

Definition exn_eqb (a b : exn) : bool :=
  match a, b with
  | ValueError, ValueError | ProgrammingError, ProgrammingError
  | OverflowError, OverflowError | IntegrityError, IntegrityError
  | ConnectionError, ConnectionError | ReadTimeout, ReadTimeout
  | RequestException, RequestException => true
  | _, _ => false
  end.

Inductive outcome (A : Type) : Type :=
| Return (a : A)
| Raise (e : exn).
Arguments Return {A} a.
Arguments Raise {A} e.

(** A method body: from the connection before to the outcome and the
    connection after.  A raise keeps the connection as it then is. *)
Definition M (A : Type) : Type := connection -> outcome A * connection.

Definition ret {A : Type} (a : A) : M A := fun c => (Return a, c).
Definition raise {A : Type} (e : exn) : M A := fun c => (Raise e, c).

Definition bind {A B : Type} (m : M A) (k : A -> M B) : M B :=
  fun c =>
    match m c with
    | (Return a, c') => k a c'
    | (Raise e, c') => (Raise e, c')
    end.

Notation "x <- m ;; k" := (bind m (fun x => k))
  (at level 61, m at next level, right associativity).
Notation "m ;; k" := (bind m (fun _ => k))
  (at level 61, right associativity).

(** [try: m  except e: pass] *)
Definition try_except_pass (e : exn) (m : M unit) : M unit :=
  fun c =>
    match m c with
    | (Raise e', c') => if exn_eqb e e' then (Return tt, c') else (Raise e', c')
    | r => r
    end.

(** [for x in xs: body(x)] *)
Fixpoint for_each {A : Type} (xs : list A) (body : A -> M unit) : M unit :=
  match xs with
  | [] => ret tt
  | x :: r => body x ;; for_each r body
  end.

(** A list comprehension whose element expression may raise. *)
Fixpoint comprehension {A B : Type} (f : A -> outcome B) (xs : list A)
  : outcome (list B) :=
  match xs with
  | [] => Return []
  | x :: r =>
      match f x with
      | Raise e => Raise e
      | Return y =>
          match comprehension f r with
          | Raise e => Raise e
          | Return ys => Return (y :: ys)
          end
      end
  end.

Definition lift {A : Type} (o : outcome A) : M A := fun c => (o, c).

(** [cur.execute]: a statement either changes the database the
    connection sees or raises and changes nothing. *)
Definition execute (stmt : database -> outcome database) : M unit :=
  fun c =>
    match stmt (working c) with
    | Return db => (Return tt, Connection (committed c) db)
    | Raise e => (Raise e, c)
    end.

(** [cur.executemany]: the statement once per parameter row, in order,
    stopping at the first row that raises; the rows before it stay
    executed. *)
Fixpoint executemany {P : Type} (stmt : P -> database -> outcome database)
         (rows : list P) : M unit :=
  match rows with
  | [] => ret tt
  | p :: r => execute (stmt p) ;; executemany stmt r
  end.

(** A SELECT, read off the database the connection sees. *)
Definition query {A : Type} (q : database -> A) : M A :=
  fun c => (Return (q (working c)), c).

(** [self.db.commit()] *)
Definition commit : M unit :=
  fun c => (Return tt, Connection (working c) (working c)).

(** [sqlite3] refuses a statement when the number of supplied parameters
    differs from its number of placeholders. *)
Definition bindings (placeholders supplied : nat) : outcome unit :=
  if Nat.eqb placeholders supplied then Return tt else Raise ProgrammingError.

(* ===================================================================== *)
(** ** The SQL statements of [meshchat.py] *)
(* ===================================================================== *)

(** What [sqlite3] binds for [None], an [int] and a [str]. *)
Definition bind_str (s : option string) : sqlval :=
  match s with Some t => VText t | None => VNull end.
Definition bind_int (n : option Z) : sqlval :=
  match n with Some k => VInt k | None => VNull end.

(** "INSERT INTO messages (id, epoch, message, call_sign, node, platform,
    channel) VALUES(?, ?, ?, ?, ?, ?, ?)" for the tuple [id] followed by
    [rest].  The UNIQUE constraint on [id] raises [IntegrityError]. *)
Definition insert_message (row : Z * list string) (db : database)
  : outcome database :=
  let '(id, rest) := row in
  match bindings 7 (S (List.length rest)) with
  | Raise e => Raise e
  | Return _ =>
      if negb (int64 id) then Raise OverflowError
      else
        match rest with
        | [epoch; message; call_sign; node; platform; channel] =>
            if existsb (fun m => m_id m =? id) (messages db)
            then Raise IntegrityError
            else Return (set_messages db
                   (messages db ++
                    [Message id (integer_affinity (VText epoch))
                             (VText message) (VText call_sign) (VText node)
                             (VText platform) (VText channel)]))
        | _ => Raise ProgrammingError
        end
  end.

Definition same_user (a b : user_row) : bool :=
  sql_eq (u_id a) (u_id b) && sql_eq (u_call_sign a) (u_call_sign b)
  && sql_eq (u_node a) (u_node b).

(** "REPLACE INTO users (call_sign, id, node, epoch, platform)
    VALUES (?, ?, ?, ?, ?)": the rows in conflict on
    UNIQUE(id, call_sign, node) are deleted, the new row is inserted. *)
Definition replace_user (fields : list string) (db : database)
  : outcome database :=
  match bindings 5 (List.length fields) with
  | Raise e => Raise e
  | Return _ =>
      match fields with
      | [call_sign; id; node; epoch; platform] =>
          let row := User (VText id) (VText call_sign)
                          (integer_affinity (VText epoch))
                          (VText node) (VText platform) in
          Return (set_users db
                    (filter (fun u => negb (same_user u row)) (users db)
                     ++ [row]))
      | _ => Raise ProgrammingError
      end
  end.

Definition same_file (a b : file_row) : bool :=
  sql_eq (f_file a) (f_file b) && sql_eq (f_node a) (f_node b).

(** "REPLACE INTO files (file, node, size, epoch, platform, local)
    VALUES (?, ?, ?, ?, ?, 0)": five placeholders, UNIQUE(file, node). *)
Definition replace_file (fields : list string) (db : database)
  : outcome database :=
  match bindings 5 (List.length fields) with
  | Raise e => Raise e
  | Return _ =>
      match fields with
      | [file; node; size; epoch; platform] =>
          let row := File (VText file) (integer_affinity (VText epoch))
                          (integer_affinity (VText size)) (VText node)
                          (VInt 0) (VText platform) in
          Return (set_files db
                    (filter (fun f => negb (same_file f row)) (files db)
                     ++ [row]))
      | _ => Raise ProgrammingError
      end
  end.

(** "REPLACE INTO nodes (name, port, alive) VALUES (?, ?, 0)" for a
    [(hostname, port)] pair of [urlparse]; the columns not named get
    their default, NULL.  UNIQUE(name). *)
Definition replace_node (node : option string * option Z) (db : database)
  : outcome database :=
  let row := Node (bind_str (fst node)) (bind_int (snd node))
                  VNull (VInt 0) VNull VNull in
  Return (set_nodes db
            (filter (fun n => negb (sql_eq (n_name n) (n_name row))) (nodes db)
             ++ [row])).

(** "UPDATE nodes SET messages_version = ?, alive = 1 WHERE name = ?" *)
Definition update_node_version (version : Z) (name : option string)
           (db : database) : outcome database :=
  if negb (int64 version) then Raise OverflowError
  else Return (set_nodes db
         (map (fun n =>
                 if sql_eq (n_name n) (bind_str name)
                 then Node (n_name n) (n_port n) (VInt version) (VInt 1)
                           (n_last_polled n) (n_non_mesh n)
                 else n)
              (nodes db))).

(** "UPDATE nodes SET last_polled = datetime('now'), non_mesh = 1,
    alive = 1 WHERE name = ?": one placeholder; [now] is the clock's
    text. *)
Definition update_node_non_mesh (now : string) (supplied : list sqlval)
           (db : database) : outcome database :=
  match bindings 1 (List.length supplied) with
  | Raise e => Raise e
  | Return _ =>
      match supplied with
      | [name] =>
          Return (set_nodes db
            (map (fun n =>
                    if sql_eq (n_name n) name
                    then Node (n_name n) (n_port n) (n_messages_version n)
                              (VInt 1) (VText now) (VInt 1)
                    else n)
                 (nodes db)))
      | _ => Raise ProgrammingError
      end
  end.

(** "ORDER BY epoch DESC, id DESC": does [a] come no later than [b]? *)
Definition sorts_before (a b : message_row) : bool :=
  match sql_compare (m_epoch a) (m_epoch b) with
  | Gt => true
  | Lt => false
  | Eq => m_id b <=? m_id a
  end.

Fixpoint insert_sorted (x : message_row) (l : list message_row)
  : list message_row :=
  match l with
  | [] => [x]
  | y :: r => if sorts_before x y then x :: l else y :: insert_sorted x r
  end.

Definition order_by_epoch_desc_id_desc (l : list message_row)
  : list message_row :=
  fold_right insert_sorted [] l.

(** "SELECT id FROM messages ORDER BY epoch DESC, id DESC LIMIT ?" *)
Definition select_head_ids (limit : Z) (db : database) : list Z :=
  map m_id (firstn (Z.to_nat limit)
                   (order_by_epoch_desc_id_desc (messages db))).

(** "DELETE FROM messages WHERE id in (?, ..., ?)" *)
Definition delete_messages (ids : list Z) (db : database) : outcome database :=
  Return (set_messages db
            (filter (fun m => negb (existsb (Z.eqb (m_id m)) ids))
                    (messages db))).

(** "SELECT sum(id) FROM messages": NULL over an empty table.  The sum
    is taken in [Z]; SQLite raises once a running sum leaves the 64-bit
    range, which ids of 32 bits, as every peer generates them, do not
    reach. *)
Definition select_sum_id (db : database) : option Z :=
  match messages db with
  | [] => None
  | ms => Some (fold_right Z.add 0 (map m_id ms))
  end.

(** "SELECT * FROM nodes", with " WHERE alive = 1" when asked. *)
Definition select_nodes (alive : bool) (db : database) : list node_row :=
  if alive then filter (fun n => sql_eq (n_alive n) (VInt 1)) (nodes db)
  else nodes db.

(* ===================================================================== *)
(** ** class [MeshChat] *)
(* ===================================================================== *)

(** The configuration of an instance that the methods below read. *)
Record MeshChat : Type := {
  zone : string;
  max_messages : Z
}.

(** A [urlparse]d link, and an entry of the directory's [services]. *)
Record url : Type := Url {
  url_hostname : option string;
  url_port : option Z;
  url_path : string
}.

Record service : Type := Service {
  svc_name : string;
  svc_link : url
}.

(** What [requests.get] gives: a response, or an exception. *)
Inductive reply : Type :=
| Response (status_code : Z) (headers : list (string * string))
           (content : string)
| Fails (e : exn).

(** [key in result.headers] and [result.headers[key]]: header names
    compare without regard to case. *)
Fixpoint header (key : string) (hs : list (string * string)) : option string :=
  match hs with
  | [] => None
  | (k, v) :: r =>
      if String.eqb (PyStr.lower_string k) (PyStr.lower_string key)
      then Some v else header key r
  end.

Definition get_node_list (alive : bool) : M (list node_row) :=
  query (select_nodes alive).

(** The candidates of a discovery result: the services named as the
    zone whose link path is [/meshchat]. *)
Definition node_list (self : MeshChat) (services : list service)
  : list (option string * option Z) :=
  map (fun l => (url_hostname l, url_port l))
      (filter (fun l => String.eqb (url_path l) "/meshchat")
              (map svc_link
                   (filter (fun s => String.eqb (svc_name s) (zone self))
                           services))).

(** [int(s)] and [int(s, 16)], raising [ValueError]. *)
Definition int_ (base : Z) (s : string) : outcome Z :=
  match PyStr.py_int base s with
  | Some n => Return n
  | None => Raise ValueError
  end.

(** The body of the polling loop of [refresh_node_list] for one node. *)
Definition poll_node (now : string)
           (requests_get : option string * option Z -> reply)
           (node : option string * option Z) : M unit :=
  match requests_get node with
  | Fails ConnectionError => ret tt
  | Fails ReadTimeout => ret tt
  | Fails e => raise e
  | Response status_code _ text =>
      if negb (status_code =? 200) then
        n <- lift (int_ 10 text) ;;
        execute (update_node_non_mesh now [VInt n; bind_str (fst node)])
      else
        n <- lift (int_ 10 text) ;;
        execute (update_node_version n (fst node))
  end.

(** The first statement of [refresh_node_list]: discovery proper. *)
Definition discover (self : MeshChat) (services : list service) : M unit :=
  executemany replace_node (node_list self services).

Definition refresh_node_list (self : MeshChat) (services : list service)
           (now : string)
           (requests_get : option string * option Z -> reply) : M unit :=
  discover self services ;;
  for_each (node_list self services) (poll_node now requests_get) ;;
  commit.

Definition update_users (users : string) : M unit :=
  let rows := map (PyStr.split PyStr.TAB) (PyStr.splitlines users) in
  executemany replace_user rows ;;
  commit.

Definition prune_messages (self : MeshChat) : M unit :=
  message_count <- query (fun db => Z.of_nat (List.length (messages db))) ;;
  let messages_over_limit := message_count - max_messages self in
  (if 0 <? messages_over_limit then
     ids <- query (select_head_ids messages_over_limit) ;;
     execute (delete_messages ids)
   else ret tt) ;;
  commit.

(** [tuple([int(line.split('\t')[0], 16)] + line.split('\t')[1:7])] *)
Definition message_tuple (line : string) : outcome (Z * list string) :=
  let fields := PyStr.split PyStr.TAB line in
  match int_ 16 (nth 0 fields EmptyString) with
  | Raise e => Raise e
  | Return id => Return (id, PyStr.slice 1 7 fields)
  end.

Definition update_messages (self : MeshChat) (messages : string) : M unit :=
  rows <- lift (comprehension message_tuple (PyStr.splitlines messages)) ;;
  try_except_pass IntegrityError (executemany insert_message rows) ;;
  commit ;;
  prune_messages self.

Definition update_files (files : string) : M unit :=
  let rows := map (PyStr.split PyStr.TAB) (PyStr.splitlines files) in
  executemany replace_file rows ;;
  commit.

Definition get_message_version : M Z :=
  version <- query select_sum_id ;;
  ret (match version with None => 0 | Some v => v end).

Definition check_message_checksum (headers : list (string * string))
           (content : string) : bool :=
  match header "Content-MD5" headers with
  | None => false
  | Some md5 => String.eqb (MD5.hexdigest content) md5
  end.

(** [fetch_raw_list], given what [requests.get(url, ...)] gave.  The
    text handed to [update_function] is the body itself (one character
    per byte). *)
Definition fetch_raw_list (result : reply)
           (update_function : string -> M unit) : M unit :=
  match result with
  | Fails ConnectionError => ret tt
  | Fails e => raise e
  | Response status_code headers content =>
      if status_code =? 404 then ret tt
      else if check_message_checksum headers content
              && (0 <? Z.of_nat (String.length content))
           then update_function content
           else ret tt
  end.

(** [refresh_users] and [refresh_files]: one fetch per node that is
    alive; [requests_get] answers for a node row. *)
Definition refresh_users (requests_get : node_row -> reply) : M unit :=
  alive_nodes <- get_node_list true ;;
  for_each alive_nodes
           (fun node => fetch_raw_list (requests_get node) update_users).

Definition refresh_files (requests_get : node_row -> reply) : M unit :=
  alive_nodes <- get_node_list true ;;
  for_each alive_nodes
           (fun node => fetch_raw_list (requests_get node) update_files).

(* ===================================================================== *)
(** ** Printing values: [str], the [08x] format, [str.join], UTF-8 *)
(* ===================================================================== *)

(** The digits of [n >= 0] in base [base], most significant first;
    [fuel] bounds their number. *)
Fixpoint digit_list (base : Z) (fuel : nat) (n : Z) : list Z :=
  match fuel with
  | O => []
  | S fuel' =>
      if n <? base then [n]
      else digit_list base fuel' (n / base) ++ [n mod base]
  end.

(** As many digits as [n] has bits are enough in any base. *)
Definition digits_of (base : Z) (n : Z) : list ascii :=
  map MD5.hex_digit (digit_list base (S (Z.to_nat (Z.log2 n))) n).

(** [str(n)] for an [int]. *)
Definition str_int (n : Z) : string :=
  if n <? 0 then String (ascii_of_N 45) (string_of_list_ascii (digits_of 10 (- n)))
  else string_of_list_ascii (digits_of 10 n).

Definition ZERO : ascii := ascii_of_N 48.

(** Zero padding on the left up to [width] characters. *)
Definition zfill (width : nat) (l : list ascii) : list ascii :=
  repeat ZERO (width - List.length l) ++ l.

(** [format(n, '08x')]: lower-case hexadecimal, padded with zeros to
    eight characters, the sign of a negative number included. *)
Definition hex08 (n : Z) : string :=
  if n <? 0
  then String (ascii_of_N 45)
              (string_of_list_ascii (zfill 7 (digits_of 16 (- n))))
  else string_of_list_ascii (zfill 8 (digits_of 16 n)).

(** [str(x)] for a value read from the database, as an f-string or
    [str] prints it. *)
Definition py_str (v : sqlval) : string :=
  match v with
  | VNull => "None"
  | VInt n => str_int n
  | VText s => s
  end.

(** [sep.join(items)] *)
Definition join (sep : string) (items : list string) : string :=
  String.concat sep items.

Definition TABS : string := String PyStr.TAB EmptyString.
Definition LFS : string := String PyStr.LF EmptyString.

(** [s.encode('utf-8')] for code points below 256, as a byte string. *)
Fixpoint utf8 (s : string) : string :=
  match s with
  | EmptyString => EmptyString
  | String c r =>
      let n := PyStr.code c in
      if n <? 128 then String c (utf8 r)
      else String (ascii_of_N (Z.to_N (192 + Z.shiftr n 6)))
                  (String (ascii_of_N (Z.to_N (128 + Z.land n 63))) (utf8 r))
  end.

(* ===================================================================== *)
(** ** More statements and methods of [MeshChat]

    [self.node] is [platform.node()], the host name; the methods that
    read it take it as [node]. *)
(* ===================================================================== *)

(** [sort_by le]: a sorted permutation for ORDER BY clauses. *)
Fixpoint insert_by {A : Type} (le : A -> A -> bool) (x : A) (l : list A)
  : list A :=
  match l with
  | [] => [x]
  | y :: r => if le x y then x :: l else y :: insert_by le x r
  end.

Definition sort_by {A : Type} (le : A -> A -> bool) (l : list A) : list A :=
  fold_right (insert_by le) [] l.

(** "ORDER BY epoch ASC, id ASC" *)
Definition sorts_before_asc (a b : message_row) : bool :=
  match sql_compare (m_epoch a) (m_epoch b) with
  | Lt => true
  | Gt => false
  | Eq => m_id a <=? m_id b
  end.

Definition order_by_epoch_asc_id_asc (l : list message_row)
  : list message_row :=
  sort_by sorts_before_asc l.

(** The f-string of [get_raw_messages] for one row. *)
Definition message_line (row : message_row) : string :=
  (hex08 (m_id row) ++ TABS ++ py_str (m_epoch row) ++ TABS
   ++ py_str (m_message row) ++ TABS ++ py_str (m_call_sign row) ++ TABS
   ++ py_str (m_node row) ++ TABS ++ py_str (m_platform row) ++ TABS
   ++ py_str (m_channel row))%string.

Definition get_raw_messages : M string :=
  query (fun db =>
           join LFS (map message_line
                         (order_by_epoch_asc_id_asc (messages db)))).

(** A row of "SELECT * FROM users", in the order of the table's
    columns. *)
Definition user_columns (u : user_row) : list sqlval :=
  [u_id u; u_call_sign u; u_epoch u; u_node u; u_platform u].

Definition get_raw_users (node : string) (local_only : bool) : M string :=
  query (fun db =>
           let rows :=
             if local_only
             then filter (fun u => sql_eq (u_node u) (VText node)) (users db)
             else users db in
           join LFS (map (fun u => join TABS (map py_str (user_columns u)))
                         rows)).

(** A row of "SELECT file, node, size, epoch, platform FROM files". *)
Definition file_columns (f : file_row) : list sqlval :=
  [f_file f; f_node f; f_size f; f_epoch f; f_platform f].

Definition get_raw_files (local_only : bool) : M string :=
  query (fun db =>
           let rows :=
             if local_only
             then filter (fun f => sql_eq (f_local f) (VInt 1)) (files db)
             else files db in
           join LFS (map (fun f => join TABS (map py_str (file_columns f)))
                         rows)).

(** "UPDATE users SET epoch = ? WHERE call_sign = ? AND node = ?" *)
Definition set_user_epoch (epoch : Z) (callsign node : string)
           (db : database) : outcome database :=
  if negb (int64 epoch) then Raise OverflowError
  else Return (set_users db
         (map (fun u =>
                 if sql_eq (u_call_sign u) (VText callsign)
                    && sql_eq (u_node u) (VText node)
                 then User (u_id u) (u_call_sign u) (VInt epoch) (u_node u)
                           (u_platform u)
                 else u)
              (users db))).

Definition update_user_epoch (node callsign : string) (epoch : Z) : M unit :=
  execute (set_user_epoch epoch callsign node) ;;
  commit.

(** "REPLACE INTO users(call_sign, id, node, epoch, platform)
    VALUES (?, ?, ?, ?, 'pi')"; the call sign and the id come from
    [args.get] and may be [None]. *)
Definition replace_local_user (callsign id : option string) (node : string)
           (epoch : Z) (db : database) : outcome database :=
  if negb (int64 epoch) then Raise OverflowError
  else
    let row := User (bind_str id) (bind_str callsign) (VInt epoch)
                    (VText node) (VText "pi") in
    Return (set_users db
              (filter (fun u => negb (same_user u row)) (users db) ++ [row])).

Definition update_local_user (node : string) (callsign id : option string)
           (epoch : Z) : M unit :=
  execute (replace_local_user callsign id node epoch) ;;
  commit.

(** [int(hashlib.md5(f'{int(time.time())}.{random.randrange(0, 99999)}'
    .encode('utf-8')).hexdigest()[0:8], 16)], for the clock's seconds
    and the random draw. *)
Definition message_id (seconds draw : Z) : outcome Z :=
  int_ 16 (String.substring 0 8
             (MD5.hexdigest
                (utf8 (str_int seconds ++ "." ++ str_int draw)%string))).

(** "INSERT INTO messages (id, call_sign, epoch, message, node, platform,
    channel ) VALUES (?, ?, ?, ?, ?, 'pi', ?)"; call sign, message and
    channel come from [args.get] and may be [None], the epoch is an
    [int]. *)
Definition insert_local_message (id : Z) (callsign : option string)
           (epoch : Z) (message : option string) (node : string)
           (channel : option string) (db : database) : outcome database :=
  if negb (int64 id && int64 epoch) then Raise OverflowError
  else if existsb (fun m => m_id m =? id) (messages db)
       then Raise IntegrityError
       else Return (set_messages db
              (messages db ++
               [Message id (VInt epoch) (bind_str message) (bind_str callsign)
                        (VText node) (VText "pi") (bind_str channel)])).

Definition create_message (self : MeshChat) (node : string)
           (seconds draw : Z) (callsign message channel : option string)
           (epoch : Z) : M unit :=
  idhash <- lift (message_id seconds draw) ;;
  execute (insert_local_message idhash callsign epoch message node channel) ;;
  commit ;;
  prune_messages self.

(** [a != b] in a WHERE clause: never true of NULL. *)
Definition sql_ne (a b : sqlval) : bool :=
  match a, b with
  | VNull, _ | _, VNull => false
  | _, _ => negb (sql_eq a b)
  end.

(** "SELECT * FROM nodes WHERE messages_version != ? AND alive = 1" *)
Definition select_stale_nodes (version : Z) (db : database) : list node_row :=
  filter (fun n => sql_ne (n_messages_version n) (VInt version)
                   && sql_eq (n_alive n) (VInt 1))
         (nodes db).

(** "UPDATE nodes SET last_polled = datetime('now') WHERE alive = 1" *)
Definition stamp_last_polled (now : string) (db : database)
  : outcome database :=
  Return (set_nodes db
            (map (fun n =>
                    if sql_eq (n_alive n) (VInt 1)
                    then Node (n_name n) (n_port n) (n_messages_version n)
                              (n_alive n) (VText now) (n_non_mesh n)
                    else n)
                 (nodes db))).

(** [refresh_messages]: the rows of the SELECT are those of the registry
    when the loop starts; the loop body writes to other tables only. *)
Definition refresh_messages (self : MeshChat) (now : string)
           (requests_get : node_row -> reply) : M unit :=
  version <- get_message_version ;;
  stale <- query (select_stale_nodes version) ;;
  for_each stale
           (fun node => fetch_raw_list (requests_get node)
                                       (update_messages self)) ;;
  execute (stamp_last_polled now) ;;
  commit.

(* ===================================================================== *)
(** ** The Flask layer: what a node serves to its peers *)
(* ===================================================================== *)

(** [send_checksummed_text]: the body is the UTF-8 encoding of the text,
    the header its MD5. *)
Definition send_checksummed_text (response_text : string) : reply :=
  Response 200
    [ ("Content-Type", "text/plain; charset=utf-8");
      ("Content-Length",
       str_int (Z.of_nat (String.length (utf8 response_text))));
      ("Content-MD5", MD5.hexdigest (utf8 response_text)) ]
    (utf8 response_text).

Definition do_messages_raw : M reply :=
  text <- get_raw_messages ;; ret (send_checksummed_text text).

Definition do_users_raw (node : string) : M reply :=
  text <- get_raw_users node true ;; ret (send_checksummed_text text).

Definition do_local_files_raw : M reply :=
  text <- get_raw_files true ;; ret (send_checksummed_text text).

(** [do_messages_version]: the version as plain text, without checksum. *)
Definition do_messages_version : M reply :=
  version <- get_message_version ;;
  ret (Response 200
         [ ("Content-Type", "text/plain; charset=utf-8");
           ("Content-Length",
            str_int (Z.of_nat (String.length (str_int version)))) ]
         (str_int version)).

(* ===================================================================== *)
(** ** Notions used to state the properties *)
(* ===================================================================== *)

(** The row that [insert_message] stores for a parameter tuple. *)
Definition message_of (row : Z * list string) : message_row :=
  let f := fun i => nth i (snd row) EmptyString in
  Message (fst row) (integer_affinity (VText (f 0%nat)))
          (VText (f 1%nat)) (VText (f 2%nat)) (VText (f 3%nat))
          (VText (f 4%nat)) (VText (f 5%nat)).

(** A parameter tuple that [sqlite3] can bind to the seven placeholders. *)
Definition insertable (row : Z * list string) : Prop :=
  int64 (fst row) = true /\ List.length (snd row) = 6%nat.

Definition ids (ms : list message_row) : list Z := map m_id ms.

(** The arithmetic sum of the stored message ids. *)
Definition sum_ids (ms : list message_row) : Z :=
  fold_right Z.add 0 (ids ms).

(** A text without any line boundary of [str.splitlines]. *)
Fixpoint no_linebreak (s : string) : bool :=
  match s with
  | EmptyString => true
  | String c r => negb (PyStr.is_linebreak c) && no_linebreak r
  end.

(** The relation of "ORDER BY epoch DESC, id DESC". *)
Definition comes_before (a b : message_row) : Prop := sorts_before a b = true.

(** The messages table after [prune_messages] with limit [limit]. *)
Definition pruned (limit : Z) (ms : list message_row) : list message_row :=
  let over := Z.of_nat (List.length ms) - limit in
  if 0 <? over
  then filter (fun m => negb (existsb (Z.eqb (m_id m))
                 (map m_id (firstn (Z.to_nat over)
                                   (order_by_epoch_desc_id_desc ms)))))
              ms
  else ms.

(** The messages table after the guarded [executemany] of
    [update_messages] over insertable tuples: the tuples are appended in
    order up to the first one whose id is already in the table. *)
Fixpoint inserted (ms : list message_row) (rows : list (Z * list string))
  : list message_row :=
  match rows with
  | [] => ms
  | row :: rest =>
      if existsb (fun m => m_id m =? fst row) ms then ms
      else inserted (ms ++ [message_of row]) rest
  end.

(** An id as the feeds print it: eight hexadecimal digits. *)
Definition is_hex_digit (c : ascii) : bool :=
  match PyStr.digit_value c with
  | Some d => d <? 16
  | None => false
  end.

Definition hex_id (s : string) : Prop :=
  List.length (list_ascii_of_string s) = 8%nat
  /\ Forall (fun c => is_hex_digit c = true) (list_ascii_of_string s).

(** A messages feed in the documented format: every line has exactly
    seven tab-separated fields and an id field that [int(., 16)] reads
    as a 64-bit integer. *)
Definition well_formed_line (line : string) : Prop :=
  List.length (PyStr.split PyStr.TAB line) = 7%nat
  /\ exists id, PyStr.py_int 16 (nth 0 (PyStr.split PyStr.TAB line) EmptyString)
                = Some id
                /\ int64 id = true.

Definition well_formed_feed (text : string) : Prop :=
  Forall well_formed_line (PyStr.splitlines text).

(** A character a feed field can carry and keep: ASCII, neither a tab
    nor a line boundary. *)
Definition plain_char (c : ascii) : bool :=
  (PyStr.code c <? 128) && negb (Ascii.eqb c PyStr.TAB)
  && negb (PyStr.is_linebreak c).

Fixpoint plain_text (s : string) : bool :=
  match s with
  | EmptyString => true
  | String c r => plain_char c && plain_text r
  end.

Fixpoint no_tab (s : string) : bool :=
  match s with
  | EmptyString => true
  | String c r => negb (Ascii.eqb c PyStr.TAB) && no_tab r
  end.

Fixpoint ascii_text (s : string) : bool :=
  match s with
  | EmptyString => true
  | String c r => (PyStr.code c <? 128) && ascii_text r
  end.

Definition plain_value (v : sqlval) : bool :=
  match v with
  | VText s => plain_text s
  | _ => false
  end.

Definition int64_value (v : sqlval) : bool :=
  match v with
  | VInt n => int64 n
  | _ => false
  end.

(** A message row whose feed line carries it whole: a 64-bit id and
    epoch, plain texts in the other columns. *)
Definition feed_message (m : message_row) : bool :=
  int64 (m_id m) && int64_value (m_epoch m) && plain_value (m_message m)
  && plain_value (m_call_sign m) && plain_value (m_node m)
  && plain_value (m_platform m) && plain_value (m_channel m).

(** The parameter tuple that the feed line of a row is read as. *)
Definition tuple_of (m : message_row) : Z * list string :=
  (m_id m,
   [py_str (m_epoch m); py_str (m_message m); py_str (m_call_sign m);
    py_str (m_node m); py_str (m_platform m); py_str (m_channel m)]).

(** A users row all of whose columns print as plain texts. *)
Definition feed_user (u : user_row) : bool :=
  forallb (fun v => plain_text (py_str v)) (user_columns u).

(** The line [get_raw_users] prints for a row, and the row that
    [replace_user] stores when that line's fields are bound, in order, to
    (call_sign, id, node, epoch, platform). *)
Definition user_line (u : user_row) : string :=
  join TABS (map py_str (user_columns u)).

Definition user_as_received (u : user_row) : user_row :=
  User (VText (py_str (u_call_sign u))) (VText (py_str (u_id u)))
       (integer_affinity (VText (py_str (u_node u))))
       (VText (py_str (u_epoch u))) (VText (py_str (u_platform u))).

(** REPLACE on the users and the files table, on rows. *)
Definition upsert_user (us : list user_row) (row : user_row)
  : list user_row :=
  filter (fun u => negb (same_user u row)) us ++ [row].

Definition upsert_file (fs : list file_row) (row : file_row)
  : list file_row :=
  filter (fun f => negb (same_file f row)) fs ++ [row].

(** A files row whose feed line carries it whole, the line, and the row
    with its [local] flag cleared. *)
Definition feed_file (f : file_row) : bool :=
  plain_value (f_file f) && plain_value (f_node f)
  && int64_value (f_size f) && int64_value (f_epoch f)
  && plain_value (f_platform f).

Definition file_line (f : file_row) : string :=
  join TABS (map py_str (file_columns f)).

Definition as_remote (f : file_row) : file_row :=
  File (f_file f) (f_epoch f) (f_size f) (f_node f) (VInt 0) (f_platform f).

(** The rows the two SELECTs of the raw feeds read. *)
Definition users_served (node : string) (local_only : bool) (db : database)
  : list user_row :=
  if local_only
  then filter (fun u => sql_eq (u_node u) (VText node)) (users db)
  else users db.

Definition files_served (local_only : bool) (db : database)
  : list file_row :=
  if local_only
  then filter (fun f => sql_eq (f_local f) (VInt 1)) (files db)
  else files db.

(* ===================================================================== *)
(** ** Concrete data used in the examples below *)
(* ===================================================================== *)

Definition tab_join (fields : list string) : string :=
  String.concat (String PyStr.TAB EmptyString) fields.

Definition default_chat : MeshChat :=
  {| zone := "MeshChat"; max_messages := 500 |}.

(** The line of the specification's scenario A. *)
Definition scenario_line : string :=
  tab_join ["0000002a"; "1700000000"; "hello"; "KB1XYZ"; "nodeA"; "pi";
            "general"].

Definition node_a : node_row :=
  Node (VText "nodeA") (VInt 8080) (VInt 42) (VInt 1)
       (VText "2024-01-01 00:00:00") (VInt 1).

Definition registry_a : connection :=
  let db := set_nodes empty_database [node_a] in Connection db db.

Definition zone_services : list service :=
  [ Service "OtherZone" (Url (Some "nodeB") (Some 8080) "/meshchat");
    Service "MeshChat" (Url (Some "nodeA") (Some 8080) "/meshchat") ].

(** A registry whose only peer is alive, and a users feed of one line. *)
Definition alive_a : connection :=
  let db := set_nodes empty_database
              [Node (VText "nodeA") (VInt 8080) (VInt 0) (VInt 1) VNull
                    VNull] in
  Connection db db.

Definition users_feed : string :=
  tab_join ["KB1XYZ"; "7"; "nodeA"; "1700000000"; "pi"].



(** Messages lines with ids 1, 2 and 3; the third has an eighth field
    and the last one only two. *)
Definition line_1 : string :=
  tab_join ["00000001"; "10"; "one"; "KB1XYZ"; "nodeA"; "pi"; "general"].
Definition line_2 : string :=
  tab_join ["00000002"; "20"; "two"; "KB1XYZ"; "nodeA"; "pi"; "general"].
Definition line_3_long : string :=
  tab_join ["00000003"; "30"; "three"; "KB1XYZ"; "nodeA"; "pi"; "general";
            "extra"].
Definition line_short : string := tab_join ["00000004"; "40"].

(** The store after merging [line_1] into an empty one. *)
Definition store_with_1 : connection :=
  snd (update_messages default_chat line_1 fresh_connection).

(** A files line in the five-field format the peers serve, and one with
    a sixth field. *)
Definition file_line_5 : string :=
  tab_join ["map.png"; "nodeB"; "1024"; "1700000000"; "pi"].
Definition file_line_6 : string :=
  tab_join ["map.png"; "nodeB"; "1024"; "1700000000"; "pi"; "0"].

(** An instance that keeps two messages, one that keeps a single one,
    and stores holding three and two messages. *)
Definition chat_limit_2 : MeshChat :=
  {| zone := "MeshChat"; max_messages := 2 |}.

Definition plain_message (id epoch : Z) : message_row :=
  Message id (VInt epoch) (VText "text") (VText "KB1XYZ") (VText "nodeA")
          (VText "pi") (VText "general").

Definition three_messages : connection :=
  let db := set_messages empty_database
              [plain_message 1 10; plain_message 2 30; plain_message 3 20] in
  Connection db db.

Definition two_messages : connection :=
  let db := set_messages empty_database
              [plain_message 1 50; plain_message 9 1] in
  Connection db db.

(** A store of [n] messages with ids and epochs 1 to [n]. *)
Definition many_messages (n : nat) : connection :=
  let db := set_messages empty_database
              (map (fun i => plain_message (Z.of_nat i) (Z.of_nat i))
                   (seq 1 n)) in
  Connection db db.

(** A feed line that repeats the id 1 with another epoch. *)
Definition line_1_again : string :=
  tab_join ["00000001"; "0"; "again"; "KB1XYZ"; "nodeA"; "pi"; "general"].

(** A store with one user of this node, and one with a local and a
    remote file. *)
Definition user_7 : user_row :=
  User (VText "7") (VText "KB1XYZ") (VInt 1700000000) (VText "nodeA")
       (VText "pi").

Definition one_user : connection :=
  let db := set_users empty_database [user_7] in Connection db db.

Definition local_map : file_row :=
  File (VText "map.png") (VInt 1700000000) (VInt 1024) (VText "nodeA")
       (VInt 1) (VText "pi").

Definition remote_notes : file_row :=
  File (VText "notes.txt") (VInt 1700000100) (VInt 10) (VText "nodeB")
       (VInt 0) (VText "pi").

Definition two_files : connection :=
  let db := set_files empty_database [local_map; remote_notes] in
  Connection db db.

(* ===================================================================== *)
(** ** The computation monad: how the combinators run *)
(* ===================================================================== *)

Lemma bind_return {A B : Type} (m : M A) (k : A -> M B) c a c' :
  m c = (Return a, c') -> bind m k c = k a c'.
Proof. intros H. unfold bind. rewrite H. reflexivity. Qed.

Lemma bind_raise {A B : Type} (m : M A) (k : A -> M B) c e c' :
  m c = (Raise e, c') -> bind m k c = (Raise e, c').
Proof. intros H. unfold bind. rewrite H. reflexivity. Qed.

Lemma execute_return stmt c db :
  stmt (working c) = Return db ->
  execute stmt c = (Return tt, Connection (committed c) db).
Proof. intros H. unfold execute. rewrite H. reflexivity. Qed.

Lemma execute_raise stmt c e :
  stmt (working c) = Raise e -> execute stmt c = (Raise e, c).
Proof. intros H. unfold execute. rewrite H. reflexivity. Qed.

(** Whatever [executemany] does, it commits nothing. *)
Lemma executemany_committed {P : Type} stmt (rows : list P) :
  forall c, committed (snd (executemany stmt rows c)) = committed c.
Proof.
  induction rows as [|p rows IH]; intros c; simpl.
  - reflexivity.
  - unfold bind, execute.
    destruct (stmt p (working c)) as [db|e]; simpl.
    + rewrite IH. reflexivity.
    + reflexivity.
Qed.

(* ===================================================================== *)
(** ** The library models on known values *)
(* ===================================================================== *)

(** The test suite of RFC 1321, in part. *)
Example md5_empty : MD5.hexdigest "" = "d41d8cd98f00b204e9800998ecf8427e".
Proof. vm_compute. reflexivity. Qed.

Example md5_abc : MD5.hexdigest "abc" = "900150983cd24fb0d6963f7d28e17f72".
Proof. vm_compute. reflexivity. Qed.

Example md5_message_digest :
  MD5.hexdigest "message digest" = "f96b697d7cb7938d525a2f31aaf161d0".
Proof. vm_compute. reflexivity. Qed.

Example md5_alphabet :
  MD5.hexdigest "abcdefghijklmnopqrstuvwxyz"
  = "c3fcd3d76192e4007dfb496cca67e13b".
Proof. vm_compute. reflexivity. Qed.

(** [int] on the forms a feed can carry. *)
Example int_hex_id : PyStr.py_int 16 "0000002a" = Some 42.
Proof. reflexivity. Qed.

Example int_hex_prefix : PyStr.py_int 16 " -0xFF " = Some (-255).
Proof. reflexivity. Qed.

Example int_hex_invalid :
  (PyStr.py_int 16 "", PyStr.py_int 16 "0x", PyStr.py_int 16 "12g",
   PyStr.py_int 16 "1__2", PyStr.py_int 10 "0x10")
  = (None, None, None, None, None).
Proof. reflexivity. Qed.

(** [splitlines] and [split] on a small text. *)
Example splitlines_mixed :
  PyStr.splitlines
    ("a" ++ String PyStr.CR (String PyStr.LF ("" ++ String PyStr.LF
       ("b" ++ String PyStr.LF ""))))%string
  = ["a"; ""; "b"].
Proof. reflexivity. Qed.

Example split_scenario_line :
  PyStr.split PyStr.TAB scenario_line
  = ["0000002a"; "1700000000"; "hello"; "KB1XYZ"; "nodeA"; "pi"; "general"].
Proof. reflexivity. Qed.

(** Scenario D: of two advertised services only the one named as the
    zone, with the [/meshchat] path, becomes a candidate. *)
Example node_list_scenario :
  node_list default_chat zone_services = [(Some "nodeA", Some 8080)].
Proof. reflexivity. Qed.

(* ===================================================================== *)
(** ** Fetching: the checksum gate and the 404 path *)
(* ===================================================================== *)

(** C6.  A response whose [Content-MD5] header is absent, or differs
    from the hex MD5 of the body, or whose body is empty, is dropped by
    [fetch_raw_list]: the call returns, the update function is not run
    (whatever it is), and the connection is exactly as before. *)
Theorem fetch_raw_list_integrity_gate :
  forall status_code headers content (update_function : string -> M unit) c,
    header "Content-MD5" headers = None
    \/ (exists md5, header "Content-MD5" headers = Some md5
                    /\ md5 <> MD5.hexdigest content)
    \/ content = EmptyString ->
    fetch_raw_list (Response status_code headers content) update_function c
    = (Return tt, c).
Proof.
  intros status_code headers content update_function c H.
  unfold fetch_raw_list.
  destruct (status_code =? 404); [reflexivity|].
  destruct H as [Habsent | [[md5 [Hsome Hdiff]] | Hempty]].
  - unfold check_message_checksum. rewrite Habsent. reflexivity.
  - unfold check_message_checksum. rewrite Hsome.
    destruct (String.eqb_spec (MD5.hexdigest content) md5) as [Heq|Hne].
    + exfalso. apply Hdiff. symmetry. exact Heq.
    + reflexivity.
  - subst content. rewrite andb_false_r. reflexivity.
Qed.

(** Scenario C: status 200, body "abc", a checksum header that is not
    the MD5 of "abc". *)
Lemma fetch_raw_list_integrity_gate_witness :
  (header "Content-MD5" [("content-md5", "00000000000000000000000000000000")]
   = Some "00000000000000000000000000000000"
   /\ "00000000000000000000000000000000" <> MD5.hexdigest "abc")
  /\ fetch_raw_list
       (Response 200 [("content-md5", "00000000000000000000000000000000")] "abc")
       (update_messages default_chat) fresh_connection
     = (Return tt, fresh_connection).
Proof.
  split.
  - split; [reflexivity | vm_compute; discriminate].
  - apply (fetch_raw_list_integrity_gate 200
             [("content-md5", "00000000000000000000000000000000")] "abc"
             (update_messages default_chat) fresh_connection).
    right; left. exists "00000000000000000000000000000000".
    split; [reflexivity | vm_compute; discriminate].
Defined.

(** C4, as the code has it.  A 404 makes [fetch_raw_list] return at
    once: no update function runs and the connection, the registry row
    of the peer included, is exactly as before; nothing marks the peer,
    and the nodes a later [refresh_users] or [refresh_files] selects are
    the same as before. *)
Theorem fetch_raw_list_404_changes_nothing :
  forall headers content (update_function : string -> M unit) c,
    fetch_raw_list (Response 404 headers content) update_function c
    = (Return tt, c)
    /\ get_node_list true
         (snd (fetch_raw_list (Response 404 headers content) update_function c))
       = get_node_list true c.
Proof.
  intros headers content update_function c.
  assert (H : fetch_raw_list (Response 404 headers content) update_function c
              = (Return tt, c)) by reflexivity.
  split; [exact H | rewrite H; reflexivity].
Qed.

(** The peer [nodeA] is alive with a NULL [non_mesh] flag.  Its feed
    answers 404; the flag is still NULL afterwards, and the next
    [refresh_users] fetches from the very same peer again and merges
    what it serves. *)
Lemma fetch_404_marks_nothing_and_peer_is_fetched_again :
  let after_404 :=
    snd (refresh_users (fun _ => Response 404 [] "Invalid Action") alive_a) in
  map n_non_mesh (nodes (working after_404)) = [VNull]
  /\ map n_name (nodes (working after_404)) = [VText "nodeA"]
  /\ users (working
        (snd (refresh_users
           (fun _ => Response 200 [("Content-MD5", MD5.hexdigest users_feed)]
                              users_feed)
           after_404)))
     = [User (VText "7") (VText "KB1XYZ") (VInt 1700000000) (VText "nodeA")
             (VText "pi")].
Proof. vm_compute. repeat split. Qed.

(* ===================================================================== *)
(** ** Discovery and the version probe *)
(* ===================================================================== *)

Lemma filter_filter_implied {A : Type} (f g : A -> bool) (l : list A) :
  (forall x, f x = true -> g x = true) ->
  filter f (filter g l) = filter f l.
Proof.
  intros H. induction l as [|x l IH]; simpl; [reflexivity|].
  destruct (g x) eqn:Hg; simpl.
  - rewrite IH. reflexivity.
  - destruct (f x) eqn:Hf.
    + apply H in Hf. congruence.
    + exact IH.
Qed.

Lemma filter_none {A : Type} (f g : A -> bool) (l : list A) :
  (forall x, f x = true -> g x = false) ->
  filter f (filter g l) = [].
Proof.
  intros H. induction l as [|x l IH]; simpl; [reflexivity|].
  destruct (g x) eqn:Hg; simpl.
  - destruct (f x) eqn:Hf.
    + apply H in Hf. congruence.
    + exact IH.
  - exact IH.
Qed.

Lemma sql_eq_text_inv v s : sql_eq v (VText s) = true -> v = VText s.
Proof.
  destruct v as [|n|t]; simpl; try discriminate.
  intros H. apply String.eqb_eq in H. subst. reflexivity.
Qed.

Lemma sql_eq_text_refl s : sql_eq (VText s) (VText s) = true.
Proof. simpl. apply String.eqb_refl. Qed.

Lemma executemany_replace_node_returns l :
  forall c, fst (executemany replace_node l c) = Return tt.
Proof.
  induction l as [|p l IH]; intros c; simpl; [reflexivity|].
  unfold bind, execute. simpl. apply IH.
Qed.

(** REPLACE only touches the rows of the names it is given. *)
Lemma executemany_replace_node_other l name :
  ~ In (Some name) (map fst l) ->
  forall c,
    filter (fun n => sql_eq (n_name n) (VText name))
           (nodes (working (snd (executemany replace_node l c))))
    = filter (fun n => sql_eq (n_name n) (VText name)) (nodes (working c)).
Proof.
  induction l as [|p l IH]; intros Hnot c; simpl; [reflexivity|].
  unfold bind, execute. simpl.
  rewrite IH by (intros Hin; apply Hnot; right; exact Hin).
  simpl. rewrite filter_app. simpl.
  assert (Hp : sql_eq (bind_str (fst p)) (VText name) = false).
  { destruct (fst p) as [s|] eqn:Hfst; simpl; [|reflexivity].
    apply String.eqb_neq. intros ->. apply Hnot. left. exact Hfst. }
  rewrite Hp, app_nil_r.
  apply filter_filter_implied.
  intros x Hx. apply sql_eq_text_inv in Hx. rewrite Hx.
  destruct (fst p) as [s|]; simpl; [|reflexivity].
  simpl in Hp. rewrite String.eqb_sym. rewrite Hp. reflexivity.
Qed.

Lemma option_string_eq_dec (x y : option string) : {x = y} + {x <> y}.
Proof. decide equality. apply string_dec. Defined.

Lemma executemany_replace_node_row l name :
  In (Some name) (map fst l) ->
  forall c, exists port,
    In (Some name, port) l
    /\ filter (fun n => sql_eq (n_name n) (VText name))
              (nodes (working (snd (executemany replace_node l c))))
       = [Node (VText name) (bind_int port) VNull (VInt 0) VNull VNull].
Proof.
  induction l as [|p l IH]; intros Hin c; simpl in Hin; [contradiction|].
  destruct (in_dec option_string_eq_dec (Some name) (map fst l)) as [Hl|Hl].
  - simpl. unfold bind, execute. simpl.
    destruct (IH Hl (Connection (committed c)
                (set_nodes (working c)
                   (filter (fun n => negb (sql_eq (n_name n) (bind_str (fst p))))
                           (nodes (working c))
                    ++ [Node (bind_str (fst p)) (bind_int (snd p))
                             VNull (VInt 0) VNull VNull]))))
      as [port [Hport Hrow]].
    exists port. split; [right; exact Hport | exact Hrow].
  - destruct Hin as [Hp|Hin]; [|contradiction].
    exists (snd p). split.
    + left. destruct p as [h q]. simpl in *. subst h. reflexivity.
    + simpl. unfold bind, execute. simpl.
      rewrite (executemany_replace_node_other l name Hl). simpl.
      rewrite filter_app. simpl. rewrite Hp. simpl.
      rewrite String.eqb_refl.
      rewrite filter_none; [reflexivity|].
      intros x Hx. apply sql_eq_text_inv in Hx. rewrite Hx. simpl.
      rewrite String.eqb_refl. reflexivity.
Qed.

Lemma for_each_poll_unreachable now requests_get l :
  (forall node, requests_get node = Fails ConnectionError) ->
  forall c, for_each l (poll_node now requests_get) c = (Return tt, c).
Proof.
  intros Hdown. induction l as [|node l IH]; intros c; simpl; [reflexivity|].
  unfold bind, poll_node. rewrite (Hdown node). simpl. apply IH.
Qed.

(** C10.  After the REPLACE of [refresh_node_list], a peer that the
    discovery result lists has exactly one registry row, and that row is
    built from the discovered name and port alone: [alive] is 0 and
    [messages_version], [last_polled] and [non_mesh] are NULL, whatever
    the registry held for the peer before.  When no peer can then be
    connected to, that is the row [refresh_node_list] commits. *)
Theorem discover_resets_known_peer :
  forall self services c name,
    In (Some name) (map fst (node_list self services)) ->
    exists port,
      let fresh_row :=
        Node (VText name) (bind_int port) VNull (VInt 0) VNull VNull in
      In (Some name, port) (node_list self services)
      /\ fst (discover self services c) = Return tt
      /\ filter (fun n => sql_eq (n_name n) (VText name))
                (nodes (working (snd (discover self services c))))
         = [fresh_row]
      /\ forall now requests_get,
           (forall node, requests_get node = Fails ConnectionError) ->
           let r := refresh_node_list self services now requests_get c in
           fst r = Return tt
           /\ filter (fun n => sql_eq (n_name n) (VText name))
                     (nodes (working (snd r)))
              = [fresh_row]
           /\ committed (snd r) = working (snd r).
Proof.
  intros self services c name Hin.
  destruct (executemany_replace_node_row _ name Hin c) as [port [Hp Hrow]].
  pose proof (executemany_replace_node_returns (node_list self services) c)
    as Hret.
  exists port. cbv zeta. fold (discover self services) in Hrow, Hret.
  split; [exact Hp|]. split; [exact Hret|]. split; [exact Hrow|].
  intros now requests_get Hdown.
  assert (Hrun : refresh_node_list self services now requests_get c
                 = (Return tt,
                    Connection (working (snd (discover self services c)))
                               (working (snd (discover self services c))))).
  { unfold refresh_node_list, bind.
    destruct (discover self services c) as [o c1].
    simpl in Hret. subst o.
    rewrite (for_each_poll_unreachable now requests_get _ Hdown c1).
    reflexivity. }
  cbv zeta. rewrite Hrun. cbn [fst snd working committed].
  split; [reflexivity|]. split; [exact Hrow | reflexivity].
Qed.

(** The registry holds [nodeA] with version 42, a poll time and the
    non-mesh flag; the directory lists it again. *)
Lemma discover_resets_known_peer_witness :
  In (Some "nodeA") (map fst (node_list default_chat zone_services))
  /\ exists port,
      In (Some "nodeA", port) (node_list default_chat zone_services)
      /\ filter (fun n => sql_eq (n_name n) (VText "nodeA"))
                (nodes (working (snd (discover default_chat zone_services
                                               registry_a))))
         = [Node (VText "nodeA") (bind_int port) VNull (VInt 0) VNull VNull].
Proof.
  split.
  - simpl. left. reflexivity.
  - destruct (discover_resets_known_peer default_chat zone_services registry_a
                "nodeA" (or_introl eq_refl)) as [port [Hp [_ [Hrow _]]]].
    exists port. split; [exact Hp | exact Hrow].
Defined.

(** C3, as the code has it.  When the probe of a peer answers 200 with a
    body that [int] reads as a 64-bit integer, [poll_node] stores that
    integer as the [messages_version] of the peer's rows and sets their
    [alive] to 1, touching no other row or column.  When the answer has
    any other status, no row's [messages_version] changes. *)
Theorem poll_node_records_version_on_200_only :
  forall now requests_get node status_code headers text c,
    requests_get node = Response status_code headers text ->
    (status_code = 200 ->
     forall n, PyStr.py_int 10 text = Some n -> int64 n = true ->
       poll_node now requests_get node c
       = (Return tt,
          Connection (committed c)
            (set_nodes (working c)
               (map (fun r =>
                       if sql_eq (n_name r) (bind_str (fst node))
                       then Node (n_name r) (n_port r) (VInt n) (VInt 1)
                                 (n_last_polled r) (n_non_mesh r)
                       else r)
                    (nodes (working c))))))
    /\ (status_code <> 200 ->
        map n_messages_version
            (nodes (working (snd (poll_node now requests_get node c))))
        = map n_messages_version (nodes (working c))).
Proof.
  intros now requests_get node status_code headers text c Hget.
  unfold poll_node. rewrite Hget. split.
  - intros -> n Hn H64. simpl.
    unfold bind, lift, int_. rewrite Hn.
    unfold execute, update_node_version. rewrite H64. reflexivity.
  - intros Hne.
    destruct (Z.eqb_spec status_code 200) as [Heq|_]; [contradiction|].
    simpl. unfold bind, lift, int_.
    destruct (PyStr.py_int 10 text) as [n|]; reflexivity.
Qed.

Lemma poll_node_records_version_on_200_only_witness :
  (200 = 200 /\ PyStr.py_int 10 "7" = Some 7 /\ int64 7 = true
   /\ poll_node "2024-01-02 00:00:00" (fun _ => Response 200 [] "7")
                (Some "nodeA", Some 8080) registry_a
      = (Return tt,
         Connection (committed registry_a)
           (set_nodes (working registry_a)
              [Node (VText "nodeA") (VInt 8080) (VInt 7) (VInt 1)
                    (VText "2024-01-01 00:00:00") (VInt 1)])))
  /\ (500 <> 200
      /\ map n_messages_version
           (nodes (working (snd
              (poll_node "2024-01-02 00:00:00" (fun _ => Response 500 [] "7")
                         (Some "nodeA", Some 8080) registry_a))))
         = map n_messages_version (nodes (working registry_a))).
Proof.
  split.
  - split; [reflexivity | split; [reflexivity | split; [reflexivity |]]].
    apply (proj1 (poll_node_records_version_on_200_only
                    "2024-01-02 00:00:00" (fun _ => Response 200 [] "7")
                    (Some "nodeA", Some 8080) 200 [] "7" registry_a eq_refl)
                 eq_refl 7 eq_refl eq_refl).
  - split; [lia|].
    apply (proj2 (poll_node_records_version_on_200_only
                    "2024-01-02 00:00:00" (fun _ => Response 500 [] "7")
                    (Some "nodeA", Some 8080) 500 [] "7" registry_a eq_refl)).
    lia.
Defined.

(** A probe that answers 500 with body "7": after [refresh_node_list]
    the peer's stored [messages_version] is NULL, not 7. *)
Lemma probe_non_200_does_not_record_version :
  map (fun n => (n_name n, n_messages_version n))
      (nodes (working (snd
         (refresh_node_list default_chat zone_services "2024-01-02 00:00:00"
            (fun _ => Response 500 [] "7") registry_a))))
  = [(VText "nodeA", VNull)].
Proof. vm_compute. reflexivity. Qed.

(* ===================================================================== *)
(** ** The message version *)
(* ===================================================================== *)

Lemma get_message_version_sum c :
  get_message_version c = (Return (sum_ids (messages (working c))), c).
Proof.
  unfold get_message_version, bind, query, ret, select_sum_id, sum_ids, ids.
  destruct (messages (working c)); reflexivity.
Qed.

Lemma sum_ids_permutation ms ms' :
  Permutation ms ms' -> sum_ids ms = sum_ids ms'.
Proof.
  unfold sum_ids, ids.
  induction 1 as [|x l l' _ IH|x y l|l l' l'' _ IH1 _ IH2]; simpl; lia.
Qed.


Lemma existsb_id_false id ms :
  ~ In id (ids ms) -> existsb (fun m => m_id m =? id) ms = false.
Proof.
  intros Hnot. induction ms as [|m ms IH]; simpl; [reflexivity|].
  simpl in Hnot. apply orb_false_iff. split.
  - apply Z.eqb_neq. intros Heq. apply Hnot. left. exact Heq.
  - apply IH. intros Hin. apply Hnot. right. exact Hin.
Qed.

Lemma existsb_id_true id ms :
  In id (ids ms) -> existsb (fun m => m_id m =? id) ms = true.
Proof.
  intros Hin. apply existsb_exists. unfold ids in Hin.
  apply in_map_iff in Hin. destruct Hin as [m [Hm Hin]].
  exists m. split; [exact Hin | apply Z.eqb_eq; exact Hm].
Qed.

(** An insertable tuple with a fresh id is appended as [message_of]. *)
Lemma insert_message_fresh row db :
  insertable row -> ~ In (fst row) (ids (messages db)) ->
  insert_message row db
  = Return (set_messages db (messages db ++ [message_of row])).
Proof.
  intros [H64 Hlen] Hfresh. destruct row as [id rest]. simpl in *.
  unfold insert_message, bindings. rewrite Hlen, H64. simpl.
  destruct rest as [|e [|m [|cs [|nd [|p [|ch [|x rest]]]]]]];
    simpl in Hlen; try discriminate.
  rewrite (existsb_id_false id (messages db) Hfresh). reflexivity.
Qed.

(** An insertable tuple whose id is stored raises [IntegrityError]. *)
Lemma insert_message_duplicate row db :
  insertable row -> In (fst row) (ids (messages db)) ->
  insert_message row db = Raise IntegrityError.
Proof.
  intros [H64 Hlen] Hdup. destruct row as [id rest]. simpl in *.
  unfold insert_message, bindings. rewrite Hlen, H64. simpl.
  destruct rest as [|e [|m [|cs [|nd [|p [|ch [|x rest]]]]]]];
    simpl in Hlen; try discriminate.
  rewrite (existsb_id_true id (messages db) Hdup). reflexivity.
Qed.

Lemma ids_message_of rows : ids (map message_of rows) = map fst rows.
Proof.
  unfold ids. rewrite map_map. apply map_ext. intros [id rest]. reflexivity.
Qed.




(* ===================================================================== *)
(** ** Lines and fields of a feed text *)
(* ===================================================================== *)

Lemma segments_no_linebreak s :
  no_linebreak s = true -> PyStr.segments false s = [s].
Proof.
  induction s as [|ch s IH]; simpl; intros H; [reflexivity|].
  apply andb_true_iff in H. destruct H as [Hc Hs].
  apply negb_true_iff in Hc. rewrite Hc, (IH Hs). reflexivity.
Qed.

Lemma segments_line_feed s t :
  no_linebreak s = true ->
  PyStr.segments false (s ++ String PyStr.LF t)%string
  = s :: PyStr.segments false t.
Proof.
  induction s as [|ch s IH]; simpl; intros H.
  - reflexivity.
  - apply andb_true_iff in H. destruct H as [Hc Hs].
    apply negb_true_iff in Hc. rewrite Hc, (IH Hs). reflexivity.
Qed.




(* ===================================================================== *)
(** ** Merging users *)
(* ===================================================================== *)





(* ===================================================================== *)
(** ** Merging messages: duplicates and malformed lines *)
(* ===================================================================== *)

(** C1, at a feed the code mishandles.  The store holds id 1.  A feed
    with the lines of ids 1 and 2 is merged: the call returns, but the
    duplicate first line ends the whole [executemany], so the fresh line
    of id 2 is not inserted; merged alone, that same line is. *)
Theorem update_messages_stops_at_first_duplicate :
  ids (messages (working store_with_1)) = [1]
  /\ update_messages default_chat
       (line_1 ++ String PyStr.LF line_2)%string store_with_1
     = (Return tt, store_with_1)
  /\ ids (messages (working (snd
        (update_messages default_chat line_2 store_with_1)))) = [1; 2].
Proof. vm_compute. repeat split. Qed.

Lemma prune_messages_returns self c :
  fst (prune_messages self c) = Return tt.
Proof.
  unfold prune_messages, bind, query, ret, commit, execute, delete_messages.
  destruct (0 <? _); reflexivity.
Qed.

(** When [update_messages] raises, it has committed nothing. *)
Lemma update_messages_raise_commits_nothing self text c e :
  fst (update_messages self text c) = Raise e ->
  committed (snd (update_messages self text c)) = committed c.
Proof.
  unfold update_messages, bind, lift.
  destruct (comprehension message_tuple (PyStr.splitlines text)) as [rows|e0];
    [|reflexivity].
  unfold try_except_pass.
  pose proof (executemany_committed insert_message rows c) as Hc.
  destruct (executemany insert_message rows c) as [[[]|e1] c1]; simpl in Hc.
  - unfold commit at 1. rewrite prune_messages_returns. discriminate.
  - destruct (exn_eqb IntegrityError e1).
    + unfold commit at 1. rewrite prune_messages_returns. discriminate.
    + intros _. exact Hc.
Qed.

Lemma comprehension_app {A B : Type} (f : A -> outcome B) xs ys zs :
  comprehension f (xs ++ ys) = Return zs ->
  exists zx zy,
    comprehension f xs = Return zx /\ comprehension f ys = Return zy
    /\ zs = zx ++ zy.
Proof.
  revert zs. induction xs as [|x xs IH]; intros zs H; simpl in *.
  - exists [], zs. repeat split. exact H.
  - destruct (f x) as [y|e]; [|discriminate].
    destruct (comprehension f (xs ++ ys)) as [r|e]; [|discriminate].
    destruct (IH r eq_refl) as [zx [zy [Hx [Hy Hr]]]].
    injection H as <-. exists (y :: zx), zy.
    rewrite Hx. repeat split; [exact Hy | rewrite Hr; reflexivity].
Qed.

(** A tuple with a fresh id is inserted as [message_of], or fails to
    bind; it never conflicts. *)
Lemma insert_message_fresh_cases row db :
  ~ In (fst row) (ids (messages db)) ->
  insert_message row db
  = Return (set_messages db (messages db ++ [message_of row]))
  \/ insert_message row db = Raise ProgrammingError
  \/ insert_message row db = Raise OverflowError.
Proof.
  intros Hfresh. destruct row as [id rest]. simpl in Hfresh.
  unfold insert_message, bindings.
  destruct (Nat.eqb 7 (S (List.length rest))) eqn:Hlen; [|right; left; reflexivity].
  destruct (int64 id) eqn:H64; simpl; [|right; right; reflexivity].
  destruct rest as [|e [|m [|cs [|nd [|p [|ch [|x rest]]]]]]];
    simpl in Hlen; try discriminate.
  rewrite (existsb_id_false id (messages db) Hfresh). left. reflexivity.
Qed.

Lemma insert_message_wrong_count row db :
  List.length (snd row) <> 6%nat ->
  insert_message row db = Raise ProgrammingError.
Proof.
  intros Hlen. destruct row as [id rest]. simpl in Hlen.
  unfold insert_message, bindings.
  destruct (Nat.eqb_spec 7 (S (List.length rest))) as [Heq|_]; [|reflexivity].
  exfalso. apply Hlen. lia.
Qed.

(** Distinct fresh ids before a tuple of the wrong size: the batch
    raises something other than [IntegrityError]. *)
Lemma executemany_insert_reaches_wrong_count before bad after :
  List.length (snd bad) <> 6%nat ->
  forall c,
    NoDup (map fst before) ->
    (forall id, In id (map fst before) -> ~ In id (ids (messages (working c)))) ->
    exists e,
      fst (executemany insert_message (before ++ bad :: after) c) = Raise e
      /\ e <> IntegrityError.
Proof.
  intros Hbad. induction before as [|row before IH]; intros c Hnd Hfresh; simpl.
  - unfold bind.
    rewrite (execute_raise _ c _ (insert_message_wrong_count bad _ Hbad)).
    exists ProgrammingError. split; [reflexivity | discriminate].
  - inversion Hnd as [|? ? Hnotin Hnd']; subst.
    unfold bind.
    destruct (insert_message_fresh_cases row (working c)
                (Hfresh (fst row) (or_introl eq_refl))) as [Hok|[Hpe|Hoe]].
    + rewrite (execute_return _ c _ Hok).
      apply IH; [exact Hnd'|].
      simpl. intros id Hin Hstored.
      unfold ids in Hstored. rewrite map_app in Hstored.
      apply in_app_or in Hstored. destruct Hstored as [Hold|Hnew].
      * apply (Hfresh id); [right; exact Hin | exact Hold].
      * simpl in Hnew. destruct Hnew as [Heq|[]].
        apply Hnotin. rewrite Heq. exact Hin.
    + rewrite (execute_raise _ c _ Hpe).
      exists ProgrammingError. split; [reflexivity | discriminate].
    + rewrite (execute_raise _ c _ Hoe).
      exists OverflowError. split; [reflexivity | discriminate].
Qed.

Lemma split_nonempty sep s : (1 <= List.length (PyStr.split sep s))%nat.
Proof.
  induction s as [|ch s IH]; simpl; [lia|].
  destruct (Ascii.eqb ch sep); simpl; [lia|].
  destruct (PyStr.split sep s); simpl in *; lia.
Qed.

Lemma message_tuple_length line id rest :
  message_tuple line = Return (id, rest) ->
  List.length rest
  = Nat.min 6 (List.length (PyStr.split PyStr.TAB line) - 1).
Proof.
  unfold message_tuple.
  destruct (int_ 16 _) as [n|e]; [|discriminate].
  intros H. injection H as _ <-.
  unfold PyStr.slice. rewrite length_firstn, length_skipn. reflexivity.
Qed.

Lemma replace_wrong_count_users fields db :
  List.length fields <> 5%nat -> replace_user fields db = Raise ProgrammingError.
Proof.
  intros H. unfold replace_user, bindings.
  destruct (Nat.eqb_spec 5 (List.length fields)) as [Heq|_]; [|reflexivity].
  exfalso. apply H. symmetry. exact Heq.
Qed.

Lemma replace_wrong_count_files fields db :
  List.length fields <> 5%nat -> replace_file fields db = Raise ProgrammingError.
Proof.
  intros H. unfold replace_file, bindings.
  destruct (Nat.eqb_spec 5 (List.length fields)) as [Heq|_]; [|reflexivity].
  exfalso. apply H. symmetry. exact Heq.
Qed.

Lemma replace_user_cases fields db :
  (exists db', replace_user fields db = Return db')
  \/ replace_user fields db = Raise ProgrammingError.
Proof.
  unfold replace_user.
  destruct (bindings 5 (List.length fields)) eqn:Hb.
  - destruct fields as [|f1 [|f2 [|f3 [|f4 [|f5 [|f6 r]]]]]];
      try (right; reflexivity). left. eexists. reflexivity.
  - unfold bindings in Hb. destruct (Nat.eqb _ _); [discriminate|].
    injection Hb as <-. right. reflexivity.
Qed.

Lemma replace_file_cases fields db :
  (exists db', replace_file fields db = Return db')
  \/ replace_file fields db = Raise ProgrammingError.
Proof.
  unfold replace_file.
  destruct (bindings 5 (List.length fields)) eqn:Hb.
  - destruct fields as [|f1 [|f2 [|f3 [|f4 [|f5 [|f6 r]]]]]];
      try (right; reflexivity). left. eexists. reflexivity.
  - unfold bindings in Hb. destruct (Nat.eqb _ _); [discriminate|].
    injection Hb as <-. right. reflexivity.
Qed.

(** A batch of REPLACEs with a row of the wrong size raises
    [ProgrammingError]. *)
Lemma executemany_replace_wrong_count
      (stmt : list string -> database -> outcome database) rows :
  (forall fields db, (exists db', stmt fields db = Return db')
                     \/ stmt fields db = Raise ProgrammingError) ->
  (forall fields db, List.length fields <> 5%nat ->
                     stmt fields db = Raise ProgrammingError) ->
  Exists (fun fields => List.length fields <> 5%nat) rows ->
  forall c, fst (executemany stmt rows c) = Raise ProgrammingError.
Proof.
  intros Hcases Hwrong Hex.
  induction rows as [|fields rows IH]; intros c.
  - inversion Hex.
  - simpl. unfold bind.
    destruct (Hcases fields (working c)) as [[db' Hok]|Hpe].
    + rewrite (execute_return _ c _ Hok).
      apply IH. inversion Hex as [? ? Hhere|? ? Hlater]; subst.
      * rewrite (Hwrong fields (working c) Hhere) in Hok. discriminate.
      * exact Hlater.
    + rewrite (execute_raise _ c _ Hpe). reflexivity.
Qed.

Lemma exn_eqb_integrity_false e :
  e <> IntegrityError -> exn_eqb IntegrityError e = false.
Proof. destruct e; intros H; try reflexivity. contradiction. Qed.

Lemma Exists_map_fields (P : list string -> Prop) (f : string -> list string) ls :
  Exists (fun line => P (f line)) ls -> Exists P (map f ls).
Proof.
  induction 1 as [x l H|x l _ IH]; simpl.
  - left. exact H.
  - right. exact IH.
Qed.

Lemma update_users_malformed text c :
  Exists (fun line => List.length (PyStr.split PyStr.TAB line) <> 5%nat)
         (PyStr.splitlines text) ->
  fst (update_users text c) = Raise ProgrammingError
  /\ committed (snd (update_users text c)) = committed c.
Proof.
  intros Hex. unfold update_users, bind.
  pose proof (executemany_replace_wrong_count replace_user _
                replace_user_cases replace_wrong_count_users
                (Exists_map_fields _ _ _ Hex) c) as Hraise.
  pose proof (executemany_committed replace_user
                (map (PyStr.split PyStr.TAB) (PyStr.splitlines text)) c) as Hc.
  destruct (executemany replace_user _ c) as [[u|e] c1]; simpl in *.
  - discriminate.
  - split; assumption.
Qed.

Lemma update_files_malformed text c :
  Exists (fun line => List.length (PyStr.split PyStr.TAB line) <> 5%nat)
         (PyStr.splitlines text) ->
  fst (update_files text c) = Raise ProgrammingError
  /\ committed (snd (update_files text c)) = committed c.
Proof.
  intros Hex. unfold update_files, bind.
  pose proof (executemany_replace_wrong_count replace_file _
                replace_file_cases replace_wrong_count_files
                (Exists_map_fields _ _ _ Hex) c) as Hraise.
  pose proof (executemany_committed replace_file
                (map (PyStr.split PyStr.TAB) (PyStr.splitlines text)) c) as Hc.
  destruct (executemany replace_file _ c) as [[u|e] c1]; simpl in *.
  - discriminate.
  - split; assumption.
Qed.

Lemma update_messages_malformed self text c before bad after rows_before :
  PyStr.splitlines text = before ++ bad :: after ->
  (List.length (PyStr.split PyStr.TAB bad) < 7)%nat ->
  comprehension message_tuple before = Return rows_before ->
  NoDup (map fst rows_before) ->
  (forall id, In id (map fst rows_before) ->
              ~ In id (ids (messages (working c)))) ->
  exists e,
    fst (update_messages self text c) = Raise e
    /\ committed (snd (update_messages self text c)) = committed c.
Proof.
  intros Hlines Hshort Hbefore Hnd Hfresh.
  assert (Hraise : exists e, fst (update_messages self text c) = Raise e).
  { unfold update_messages, bind, lift. rewrite Hlines.
    destruct (comprehension message_tuple (before ++ bad :: after))
      as [rows|e0] eqn:Hcomp; [|exists e0; reflexivity].
    destruct (comprehension_app _ _ _ _ Hcomp) as [zx [zy [Hx [Hy Hrows]]]].
    rewrite Hbefore in Hx. injection Hx as <-.
    simpl in Hy.
    destruct (message_tuple bad) as [[id rest]|e1] eqn:Hbad; [|discriminate].
    destruct (comprehension message_tuple after) as [ra|e1]; [|discriminate].
    injection Hy as <-. subst rows.
    assert (Hlen : List.length (snd (id, rest)) <> 6%nat).
    { simpl. rewrite (message_tuple_length bad id rest Hbad). lia. }
    destruct (executemany_insert_reaches_wrong_count rows_before (id, rest) ra
                Hlen c Hnd Hfresh) as [e [He Hne]].
    exists e. unfold try_except_pass.
    destruct (executemany insert_message _ c) as [[u|e'] c1]; simpl in He.
    - discriminate.
    - injection He as ->. rewrite (exn_eqb_integrity_false e Hne). reflexivity. }
  destruct Hraise as [e He]. exists e. split; [exact He|].
  apply (update_messages_raise_commits_nothing self text c e He).
Qed.

(** C2, as the code has it.  A users or files feed with a line that does
    not split into exactly five fields makes [update_users] or
    [update_files] raise, and nothing is committed.  A messages feed
    with a line of fewer than seven fields makes [update_messages]
    raise, committing nothing, when the lines before it carry pairwise
    distinct ids that are not stored yet.  A messages line of seven
    fields or more is not malformed for the code: its tuple has exactly
    seven elements, the fields after the seventh being dropped. *)
Theorem malformed_feed_raises_without_commit :
  (forall text c,
      Exists (fun line => List.length (PyStr.split PyStr.TAB line) <> 5%nat)
             (PyStr.splitlines text) ->
      fst (update_users text c) = Raise ProgrammingError
      /\ committed (snd (update_users text c)) = committed c)
  /\ (forall text c,
      Exists (fun line => List.length (PyStr.split PyStr.TAB line) <> 5%nat)
             (PyStr.splitlines text) ->
      fst (update_files text c) = Raise ProgrammingError
      /\ committed (snd (update_files text c)) = committed c)
  /\ (forall self text c before bad after rows_before,
      PyStr.splitlines text = before ++ bad :: after ->
      (List.length (PyStr.split PyStr.TAB bad) < 7)%nat ->
      comprehension message_tuple before = Return rows_before ->
      NoDup (map fst rows_before) ->
      (forall id, In id (map fst rows_before) ->
                  ~ In id (ids (messages (working c)))) ->
      exists e,
        fst (update_messages self text c) = Raise e
        /\ committed (snd (update_messages self text c)) = committed c)
  /\ (forall line id rest,
      message_tuple line = Return (id, rest) ->
      (7 <= List.length (PyStr.split PyStr.TAB line))%nat ->
      List.length rest = 6%nat).
Proof.
  split; [exact update_users_malformed|].
  split; [exact update_files_malformed|].
  split; [exact update_messages_malformed|].
  intros line id rest Ht Hlen.
  rewrite (message_tuple_length line id rest Ht). lia.
Qed.

(** A users feed whose second line has one field; a messages feed whose
    second line has two. *)
Lemma malformed_feed_raises_without_commit_witness :
  (Exists (fun line => List.length (PyStr.split PyStr.TAB line) <> 5%nat)
          (PyStr.splitlines (users_feed ++ String PyStr.LF "bad")%string)
   /\ fst (update_users (users_feed ++ String PyStr.LF "bad")%string
                        fresh_connection) = Raise ProgrammingError
   /\ committed (snd (update_users (users_feed ++ String PyStr.LF "bad")%string
                                   fresh_connection))
      = committed fresh_connection)
  /\ (exists e,
        fst (update_messages default_chat
               (line_2 ++ String PyStr.LF line_short)%string store_with_1)
        = Raise e
        /\ committed (snd (update_messages default_chat
               (line_2 ++ String PyStr.LF line_short)%string store_with_1))
           = committed store_with_1).
Proof.
  assert (Hu : Exists (fun line => List.length (PyStr.split PyStr.TAB line)
                                   <> 5%nat)
                 (PyStr.splitlines (users_feed ++ String PyStr.LF "bad")%string)).
  { right. left. simpl. lia. }
  split.
  - split; [exact Hu|].
    exact (proj1 malformed_feed_raises_without_commit
             (users_feed ++ String PyStr.LF "bad")%string fresh_connection Hu).
  - apply (proj1 (proj2 (proj2 malformed_feed_raises_without_commit))
             default_chat (line_2 ++ String PyStr.LF line_short)%string
             store_with_1 [line_2] line_short []
             [(2, ["20"; "two"; "KB1XYZ"; "nodeA"; "pi"; "general"])]).
    + reflexivity.
    + simpl. lia.
    + reflexivity.
    + simpl. constructor; [intros [] | constructor].
    + simpl. intros id [<-|[]] [H|[]]. discriminate H.
Defined.

(** What the code accepts although the field count is not the stated
    one: a messages line of eight fields is merged and committed, and so
    is a files line of five fields, while a files line of six fields is
    refused. *)
Lemma field_count_is_not_enforced_as_stated :
  List.length (PyStr.split PyStr.TAB line_3_long) = 8%nat
  /\ fst (update_messages default_chat line_3_long fresh_connection) = Return tt
  /\ ids (messages (committed (snd
        (update_messages default_chat line_3_long fresh_connection)))) = [3]
  /\ List.length (PyStr.split PyStr.TAB file_line_5) = 5%nat
  /\ fst (update_files file_line_5 fresh_connection) = Return tt
  /\ map f_file (files (committed (snd
        (update_files file_line_5 fresh_connection)))) = [VText "map.png"]
  /\ List.length (PyStr.split PyStr.TAB file_line_6) = 6%nat
  /\ fst (update_files file_line_6 fresh_connection) = Raise ProgrammingError.
Proof. vm_compute. repeat split. Qed.

(* ===================================================================== *)
(** ** The order of "ORDER BY epoch DESC, id DESC" *)
(* ===================================================================== *)

Lemma string_lt_irrefl s : String_as_OT.compare s s <> Lt.
Proof.
  intros H.
  exact (@StrictOrder_Irreflexive _ _ String_as_OT.lt_strorder s H).
Qed.

Lemma string_lt_trans s t u :
  String_as_OT.compare s t = Lt -> String_as_OT.compare t u = Lt ->
  String_as_OT.compare s u = Lt.
Proof.
  intros H1 H2.
  exact (@StrictOrder_Transitive _ _ String_as_OT.lt_strorder s t u H1 H2).
Qed.

Lemma string_compare_gt_lt s t :
  String_as_OT.compare s t = Gt <-> String_as_OT.compare t s = Lt.
Proof.
  split; intros H.
  - destruct (String_as_OT.compare_spec s t) as [Heq|Hlt|Hgt];
      try discriminate. exact Hgt.
  - destruct (String_as_OT.compare_spec s t) as [Heq|Hlt|Hgt].
    + exfalso. assert (Hst : s = t) by exact Heq. subst t.
      exact (string_lt_irrefl s H).
    + exfalso. apply (string_lt_irrefl s).
      exact (string_lt_trans s t s Hlt H).
    + reflexivity.
Qed.

Lemma sql_compare_eq a b : sql_compare a b = Eq -> a = b.
Proof.
  destruct a as [|x|s], b as [|y|t]; simpl; try discriminate; intros H.
  - reflexivity.
  - apply Z.compare_eq in H. subst. reflexivity.
  - destruct (String_as_OT.compare_spec s t) as [Heq|Hlt|Hgt];
      try discriminate. f_equal. exact Heq.
Qed.

Lemma sql_compare_refl a : sql_compare a a = Eq.
Proof.
  destruct a as [|x|s]; simpl; [reflexivity | apply Z.compare_refl |].
  destruct (String_as_OT.compare s s) eqn:Hss; [reflexivity | |].
  - exfalso. exact (string_lt_irrefl s Hss).
  - exfalso. apply (string_lt_irrefl s).
    apply (proj1 (string_compare_gt_lt s s)). exact Hss.
Qed.

Lemma sql_compare_gt_lt a b : sql_compare a b = Gt <-> sql_compare b a = Lt.
Proof.
  destruct a as [|x|s], b as [|y|t]; simpl;
    try (split; intros H; (discriminate || reflexivity)).
  - rewrite Z.compare_gt_iff, Z.compare_lt_iff. reflexivity.
  - apply string_compare_gt_lt.
Qed.

Lemma sql_compare_lt_trans a b c :
  sql_compare a b = Lt -> sql_compare b c = Lt -> sql_compare a c = Lt.
Proof.
  destruct a as [|x|s], b as [|y|t], c as [|z|u]; simpl;
    try discriminate; try reflexivity.
  - rewrite !Z.compare_lt_iff. lia.
  - apply string_lt_trans.
Qed.

Lemma sorts_before_total a b :
  sorts_before a b = false -> sorts_before b a = true.
Proof.
  unfold sorts_before.
  destruct (sql_compare (m_epoch a) (m_epoch b)) eqn:Hab; try discriminate.
  - apply sql_compare_eq in Hab. rewrite Hab, sql_compare_refl.
    intros H. apply Z.leb_gt in H. apply Z.leb_le. lia.
  - intros _. apply sql_compare_gt_lt in Hab. rewrite Hab. reflexivity.
Qed.

Lemma sorts_before_trans a b c :
  comes_before a b -> comes_before b c -> comes_before a c.
Proof.
  unfold comes_before, sorts_before.
  destruct (sql_compare (m_epoch a) (m_epoch b)) eqn:Hab; try discriminate.
  - apply sql_compare_eq in Hab. rewrite Hab.
    destruct (sql_compare (m_epoch b) (m_epoch c)); try discriminate.
    + intros H1 H2. apply Z.leb_le in H1, H2. apply Z.leb_le. lia.
    + reflexivity.
  - intros _.
    destruct (sql_compare (m_epoch b) (m_epoch c)) eqn:Hbc; try discriminate.
    + apply sql_compare_eq in Hbc. rewrite <- Hbc, Hab. reflexivity.
    + intros _. apply sql_compare_gt_lt in Hab, Hbc.
      pose proof (sql_compare_lt_trans _ _ _ Hbc Hab) as Hca.
      apply sql_compare_gt_lt in Hca. rewrite Hca. reflexivity.
Qed.


Lemma insert_sorted_permutation x l :
  Permutation (x :: l) (insert_sorted x l).
Proof.
  induction l as [|y l IH]; simpl; [reflexivity|].
  destruct (sorts_before x y); [reflexivity|].
  apply perm_trans with (y :: x :: l); [apply perm_swap|].
  apply perm_skip. exact IH.
Qed.

Lemma order_by_permutation l :
  Permutation l (order_by_epoch_desc_id_desc l).
Proof.
  induction l as [|x l IH]; simpl; [constructor|].
  apply perm_trans with (x :: order_by_epoch_desc_id_desc l).
  - apply perm_skip. exact IH.
  - apply insert_sorted_permutation.
Qed.

Lemma insert_sorted_sorted x l :
  StronglySorted comes_before l -> StronglySorted comes_before (insert_sorted x l).
Proof.
  induction 1 as [|y l Hs IH Hall]; simpl.
  - constructor; constructor.
  - destruct (sorts_before x y) eqn:Hxy.
    + constructor; [constructor; assumption|].
      constructor; [exact Hxy|].
      apply Forall_forall. intros z Hz.
      apply (sorts_before_trans x y z Hxy).
      exact (proj1 (Forall_forall _ _) Hall z Hz).
    + constructor; [exact IH|].
      apply Forall_forall. intros z Hz.
      apply (Permutation_in _ (Permutation_sym (insert_sorted_permutation x l)))
        in Hz.
      destruct Hz as [<-|Hz].
      * apply sorts_before_total. exact Hxy.
      * exact (proj1 (Forall_forall _ _) Hall z Hz).
Qed.

Lemma order_by_sorted l :
  StronglySorted comes_before (order_by_epoch_desc_id_desc l).
Proof.
  induction l as [|x l IH]; simpl; [constructor|].
  apply insert_sorted_sorted. exact IH.
Qed.

Lemma in_skipn {A : Type} (k : nat) (l : list A) x :
  In x (skipn k l) -> In x l.
Proof.
  intros H. rewrite <- (firstn_skipn k l). apply in_or_app. right. exact H.
Qed.

Lemma in_firstn {A : Type} (k : nat) (l : list A) x :
  In x (firstn k l) -> In x l.
Proof.
  intros H. rewrite <- (firstn_skipn k l). apply in_or_app. left. exact H.
Qed.

(** In a sorted list, what is among the first [k] comes before what is
    after them. *)
Lemma sorted_firstn_skipn k :
  forall l a b,
    StronglySorted comes_before l ->
    In a (firstn k l) -> In b (skipn k l) -> comes_before a b.
Proof.
  induction k as [|k IH]; intros l a b Hs Ha Hb.
  - simpl in Ha. contradiction.
  - destruct l as [|x l]; [simpl in Ha; contradiction|].
    inversion Hs as [|? ? Hs' Hall]; subst.
    simpl in Ha, Hb. destruct Ha as [<-|Ha].
    + apply (proj1 (Forall_forall _ _) Hall).
      apply (in_skipn k l b Hb).
    + exact (IH l a b Hs' Ha Hb).
Qed.

(* ===================================================================== *)
(** ** Pruning *)
(* ===================================================================== *)

Lemma same_id_same_row l a b :
  NoDup (ids l) -> In a l -> In b l -> m_id a = m_id b -> a = b.
Proof.
  unfold ids. induction l as [|x l IH]; intros Hnd Ha Hb Hid; [contradiction|].
  simpl in Hnd. inversion Hnd as [|? ? Hnotin Hnd']; subst.
  destruct Ha as [<-|Ha], Hb as [<-|Hb].
  - reflexivity.
  - exfalso. apply Hnotin. rewrite Hid. apply in_map. exact Hb.
  - exfalso. apply Hnotin. rewrite <- Hid. apply in_map. exact Ha.
  - exact (IH Hnd' Ha Hb Hid).
Qed.

Lemma existsb_id_in h m :
  In m h -> existsb (Z.eqb (m_id m)) (ids h) = true.
Proof.
  intros Hin. apply existsb_exists. exists (m_id m).
  split; [apply in_map; exact Hin | apply Z.eqb_refl].
Qed.

Lemma existsb_id_row l h m :
  NoDup (ids l) -> incl h l -> In m l ->
  existsb (Z.eqb (m_id m)) (ids h) = true -> In m h.
Proof.
  intros Hnd Hincl Hm Hex.
  apply existsb_exists in Hex. destruct Hex as [id [Hid Heq]].
  apply Z.eqb_eq in Heq. unfold ids in Hid. apply in_map_iff in Hid.
  destruct Hid as [h0 [Hh0 Hin]].
  assert (h0 = m) as <-.
  { apply (same_id_same_row l h0 m Hnd (Hincl _ Hin) Hm). congruence. }
  exact Hin.
Qed.

(** Deleting by the ids of some of the rows removes those rows and no
    other. *)
Lemma delete_by_ids_permutation l h :
  NoDup (ids l) -> NoDup h -> incl h l ->
  Permutation l
    (h ++ filter (fun m => negb (existsb (Z.eqb (m_id m)) (ids h))) l).
Proof.
  intros Hnd Hh Hincl.
  apply NoDup_Permutation.
  - exact (NoDup_map_inv _ _ Hnd).
  - apply NoDup_app.
    + exact Hh.
    + apply NoDup_filter. exact (NoDup_map_inv _ _ Hnd).
    + intros a Ha Hf. apply filter_In in Hf. destruct Hf as [_ Hf].
      rewrite (existsb_id_in h a Ha) in Hf. discriminate.
  - intros x. split.
    + intros Hx. apply in_or_app.
      destruct (existsb (Z.eqb (m_id x)) (ids h)) eqn:Hex.
      * left. exact (existsb_id_row l h x Hnd Hincl Hx Hex).
      * right. apply filter_In. split; [exact Hx | rewrite Hex; reflexivity].
    + intros Hx. apply in_app_or in Hx. destruct Hx as [Hx|Hx].
      * exact (Hincl _ Hx).
      * apply filter_In in Hx. exact (proj1 Hx).
Qed.

Lemma NoDup_firstn {A : Type} (k : nat) (l : list A) :
  NoDup l -> NoDup (firstn k l).
Proof.
  intros H. rewrite <- (firstn_skipn k l) in H.
  exact (NoDup_app_remove_r _ _ H).
Qed.

Lemma head_rows_incl k l :
  incl (firstn k (order_by_epoch_desc_id_desc l)) l.
Proof.
  intros x Hx. apply in_firstn in Hx.
  exact (Permutation_in _ (Permutation_sym (order_by_permutation l)) Hx).
Qed.

Lemma head_rows_nodup k l :
  NoDup (ids l) -> NoDup (firstn k (order_by_epoch_desc_id_desc l)).
Proof.
  intros Hnd. apply NoDup_firstn.
  apply (Permutation_NoDup (order_by_permutation l)).
  exact (NoDup_map_inv _ _ Hnd).
Qed.

Lemma filter_all {A : Type} (f : A -> bool) (l : list A) :
  (forall x, In x l -> f x = true) -> filter f l = l.
Proof.
  induction l as [|x l IH]; intros H; simpl; [reflexivity|].
  rewrite (H x (or_introl eq_refl)), IH; [reflexivity|].
  intros y Hy. apply H. right. exact Hy.
Qed.

Lemma filter_nothing {A : Type} (f : A -> bool) (l : list A) :
  (forall x, In x l -> f x = false) -> filter f l = [].
Proof.
  induction l as [|x l IH]; intros H; simpl; [reflexivity|].
  rewrite (H x (or_introl eq_refl)). apply IH.
  intros y Hy. apply H. right. exact Hy.
Qed.

Lemma set_messages_same db : set_messages db (messages db) = db.
Proof. destruct db. reflexivity. Qed.

(** [prune_messages] always returns, commits, and leaves [pruned]. *)
Lemma prune_messages_run self c :
  prune_messages self c
  = (Return tt,
     let db := set_messages (working c)
                 (pruned (max_messages self) (messages (working c))) in
     Connection db db).
Proof.
  unfold prune_messages, pruned, bind, query, ret, commit, execute,
    delete_messages, select_head_ids.
  cbn [working committed].
  destruct (0 <? Z.of_nat (List.length (messages (working c)))
                 - max_messages self).
  - reflexivity.
  - cbn [working]. rewrite set_messages_same. reflexivity.
Qed.

(** What [pruned] keeps, in terms of the rows at the head of the order. *)
Lemma pruned_by_head limit ms :
  let k := Z.to_nat (Z.max 0 (Z.of_nat (List.length ms) - limit)) in
  pruned limit ms
  = filter (fun m => negb (existsb (Z.eqb (m_id m))
              (ids (firstn k (order_by_epoch_desc_id_desc ms))))) ms.
Proof.
  intros k. unfold pruned. subst k.
  destruct (Z.ltb_spec 0 (Z.of_nat (List.length ms) - limit)) as [Hover|Hle].
  - rewrite Z.max_r by lia. reflexivity.
  - rewrite Z.max_l by lia. simpl. symmetry. apply filter_all. reflexivity.
Qed.



(* ===================================================================== *)
(** ** Merging messages: what a well-formed feed leaves *)
(* ===================================================================== *)

Lemma existsb_id_stored id ms :
  existsb (fun m => m_id m =? id) ms = true -> In id (ids ms).
Proof.
  intros H. apply existsb_exists in H. destruct H as [m [Hin Heq]].
  apply Z.eqb_eq in Heq. subst id. apply in_map. exact Hin.
Qed.

Lemma set_messages_twice db xs ys :
  set_messages (set_messages db xs) ys = set_messages db ys.
Proof. reflexivity. Qed.

(** The guarded batch of INSERTs over insertable tuples returns and
    leaves [inserted]. *)
Lemma inserted_run rows :
  Forall insertable rows ->
  forall c,
    try_except_pass IntegrityError (executemany insert_message rows) c
    = (Return tt,
       Connection (committed c)
         (set_messages (working c) (inserted (messages (working c)) rows))).
Proof.
  induction 1 as [|row rows Hrow Hrows IH]; intros c.
  - simpl. unfold try_except_pass, ret. rewrite set_messages_same.
    destruct c. reflexivity.
  - cbn [inserted executemany].
    destruct (existsb (fun m => m_id m =? fst row) (messages (working c)))
      eqn:Hex.
    + pose proof (insert_message_duplicate row (working c) Hrow
                    (existsb_id_stored _ _ Hex)) as Hdup.
      unfold try_except_pass, bind.
      rewrite (execute_raise _ c _ Hdup). simpl.
      rewrite set_messages_same. destruct c. reflexivity.
    + assert (Hfresh : ~ In (fst row) (ids (messages (working c)))).
      { intros Hin. rewrite (existsb_id_true _ _ Hin) in Hex. discriminate. }
      pose proof (insert_message_fresh row (working c) Hrow Hfresh) as Hok.
      unfold try_except_pass, bind.
      rewrite (execute_return _ c _ Hok).
      specialize (IH (Connection (committed c)
                        (set_messages (working c)
                           (messages (working c) ++ [message_of row])))).
      unfold try_except_pass in IH. rewrite IH. reflexivity.
Qed.

Lemma well_formed_line_tuple line :
  well_formed_line line ->
  exists row, message_tuple line = Return row /\ insertable row.
Proof.
  intros [Hlen [id [Hid H64]]].
  exists (id, PyStr.slice 1 7 (PyStr.split PyStr.TAB line)). split.
  - unfold message_tuple, int_. rewrite Hid. reflexivity.
  - split; [exact H64|]. simpl.
    unfold PyStr.slice. rewrite length_firstn, length_skipn, Hlen. reflexivity.
Qed.

Lemma well_formed_rows lines :
  Forall well_formed_line lines ->
  exists rows,
    comprehension message_tuple lines = Return rows /\ Forall insertable rows.
Proof.
  induction 1 as [|line lines Hline _ [rows [Hrows Hall]]].
  - exists []. split; [reflexivity | constructor].
  - destruct (well_formed_line_tuple line Hline) as [row [Hrow Hins]].
    exists (row :: rows). split.
    + simpl. rewrite Hrow, Hrows. reflexivity.
    + constructor; assumption.
Qed.

(** [update_messages] over a feed whose tuples are insertable. *)
Lemma update_messages_run self text c rows :
  comprehension message_tuple (PyStr.splitlines text) = Return rows ->
  Forall insertable rows ->
  update_messages self text c
  = (Return tt,
     let db := set_messages (working c)
                 (pruned (max_messages self)
                         (inserted (messages (working c)) rows)) in
     Connection db db).
Proof.
  intros Hrows Hall. unfold update_messages.
  unfold bind at 1. unfold lift. rewrite Hrows.
  unfold bind at 1. rewrite (inserted_run rows Hall c).
  unfold bind at 1. unfold commit at 1.
  rewrite prune_messages_run. reflexivity.
Qed.

(** [inserted] appends a prefix of the tuples: those with pairwise
    distinct ids not in the table, up to the end of the feed or to a
    tuple whose id is in the table or among the ones just appended. *)
Lemma inserted_prefix rows :
  forall ms,
  exists pre rest,
    rows = pre ++ rest
    /\ inserted ms rows = ms ++ map message_of pre
    /\ NoDup (map fst pre)
    /\ (forall id, In id (map fst pre) -> ~ In id (ids ms))
    /\ match rest with
       | [] => True
       | r :: _ => In (fst r) (ids ms ++ map fst pre)
       end.
Proof.
  induction rows as [|row rows IH]; intros ms.
  - exists [], []. simpl. rewrite app_nil_r.
    repeat split; [constructor | intros id []].
  - cbn [inserted].
    destruct (existsb (fun m => m_id m =? fst row) ms) eqn:Hex.
    + exists [], (row :: rows). simpl. rewrite !app_nil_r.
      repeat split; [constructor | intros id [] |].
      apply existsb_id_stored. exact Hex.
    + assert (Hfresh : ~ In (fst row) (ids ms)).
      { intros Hin. rewrite (existsb_id_true _ _ Hin) in Hex. discriminate. }
      destruct (IH (ms ++ [message_of row]))
        as [pre [rest [Hrows [Hins [Hnd [Hdisj Hrest]]]]]].
      assert (Hids : ids (ms ++ [message_of row]) = ids ms ++ [fst row]).
      { unfold ids. rewrite map_app. destruct row. reflexivity. }
      exists (row :: pre), rest. split; [rewrite Hrows; reflexivity|].
      split; [rewrite Hins, <- app_assoc; reflexivity|].
      split.
      { simpl. constructor; [|exact Hnd].
        intros Hin. apply (Hdisj _ Hin). rewrite Hids.
        apply in_or_app. right. left. reflexivity. }
      split.
      { simpl. intros id [<-|Hin]; [exact Hfresh|].
        intros Hms. apply (Hdisj _ Hin). rewrite Hids.
        apply in_or_app. left. exact Hms. }
      destruct rest as [|r rest']; [exact I|].
      rewrite Hids in Hrest. simpl.
      apply in_app_or in Hrest. destruct Hrest as [Hrest|Hrest].
      * apply in_app_or in Hrest. destruct Hrest as [Hrest|[Hrest|[]]].
        -- apply in_or_app. left. exact Hrest.
        -- apply in_or_app. right. left. exact Hrest.
      * apply in_or_app. right. right. exact Hrest.
Qed.

Lemma NoDup_ids_filter f ms :
  NoDup (ids ms) -> NoDup (ids (filter f ms)).
Proof.
  unfold ids. induction ms as [|m ms IH]; simpl; intros Hnd; [constructor|].
  inversion Hnd as [|? ? Hnotin Hnd']; subst.
  destruct (f m); simpl; [|exact (IH Hnd')].
  constructor; [|exact (IH Hnd')].
  intros Hin. apply Hnotin. apply in_map_iff in Hin.
  destruct Hin as [x [Hx Hin]]. apply filter_In in Hin.
  rewrite <- Hx. apply in_map. exact (proj1 Hin).
Qed.

Lemma id_in_row l h m :
  NoDup (ids l) -> incl h l -> In m l -> In (m_id m) (ids h) -> In m h.
Proof.
  intros Hnd Hincl Hm Hid. apply (existsb_id_row l h m Hnd Hincl Hm).
  apply existsb_exists. exists (m_id m). split; [exact Hid | apply Z.eqb_refl].
Qed.

(** The three facts about [pruned] that the merge argument needs. *)
Lemma pruned_facts limit ms :
  NoDup (ids ms) ->
  let k := Z.to_nat (Z.max 0 (Z.of_nat (List.length ms) - limit)) in
  let head := firstn k (order_by_epoch_desc_id_desc ms) in
  Permutation ms (head ++ pruned limit ms)
  /\ List.length head = Nat.min k (List.length ms)
  /\ NoDup (ids (pruned limit ms))
  /\ incl (pruned limit ms) ms.
Proof.
  intros Hnd k head.
  pose proof (pruned_by_head limit ms) as Hp. cbv zeta in Hp.
  fold k in Hp. fold head in Hp.
  split.
  { rewrite Hp. apply delete_by_ids_permutation;
      [exact Hnd | apply head_rows_nodup; exact Hnd | apply head_rows_incl]. }
  split.
  { subst head. rewrite length_firstn.
    rewrite <- (Permutation_length (order_by_permutation ms)). reflexivity. }
  split.
  { rewrite Hp. apply NoDup_ids_filter. exact Hnd. }
  rewrite Hp. intros x Hx. apply filter_In in Hx. exact (proj1 Hx).
Qed.

(** Rows that all come before the rest are the head of the order. *)
Lemma head_of_order_is_front low high :
  NoDup (ids (low ++ high)) ->
  (forall a s, In a high -> In s low -> comes_before a s /\ ~ comes_before s a) ->
  let head := firstn (List.length high)
                     (order_by_epoch_desc_id_desc (low ++ high)) in
  incl head high /\ incl high head.
Proof.
  intros Hnd Hord head.
  set (all := low ++ high) in *.
  assert (Hheadin : incl head all) by apply head_rows_incl.
  assert (Hheadnd : NoDup head) by (apply head_rows_nodup; exact Hnd).
  assert (Hallnd : NoDup all) by exact (NoDup_map_inv _ _ Hnd).
  assert (Hhighnd : NoDup high) by exact (NoDup_app_remove_l _ _ Hallnd).
  assert (Hlen : List.length head = List.length high).
  { subst head. rewrite length_firstn.
    rewrite <- (Permutation_length (order_by_permutation all)).
    subst all. rewrite length_app. lia. }
  assert (Hdisj : forall x, In x low -> In x high -> False).
  { intros x Hl Hh. unfold all in Hallnd. clear - Hl Hh Hallnd.
    induction low as [|y low IH]; [contradiction|].
    simpl in Hallnd. inversion Hallnd as [|? ? Hnotin Hnd']; subst.
    destruct Hl as [<-|Hl].
    - apply Hnotin. apply in_or_app. right. exact Hh.
    - exact (IH Hnd' Hl). }
  assert (Hincl : incl head high).
  { intros h Hh.
    pose proof (Hheadin h Hh) as Hall. unfold all in Hall.
    apply in_app_or in Hall. destruct Hall as [Hlow|Hhigh]; [|exact Hhigh].
    exfalso.
    destruct (Forall_Exists_dec (fun a => In (m_id a) (ids head))
                (fun a => in_dec Z.eq_dec (m_id a) (ids head)) high)
      as [Hall|Hex].
    - assert (Hsub : incl (h :: high) head).
      { intros x [<-|Hx]; [exact Hh|].
        apply (id_in_row all head x Hnd Hheadin).
        - unfold all. apply in_or_app. right. exact Hx.
        - exact (proj1 (Forall_forall _ _) Hall x Hx). }
      assert (Hnd' : NoDup (h :: high)).
      { constructor; [|exact Hhighnd]. intros Hin. exact (Hdisj h Hlow Hin). }
      pose proof (NoDup_incl_length Hnd' Hsub) as Hle. simpl in Hle. lia.
    - apply Exists_exists in Hex. destruct Hex as [a [Ha Hnotin]].
      assert (Haall : In a (order_by_epoch_desc_id_desc all)).
      { apply (Permutation_in _ (order_by_permutation all)).
        unfold all. apply in_or_app. right. exact Ha. }
      rewrite <- (firstn_skipn (List.length high)
                    (order_by_epoch_desc_id_desc all)) in Haall.
      apply in_app_or in Haall. destruct Haall as [Hfirst|Hskip].
      + apply Hnotin. apply in_map. exact Hfirst.
      + pose proof (sorted_firstn_skipn (List.length high) _ h a
                      (order_by_sorted all) Hh Hskip) as Hbefore.
        exact (proj2 (Hord a h Ha Hlow) Hbefore). }
  split; [exact Hincl|].
  apply (NoDup_length_incl Hheadnd); [lia | exact Hincl].
Qed.








(* ===================================================================== *)
(** ** What the merges leave behind *)
(* ===================================================================== *)

Lemma inserted_nodup ms rows :
  NoDup (ids ms) -> NoDup (ids (inserted ms rows)).
Proof.
  intros Hnd.
  destruct (inserted_prefix rows ms) as [pre [rest [_ [Hins [Hpnd [Hdisj _]]]]]].
  rewrite Hins. unfold ids. rewrite map_app.
  fold (ids ms). fold (ids (map message_of pre)). rewrite ids_message_of.
  apply NoDup_app; [exact Hnd | exact Hpnd |].
  intros id Hin Hpre. exact (Hdisj id Hpre Hin).
Qed.

Lemma pruned_within_limit limit ms :
  0 <= limit -> NoDup (ids ms) ->
  Z.of_nat (List.length (pruned limit ms)) <= limit.
Proof.
  intros Hlimit Hnd.
  destruct (pruned_facts limit ms Hnd) as [Hperm [Hlen _]].
  apply Permutation_length in Hperm. rewrite length_app in Hperm. lia.
Qed.

(** The state every merge of a well-formed feed leaves is one the
    idempotence result applies to: distinct ids, at most [max_messages]
    rows, everything committed. *)
Lemma update_messages_keeps_invariant self text c :
  0 <= max_messages self ->
  well_formed_feed text ->
  NoDup (ids (messages (working c))) ->
  let c' := snd (update_messages self text c) in
  NoDup (ids (messages (working c')))
  /\ Z.of_nat (List.length (messages (working c'))) <= max_messages self
  /\ committed c' = working c'.
Proof.
  intros Hmax Hwf Hnd c'.
  destruct (well_formed_rows _ Hwf) as [rows [Hrows Hall]].
  subst c'. rewrite (update_messages_run self text c rows Hrows Hall).
  cbn [snd working committed messages set_messages].
  pose proof (inserted_nodup (messages (working c)) rows Hnd) as HndT.
  split; [|split; [|reflexivity]].
  - exact (proj1 (proj2 (proj2 (pruned_facts _ _ HndT)))).
  - exact (pruned_within_limit _ _ Hmax HndT).
Qed.

(** A users feed whose second line is malformed: the call raises and
    at that point nothing is committed, but the row of the first line
    stays in the open transaction, and the next merge, here of an empty
    feed, commits it. *)
Remark failed_merge_leaves_rows_pending :
  let failed :=
    update_users (users_feed ++ String PyStr.LF "bad")%string
                 fresh_connection in
  fst failed = Raise ProgrammingError
  /\ users (committed (snd failed)) = []
  /\ users (working (snd failed))
     = [User (VText "7") (VText "KB1XYZ") (VInt 1700000000) (VText "nodeA")
             (VText "pi")]
  /\ users (committed (snd (update_users "" (snd failed))))
     = [User (VText "7") (VText "KB1XYZ") (VInt 1700000000) (VText "nodeA")
             (VText "pi")].
Proof. vm_compute. repeat split. Qed.

(* ===================================================================== *)
(** ** Ids of eight hexadecimal digits are well formed *)
(* ===================================================================== *)

Lemma hex_digit_facts c :
  is_hex_digit c = true ->
  PyStr.is_space c = false
  /\ Ascii.eqb c PyStr.UNDERSCORE = false
  /\ (PyStr.code c =? 45) = false
  /\ (PyStr.code c =? 43) = false
  /\ PyStr.is_x c = false
  /\ exists d, PyStr.digit_value c = Some d /\ 0 <= d < 16.
Proof.
  destruct c as [[] [] [] [] [] [] [] []]; intros H;
    vm_compute in H; try discriminate H;
    (do 5 (split; [reflexivity|]); eexists;
     split; [reflexivity | vm_compute; split; [discriminate | reflexivity]]).
Qed.

Lemma lstrip_no_space l :
  Forall (fun c => PyStr.is_space c = false) l -> PyStr.lstrip l = l.
Proof.
  destruct 1 as [|c r Hc _]; simpl; [reflexivity|]. rewrite Hc. reflexivity.
Qed.

Lemma strip_no_space l :
  Forall (fun c => PyStr.is_space c = false) l -> PyStr.strip l = l.
Proof.
  intros H. unfold PyStr.strip.
  rewrite (lstrip_no_space l H).
  rewrite (lstrip_no_space (rev l)); [apply rev_involutive|].
  apply Forall_rev. exact H.
Qed.

(** Hexadecimal digits after a digit: the literal ends well, and its
    value extends the accumulator digit by digit. *)
Lemma digits_hex l :
  Forall (fun c => is_hex_digit c = true) l ->
  forall us_ok acc,
    0 <= acc ->
    exists v,
      PyStr.digits 16 us_ok true acc l = Some v
      /\ acc * 16 ^ Z.of_nat (List.length l) <= v
         < (acc + 1) * 16 ^ Z.of_nat (List.length l).
Proof.
  induction 1 as [|c r Hc _ IH]; intros us_ok acc Hacc.
  - exists acc. split; [reflexivity | simpl; lia].
  - destruct (hex_digit_facts c Hc) as [_ [Hus [_ [_ [_ [d [Hd Hrange]]]]]]].
    cbn [PyStr.digits]. rewrite Hus, Hd.
    destruct (Z.ltb_spec d 16) as [_|Hge]; [|lia].
    destruct (IH true (acc * 16 + d) ltac:(lia)) as [v [Hv Hbounds]].
    exists v. split; [exact Hv|].
    cbn [List.length]. rewrite Nat2Z.inj_succ, Z.pow_succ_r by lia.
    set (p := 16 ^ Z.of_nat (List.length r)) in *.
    assert (Hp : 0 < p) by (subst p; apply Z.pow_pos_nonneg; lia).
    nia.
Qed.

Lemma py_int_hex_id s :
  hex_id s ->
  exists id, PyStr.py_int 16 s = Some id /\ 0 <= id < 2 ^ 32.
Proof.
  intros [Hlen Hhex]. unfold PyStr.py_int.
  assert (Hnospace : Forall (fun c => PyStr.is_space c = false)
                            (list_ascii_of_string s)).
  { apply Forall_forall. intros c Hc.
    exact (proj1 (hex_digit_facts c
                    (proj1 (Forall_forall _ _) Hhex c Hc))). }
  rewrite (strip_no_space _ Hnospace).
  destruct (list_ascii_of_string s) as [|c [|x r]] eqn:Hs;
    try (simpl in Hlen; discriminate).
  inversion Hhex as [|? ? Hc Hrest]; subst.
  inversion Hrest as [|? ? Hx Hrest']; subst.
  destruct (hex_digit_facts c Hc) as [_ [Hus [H45 [H43 [_ [d [Hd Hrange]]]]]]].
  destruct (hex_digit_facts x Hx) as [_ [_ [_ [_ [Hisx _]]]]].
  rewrite H45, H43. unfold PyStr.magnitude.
  rewrite Hisx, andb_false_r.
  cbn [PyStr.digits]. rewrite Hus, Hd.
  destruct (Z.ltb_spec d 16) as [_|Hge]; [|lia].
  destruct (digits_hex (x :: r) Hrest true (0 * 16 + d) ltac:(lia))
    as [v [Hv Hbounds]].
  exists v. split; [exact Hv|].
  simpl in Hlen. injection Hlen as Hlen.
  change (List.length (x :: r)) with (S (List.length r)) in Hbounds.
  rewrite Hlen in Hbounds.
  change (16 ^ Z.of_nat 7) with 268435456 in Hbounds.
  change (2 ^ 32) with 4294967296. lia.
Qed.

(** A line of seven fields whose first is an id of eight hexadecimal
    digits is a well-formed line. *)
Lemma hex_id_line_well_formed line :
  List.length (PyStr.split PyStr.TAB line) = 7%nat ->
  hex_id (nth 0 (PyStr.split PyStr.TAB line) EmptyString) ->
  well_formed_line line.
Proof.
  intros Hlen Hid. split; [exact Hlen|].
  destruct (py_int_hex_id _ Hid) as [id [Hparse Hrange]].
  exists id. split; [exact Hparse|].
  unfold int64. apply andb_true_iff. split.
  - apply Z.leb_le. change (- 2 ^ 63) with (-9223372036854775808). lia.
  - apply Z.ltb_lt. change (2 ^ 32) with 4294967296 in Hrange.
    change (2 ^ 63) with 9223372036854775808. lia.
Qed.

(* ===================================================================== *)
(** ** Scenario B *)
(* ===================================================================== *)

(** 501 messages and a limit of 500: exactly one row goes, the one at
    the head of (epoch DESC, id DESC), which is the latest message. *)
Example prune_scenario_B :
  let after :=
    messages (working (snd (prune_messages default_chat (many_messages 501)))) in
  List.length (messages (working (many_messages 501))) = 501%nat
  /\ List.length after = 500%nat
  /\ ids after = map Z.of_nat (seq 1 500).
Proof. vm_compute. repeat split. Qed.

(* ===================================================================== *)
(** ** Printing and reading numbers *)
(* ===================================================================== *)

Lemma log2_div_lt base n :
  2 <= base -> base <= n -> Z.log2 (n / base) < Z.log2 n.
Proof.
  intros Hbase Hn.
  assert (Hhalf : n / base <= n / 2)
    by (apply Z.div_le_compat_l; lia).
  pose proof (Z.log2_le_mono _ _ Hhalf) as Hmono.
  assert (Hlog : Z.log2 (n / 2) = Z.max 0 (Z.log2 n - 1)).
  { rewrite <- (Z.log2_shiftr n 1) by lia.
    rewrite Z.shiftr_div_pow2 by lia. reflexivity. }
  assert (Hpos : 1 <= Z.log2 n).
  { change 1 with (Z.log2 2). apply Z.log2_le_mono. lia. }
  lia.
Qed.

(** [digit_list] gives the digits of [n]: at least one, each below the
    base, and their value is [n]. *)
Lemma digit_list_value base fuel :
  2 <= base ->
  forall n,
    0 <= n -> Z.log2 n < Z.of_nat fuel ->
    digit_list base fuel n <> []
    /\ Forall (fun d => 0 <= d < base) (digit_list base fuel n)
    /\ fold_left (fun a d => a * base + d) (digit_list base fuel n) 0 = n.
Proof.
  intros Hbase. induction fuel as [|fuel IH]; intros n Hn Hfuel.
  - pose proof (Z.log2_nonneg n). lia.
  - cbn [digit_list]. destruct (Z.ltb_spec n base) as [Hlt|Hge].
    + split; [discriminate|]. split; [repeat constructor; lia|].
      simpl. lia.
    + assert (Hq : 0 <= n / base) by (apply Z.div_pos; lia).
      pose proof (log2_div_lt base n Hbase Hge) as Hlog.
      destruct (IH (n / base) Hq ltac:(lia)) as [Hne [Hall Hval]].
      split.
      { intros Heq. apply app_eq_nil in Heq. destruct Heq as [_ Heq].
        discriminate Heq. }
      split.
      { apply Forall_app. split; [exact Hall|].
        constructor; [|constructor]. apply Z.mod_pos_bound. lia. }
      rewrite fold_left_app, Hval. simpl.
      rewrite Z.mul_comm. symmetry. apply Z.div_mod. lia.
Qed.

Lemma digits_of_value base n :
  2 <= base -> 0 <= n ->
  exists ds,
    digits_of base n = map MD5.hex_digit ds
    /\ ds <> []
    /\ Forall (fun d => 0 <= d < base) ds
    /\ fold_left (fun a d => a * base + d) ds 0 = n.
Proof.
  intros Hbase Hn. unfold digits_of.
  exists (digit_list base (S (Z.to_nat (Z.log2 n))) n).
  split; [reflexivity|].
  apply digit_list_value; [exact Hbase | exact Hn |].
  pose proof (Z.log2_nonneg n). lia.
Qed.

(** The character of a digit below 16 is a hexadecimal digit that reads
    back as the digit. *)
Lemma hex_digit_char d :
  0 <= d < 16 ->
  is_hex_digit (MD5.hex_digit d) = true
  /\ PyStr.digit_value (MD5.hex_digit d) = Some d
  /\ PyStr.code (MD5.hex_digit d) = (if d <? 10 then 48 + d else 87 + d).
Proof.
  intros Hd.
  assert (Hcases : d = 0 \/ d = 1 \/ d = 2 \/ d = 3 \/ d = 4 \/ d = 5
                   \/ d = 6 \/ d = 7 \/ d = 8 \/ d = 9 \/ d = 10 \/ d = 11
                   \/ d = 12 \/ d = 13 \/ d = 14 \/ d = 15) by lia.
  repeat (destruct Hcases as [->|Hcases];
          [repeat split; reflexivity|]).
  subst d. repeat split; reflexivity.
Qed.

(** [int] reads a run of digit characters as their value. *)
Lemma py_digits_value base ds :
  base <= 16 ->
  Forall (fun d => 0 <= d < base) ds ->
  forall us_ok acc,
    PyStr.digits base us_ok true acc (map MD5.hex_digit ds)
    = Some (fold_left (fun a d => a * base + d) ds acc).
Proof.
  intros Hbase. induction 1 as [|d ds Hd _ IH]; intros us_ok acc.
  - reflexivity.
  - destruct (hex_digit_char d ltac:(lia)) as [Hhex [Hval _]].
    destruct (hex_digit_facts _ Hhex) as [_ [Hus _]].
    cbn [map PyStr.digits fold_left]. rewrite Hus, Hval.
    destruct (Z.ltb_spec d base) as [_|Hge]; [|lia].
    apply IH.
Qed.

Lemma py_magnitude_value base ds :
  base = 10 \/ base = 16 ->
  ds <> [] -> Forall (fun d => 0 <= d < base) ds ->
  PyStr.magnitude base (map MD5.hex_digit ds)
  = Some (fold_left (fun a d => a * base + d) ds 0).
Proof.
  intros Hbase Hne Hall.
  assert (Hle : base <= 16) by lia.
  assert (Hfirst : PyStr.digits base false false 0 (map MD5.hex_digit ds)
                   = Some (fold_left (fun a d => a * base + d) ds 0)).
  { destruct ds as [|d ds]; [contradiction|].
    inversion Hall as [|? ? Hd Hrest]; subst.
    destruct (hex_digit_char d ltac:(lia)) as [Hhex [Hval _]].
    destruct (hex_digit_facts _ Hhex) as [_ [Hus _]].
    cbn [map PyStr.digits fold_left]. rewrite Hus, Hval.
    destruct (Z.ltb_spec d base) as [_|Hge]; [|lia].
    apply (py_digits_value base ds Hle Hrest). }
  unfold PyStr.magnitude.
  destruct ds as [|d [|x ds]]; [contradiction | exact Hfirst |].
  inversion Hall as [|? ? _ Hrest]; subst.
  inversion Hrest as [|? ? Hx _]; subst.
  destruct (hex_digit_char x ltac:(lia)) as [Hhex _].
  destruct (hex_digit_facts _ Hhex) as [_ [_ [_ [_ [Hisx _]]]]].
  cbn [map]. cbn [map] in Hfirst. rewrite Hisx, andb_false_r. exact Hfirst.
Qed.

Lemma digit_chars_no_space ds :
  Forall (fun d => 0 <= d < 16) ds ->
  Forall (fun c => PyStr.is_space c = false) (map MD5.hex_digit ds).
Proof.
  induction 1 as [|d ds Hd _ IH]; simpl; constructor; [|exact IH].
  destruct (hex_digit_char d Hd) as [Hhex _].
  exact (proj1 (hex_digit_facts _ Hhex)).
Qed.

(** [int(s, base)] of the digits of a number, with or without a minus
    sign in front. *)
Lemma py_int_digits base ds (negative : bool) :
  base = 10 \/ base = 16 ->
  ds <> [] -> Forall (fun d => 0 <= d < base) ds ->
  let value := fold_left (fun a d => a * base + d) ds 0 in
  PyStr.py_int base
    (string_of_list_ascii
       ((if negative then [ascii_of_N 45] else []) ++ map MD5.hex_digit ds))
  = Some (if negative then - value else value).
Proof.
  intros Hbase Hne Hall value.
  assert (Hall16 : Forall (fun d => 0 <= d < 16) ds).
  { apply Forall_forall. intros d Hd.
    pose proof (proj1 (Forall_forall _ _) Hall d Hd) as Hrange.
    simpl in Hrange. destruct Hbase; subst base; lia. }
  pose proof (digit_chars_no_space ds Hall16) as Hspace.
  unfold PyStr.py_int. rewrite list_ascii_of_string_of_list_ascii.
  rewrite strip_no_space.
  - destruct negative; cbn [app].
    + replace (PyStr.code (ascii_of_N 45) =? 45) with true by reflexivity.
      rewrite (py_magnitude_value base ds Hbase Hne Hall). reflexivity.
    + destruct ds as [|d ds]; [contradiction|]. cbn [map].
      inversion Hall16 as [|? ? Hd _]; subst.
      destruct (hex_digit_char d Hd) as [Hhex _].
      destruct (hex_digit_facts _ Hhex) as [_ [_ [H45 [H43 _]]]].
      rewrite H45, H43.
      exact (py_magnitude_value base (d :: ds) Hbase Hne Hall).
  - destruct negative; cbn [app]; [constructor; [reflexivity|]|]; exact Hspace.
Qed.

(** [int(str(n))] is [n]. *)
Lemma py_int_str_int n : PyStr.py_int 10 (str_int n) = Some n.
Proof.
  unfold str_int. destruct (Z.ltb_spec n 0) as [Hneg|Hpos].
  - destruct (digits_of_value 10 (- n) ltac:(lia) ltac:(lia))
      as [ds [Hds [Hne [Hall Hval]]]].
    rewrite Hds.
    pose proof (py_int_digits 10 ds true (or_introl eq_refl) Hne Hall) as H.
    cbv zeta in H. cbn [app] in H. cbn [string_of_list_ascii] in H.
    rewrite H, Hval. f_equal. lia.
  - destruct (digits_of_value 10 n ltac:(lia) Hpos)
      as [ds [Hds [Hne [Hall Hval]]]].
    rewrite Hds.
    pose proof (py_int_digits 10 ds false (or_introl eq_refl) Hne Hall) as H.
    cbv zeta in H. cbn [app] in H. rewrite H, Hval. reflexivity.
Qed.

Lemma fold_zeros base k ds :
  fold_left (fun a d => a * base + d) (repeat 0 k ++ ds) 0
  = fold_left (fun a d => a * base + d) ds 0.
Proof.
  induction k as [|k IH]; simpl; [reflexivity|]. exact IH.
Qed.

Lemma zfill_digits width ds :
  zfill width (map MD5.hex_digit ds)
  = map MD5.hex_digit (repeat 0 (width - List.length ds) ++ ds).
Proof.
  unfold zfill. rewrite map_app, length_map. f_equal.
  induction (width - List.length ds)%nat as [|k IH]; simpl;
    [reflexivity | rewrite <- IH; reflexivity].
Qed.

Lemma Forall_zeros base k :
  0 < base -> Forall (fun d => 0 <= d < base) (repeat 0 k).
Proof.
  intros Hbase. induction k; simpl; constructor; [lia | assumption].
Qed.

(** [int(format(n, '08x'), 16)] is [n], for every integer. *)
Lemma py_int_hex08 n : PyStr.py_int 16 (hex08 n) = Some n.
Proof.
  unfold hex08. destruct (Z.ltb_spec n 0) as [Hneg|Hpos].
  - destruct (digits_of_value 16 (- n) ltac:(lia) ltac:(lia))
      as [ds [Hds [Hne [Hall Hval]]]].
    rewrite Hds, zfill_digits.
    pose proof (py_int_digits 16 (repeat 0 (7 - List.length ds) ++ ds) true
                  (or_intror eq_refl)) as H.
    cbv zeta in H. cbn [app] in H. cbn [string_of_list_ascii] in H.
    rewrite H.
    + rewrite fold_zeros, Hval. f_equal. lia.
    + intros Heq. apply app_eq_nil in Heq. exact (Hne (proj2 Heq)).
    + apply Forall_app. split; [apply Forall_zeros; lia | exact Hall].
  - destruct (digits_of_value 16 n ltac:(lia) Hpos)
      as [ds [Hds [Hne [Hall Hval]]]].
    rewrite Hds, zfill_digits.
    pose proof (py_int_digits 16 (repeat 0 (8 - List.length ds) ++ ds) false
                  (or_intror eq_refl)) as H.
    cbv zeta in H. cbn [app] in H. rewrite H.
    + rewrite fold_zeros, Hval. reflexivity.
    + intros Heq. apply app_eq_nil in Heq. exact (Hne (proj2 Heq)).
    + apply Forall_app. split; [apply Forall_zeros; lia | exact Hall].
Qed.

(** A number below [base ^ k] has at most [k] digits. *)
Lemma digit_list_length base fuel :
  2 <= base ->
  forall n k,
    0 <= n -> n < base ^ Z.of_nat (S k) ->
    (List.length (digit_list base fuel n) <= S k)%nat.
Proof.
  intros Hbase. induction fuel as [|fuel IH]; intros n k Hn Hlt.
  - simpl. lia.
  - cbn [digit_list]. destruct (Z.ltb_spec n base) as [_|Hge].
    + simpl. lia.
    + rewrite length_app. simpl.
      destruct k as [|k].
      * change (Z.of_nat 1) with 1 in Hlt. rewrite Z.pow_1_r in Hlt. lia.
      * assert (Hq : n / base < base ^ Z.of_nat (S k)).
        { apply Z.div_lt_upper_bound; [lia|].
          rewrite Nat2Z.inj_succ, Z.pow_succ_r in Hlt by lia. exact Hlt. }
        pose proof (IH (n / base) k ltac:(apply Z.div_pos; lia) Hq). lia.
Qed.

(** An id of 32 bits is printed as eight hexadecimal digits. *)
Lemma hex08_hex_id n : 0 <= n < 2 ^ 32 -> hex_id (hex08 n).
Proof.
  intros [Hpos Hlt]. unfold hex08, hex_id.
  destruct (Z.ltb_spec n 0) as [Hneg|_]; [lia|].
  rewrite list_ascii_of_string_of_list_ascii.
  destruct (digits_of_value 16 n ltac:(lia) Hpos)
    as [ds [Hds [Hne [Hall Hval]]]].
  assert (Hlen : (List.length ds <= 8)%nat).
  { pose proof (f_equal (@List.length ascii) Hds) as Hl.
    rewrite length_map in Hl. rewrite <- Hl. unfold digits_of.
    rewrite length_map.
    apply (digit_list_length 16 _ ltac:(lia) n 7 Hpos).
    change (16 ^ Z.of_nat 8) with (2 ^ 32). exact Hlt. }
  rewrite Hds, zfill_digits. split.
  - rewrite length_map, length_app, repeat_length. lia.
  - apply Forall_forall. intros c Hc. apply in_map_iff in Hc.
    destruct Hc as [d [<- Hd]].
    apply in_app_or in Hd. destruct Hd as [Hz|Hd].
    + apply repeat_spec in Hz. subst d. reflexivity.
    + exact (proj1 (hex_digit_char d
                      (proj1 (Forall_forall _ _) Hall d Hd))).
Qed.

(* Reading numbers back in SQLite *)

Lemma sql_decimal_value ds :
  Forall (fun d => 0 <= d < 10) ds ->
  forall acc,
    decimal acc (map MD5.hex_digit ds)
    = Some (fold_left (fun a d => a * 10 + d) ds acc).
Proof.
  induction 1 as [|d ds Hd _ IH]; intros acc; [reflexivity|].
  destruct (hex_digit_char d ltac:(lia)) as [_ [_ Hcode]].
  destruct (Z.ltb_spec d 10) as [_|Hge]; [|lia].
  cbn [map decimal fold_left]. rewrite Hcode.
  destruct (Z.leb_spec 48 (48 + d)) as [_|Hbad]; [|lia].
  destruct (Z.leb_spec (48 + d) 57) as [_|Hbad]; [|lia].
  cbn [andb]. replace (48 + d - 48) with d by lia. apply IH.
Qed.

Lemma sql_lstrip_no_space l :
  Forall (fun c => sql_space c = false) l -> sql_lstrip l = l.
Proof.
  destruct 1 as [|c r Hc _]; simpl; [reflexivity|]. rewrite Hc. reflexivity.
Qed.

Lemma digit_chars_no_sql_space ds :
  Forall (fun d => 0 <= d < 10) ds ->
  Forall (fun c => sql_space c = false) (map MD5.hex_digit ds).
Proof.
  induction 1 as [|d ds Hd _ IH]; simpl; constructor; [|exact IH].
  destruct (hex_digit_char d ltac:(lia)) as [_ [_ Hcode]].
  destruct (Z.ltb_spec d 10) as [_|Hge]; [|lia].
  unfold sql_space. rewrite Hcode.
  destruct (Z.leb_spec 9 (48 + d)), (Z.leb_spec (48 + d) 13),
    (Z.eqb_spec (48 + d) 32); simpl; try reflexivity; lia.
Qed.

(** The text [str(n)] spells the integer [n] for SQLite. *)
Lemma integer_literal_str_int n : integer_literal (str_int n) = Some n.
Proof.
  unfold str_int, integer_literal.
  destruct (Z.ltb_spec n 0) as [Hneg|Hpos].
  - destruct (digits_of_value 10 (- n) ltac:(lia) ltac:(lia))
      as [ds [Hds [Hne [Hall Hval]]]].
    rewrite Hds.
    change (list_ascii_of_string
              (String (ascii_of_N 45)
                      (string_of_list_ascii (map MD5.hex_digit ds))))
      with (ascii_of_N 45
            :: list_ascii_of_string
                 (string_of_list_ascii (map MD5.hex_digit ds))).
    rewrite list_ascii_of_string_of_list_ascii.
    assert (Hsp : Forall (fun c => sql_space c = false)
                         (ascii_of_N 45 :: map MD5.hex_digit ds)).
    { constructor; [reflexivity | apply digit_chars_no_sql_space; exact Hall]. }
    rewrite (sql_lstrip_no_space _ Hsp).
    rewrite (sql_lstrip_no_space (rev _)) by (apply Forall_rev; exact Hsp).
    rewrite rev_involutive.
    replace (PyStr.code (ascii_of_N 45) =? 45) with true by reflexivity.
    destruct ds as [|d ds]; [contradiction|].
    rewrite (sql_decimal_value (d :: ds) Hall 0), Hval.
    cbn [map]. simpl option_map. f_equal. lia.
  - destruct (digits_of_value 10 n ltac:(lia) Hpos)
      as [ds [Hds [Hne [Hall Hval]]]].
    rewrite Hds, list_ascii_of_string_of_list_ascii.
    pose proof (digit_chars_no_sql_space ds Hall) as Hsp.
    rewrite (sql_lstrip_no_space _ Hsp).
    rewrite (sql_lstrip_no_space (rev _)) by (apply Forall_rev; exact Hsp).
    rewrite rev_involutive.
    destruct ds as [|d ds]; [contradiction|]. cbn [map].
    pose proof (Forall_inv Hall) as Hd. simpl in Hd.
    destruct (hex_digit_char d ltac:(lia)) as [_ [_ Hcode]].
    destruct (Z.ltb_spec d 10) as [_|Hge]; [|lia].
    rewrite Hcode.
    destruct (Z.eqb_spec (48 + d) 45) as [Hbad|_]; [lia|].
    destruct (Z.eqb_spec (48 + d) 43) as [Hbad|_]; [lia|].
    change (MD5.hex_digit d :: map MD5.hex_digit ds)
      with (map MD5.hex_digit (d :: ds)).
    rewrite (sql_decimal_value (d :: ds) Hall 0), Hval. reflexivity.
Qed.

Lemma integer_affinity_str_int n :
  int64 n = true -> integer_affinity (VText (str_int n)) = VInt n.
Proof.
  intros H64. unfold integer_affinity.
  rewrite integer_literal_str_int, H64. reflexivity.
Qed.

(* ===================================================================== *)
(** ** Joining and splitting *)
(* ===================================================================== *)

Lemma plain_text_parts s :
  plain_text s = true ->
  no_tab s = true /\ no_linebreak s = true /\ ascii_text s = true.
Proof.
  induction s as [|c s IH]; simpl; intros H; [repeat split|].
  unfold plain_char in H.
  apply andb_true_iff in H. destruct H as [Hc Hs].
  apply andb_true_iff in Hc. destruct Hc as [Hc Hlb].
  apply andb_true_iff in Hc. destruct Hc as [Hascii Htab].
  destruct (IH Hs) as [H1 [H2 H3]].
  rewrite Htab, Hlb, Hascii, H1, H2, H3. repeat split.
Qed.

Lemma plain_text_app s t :
  plain_text (s ++ t) = plain_text s && plain_text t.
Proof.
  induction s as [|c s IH]; simpl; [reflexivity|].
  rewrite IH, andb_assoc. reflexivity.
Qed.

Lemma no_linebreak_app s t :
  no_linebreak (s ++ t) = no_linebreak s && no_linebreak t.
Proof.
  induction s as [|c s IH]; simpl; [reflexivity|].
  rewrite IH, andb_assoc. reflexivity.
Qed.

Lemma ascii_text_app s t :
  ascii_text (s ++ t) = ascii_text s && ascii_text t.
Proof.
  induction s as [|c s IH]; simpl; [reflexivity|].
  rewrite IH, andb_assoc. reflexivity.
Qed.

Lemma plain_text_of_chars l :
  Forall (fun c => plain_char c = true) l ->
  plain_text (string_of_list_ascii l) = true.
Proof.
  induction 1 as [|c l Hc _ IH]; simpl; [reflexivity|].
  rewrite Hc, IH. reflexivity.
Qed.

Lemma digit_chars_plain ds :
  Forall (fun d => 0 <= d < 16) ds ->
  Forall (fun c => plain_char c = true) (map MD5.hex_digit ds).
Proof.
  induction 1 as [|d ds Hd _ IH]; simpl; constructor; [|exact IH].
  assert (Hcases : d = 0 \/ d = 1 \/ d = 2 \/ d = 3 \/ d = 4 \/ d = 5
                   \/ d = 6 \/ d = 7 \/ d = 8 \/ d = 9 \/ d = 10 \/ d = 11
                   \/ d = 12 \/ d = 13 \/ d = 14 \/ d = 15) by lia.
  repeat (destruct Hcases as [->|Hcases]; [reflexivity|]).
  subst d. reflexivity.
Qed.

Lemma Forall_digit_weaken base ds :
  base <= 16 ->
  Forall (fun d => 0 <= d < base) ds -> Forall (fun d => 0 <= d < 16) ds.
Proof.
  intros Hbase H. apply Forall_forall. intros d Hd.
  pose proof (proj1 (Forall_forall _ _) H d Hd) as Hr. simpl in Hr. lia.
Qed.

Lemma str_int_plain n : plain_text (str_int n) = true.
Proof.
  unfold str_int. destruct (Z.ltb_spec n 0) as [Hneg|Hpos].
  - destruct (digits_of_value 10 (- n) ltac:(lia) ltac:(lia))
      as [ds [Hds [_ [Hall _]]]].
    rewrite Hds. cbn [plain_text].
    rewrite plain_text_of_chars; [reflexivity|].
    apply digit_chars_plain. apply (Forall_digit_weaken 10); [lia | exact Hall].
  - destruct (digits_of_value 10 n ltac:(lia) Hpos)
      as [ds [Hds [_ [Hall _]]]].
    rewrite Hds. apply plain_text_of_chars.
    apply digit_chars_plain. apply (Forall_digit_weaken 10); [lia | exact Hall].
Qed.

Lemma hex08_plain n : plain_text (hex08 n) = true.
Proof.
  unfold hex08. destruct (Z.ltb_spec n 0) as [Hneg|Hpos].
  - destruct (digits_of_value 16 (- n) ltac:(lia) ltac:(lia))
      as [ds [Hds [_ [Hall _]]]].
    rewrite Hds, zfill_digits. cbn [plain_text].
    rewrite plain_text_of_chars; [reflexivity|].
    apply digit_chars_plain. apply Forall_app.
    split; [apply Forall_zeros; lia | exact Hall].
  - destruct (digits_of_value 16 n ltac:(lia) Hpos)
      as [ds [Hds [_ [Hall _]]]].
    rewrite Hds, zfill_digits. apply plain_text_of_chars.
    apply digit_chars_plain. apply Forall_app.
    split; [apply Forall_zeros; lia | exact Hall].
Qed.

Lemma split_no_tab s : no_tab s = true -> PyStr.split PyStr.TAB s = [s].
Proof.
  induction s as [|c s IH]; simpl; intros H; [reflexivity|].
  apply andb_true_iff in H. destruct H as [Hc Hs].
  apply negb_true_iff in Hc. rewrite Hc, (IH Hs). reflexivity.
Qed.

Lemma split_app_tab s t :
  no_tab s = true ->
  PyStr.split PyStr.TAB (s ++ String PyStr.TAB t)%string
  = s :: PyStr.split PyStr.TAB t.
Proof.
  induction s as [|c s IH]; simpl; intros H.
  - reflexivity.
  - apply andb_true_iff in H. destruct H as [Hc Hs].
    apply negb_true_iff in Hc. rewrite Hc, (IH Hs). reflexivity.
Qed.

(** [sep.join(fields).split(sep)] gives the fields back when none of
    them holds the separator. *)
Lemma split_join fields :
  fields <> [] -> Forall (fun f => no_tab f = true) fields ->
  PyStr.split PyStr.TAB (join TABS fields) = fields.
Proof.
  intros Hne Hall. unfold join.
  induction Hall as [|f fields Hf Hall IH]; [contradiction|].
  destruct fields as [|g fields].
  - simpl. apply split_no_tab. exact Hf.
  - change (String.concat TABS (f :: g :: fields))
      with (f ++ String PyStr.TAB (String.concat TABS (g :: fields)))%string.
    rewrite (split_app_tab _ _ Hf), IH; [reflexivity | discriminate].
Qed.

Lemma segments_join lines :
  lines <> [] -> Forall (fun l => no_linebreak l = true) lines ->
  PyStr.segments false (join LFS lines) = lines.
Proof.
  intros Hne Hall. unfold join.
  induction Hall as [|l lines Hl Hall IH]; [contradiction|].
  destruct lines as [|l' lines].
  - simpl. apply segments_no_linebreak. exact Hl.
  - change (String.concat LFS (l :: l' :: lines))
      with (l ++ String PyStr.LF (String.concat LFS (l' :: lines)))%string.
    rewrite (segments_line_feed _ _ Hl), IH; [reflexivity | discriminate].
Qed.

(** [splitlines] gives back the lines that were joined by line feeds,
    when they are not empty and hold no line boundary. *)
Lemma splitlines_join lines :
  Forall (fun l => no_linebreak l = true /\ l <> EmptyString) lines ->
  PyStr.splitlines (join LFS lines) = lines.
Proof.
  intros Hall. destruct lines as [|l0 lines]; [reflexivity|].
  unfold PyStr.splitlines.
  rewrite segments_join; [|discriminate|].
  - assert (Hlast : In (last (l0 :: lines) EmptyString) (l0 :: lines)).
    { clear Hall. revert l0. induction lines as [|l1 lines IH]; intros l0.
      - left. reflexivity.
      - right. exact (IH l1). }
    pose proof (proj2 (proj1 (Forall_forall _ _) Hall _ Hlast)) as Hne.
    destruct (last (l0 :: lines) EmptyString); [contradiction | reflexivity].
  - apply Forall_forall. intros l Hl.
    exact (proj1 (proj1 (Forall_forall _ _) Hall l Hl)).
Qed.

(* ===================================================================== *)
(** ** The messages feed: what a node serves is what a peer merges *)
(* ===================================================================== *)

Lemma insert_by_permutation {A : Type} (le : A -> A -> bool) x l :
  Permutation (x :: l) (insert_by le x l).
Proof.
  induction l as [|y l IH]; simpl; [reflexivity|].
  destruct (le x y); [reflexivity|].
  apply perm_trans with (y :: x :: l); [apply perm_swap|].
  apply perm_skip. exact IH.
Qed.

Lemma sort_by_permutation {A : Type} (le : A -> A -> bool) l :
  Permutation l (sort_by le l).
Proof.
  induction l as [|x l IH]; simpl; [constructor|].
  apply perm_trans with (x :: sort_by le l).
  - apply perm_skip. exact IH.
  - apply insert_by_permutation.
Qed.

Lemma message_line_join m :
  message_line m
  = join TABS (hex08 (m_id m) :: snd (tuple_of m)).
Proof. reflexivity. Qed.

Lemma feed_message_columns m :
  feed_message m = true ->
  int64 (m_id m) = true
  /\ exists e msg cs nd pf ch,
      int64 e = true
      /\ m = Message (m_id m) (VInt e) (VText msg) (VText cs) (VText nd)
                     (VText pf) (VText ch)
      /\ plain_text msg = true /\ plain_text cs = true
      /\ plain_text nd = true /\ plain_text pf = true
      /\ plain_text ch = true.
Proof.
  unfold feed_message. intros H.
  do 6 (apply andb_true_iff in H; destruct H as [H ?]).
  split; [exact H|].
  destruct m as [id [|e|?] [| |msg] [| |cs] [| |nd] [| |pf] [| |ch]];
    simpl in *; try discriminate.
  exists e, msg, cs, nd, pf, ch. repeat split; assumption.
Qed.

Lemma feed_message_fields_plain m :
  feed_message m = true ->
  Forall (fun f => plain_text f = true) (hex08 (m_id m) :: snd (tuple_of m)).
Proof.
  intros H.
  destruct (feed_message_columns m H)
    as [_ [e [msg [cs [nd [pf [ch [_ [Hm [H1 [H2 [H3 [H4 H5]]]]]]]]]]]]].
  rewrite Hm. simpl.
  repeat constructor; try assumption; [apply hex08_plain | apply str_int_plain].
Qed.

(** The line of a row is read back as the row's tuple. *)
Lemma message_tuple_line m :
  feed_message m = true -> message_tuple (message_line m) = Return (tuple_of m).
Proof.
  intros H. pose proof (feed_message_fields_plain m H) as Hplain.
  unfold message_tuple. rewrite message_line_join.
  rewrite split_join.
  - cbn [nth]. unfold int_. rewrite py_int_hex08. reflexivity.
  - discriminate.
  - apply Forall_forall. intros f Hf.
    exact (proj1 (plain_text_parts f
                    (proj1 (Forall_forall _ _) Hplain f Hf))).
Qed.

Lemma message_of_tuple_of m :
  feed_message m = true -> message_of (tuple_of m) = m /\ insertable (tuple_of m).
Proof.
  intros H.
  destruct (feed_message_columns m H)
    as [Hid [e [msg [cs [nd [pf [ch [He [Hm _]]]]]]]]].
  split.
  - destruct m as [id ep mg c n p h]. cbn [m_id] in Hm.
    injection Hm as -> -> -> -> -> ->.
    unfold message_of, tuple_of.
    cbn [fst snd nth m_id m_epoch m_message m_call_sign m_node m_platform
         m_channel py_str].
    rewrite (integer_affinity_str_int e He). reflexivity.
  - split; [exact Hid | reflexivity].
Qed.

Lemma plain_text_join_tabs fields :
  Forall (fun f => plain_text f = true) fields ->
  no_linebreak (join TABS fields) = true
  /\ ascii_text (join TABS fields) = true.
Proof.
  unfold join.
  induction 1 as [|f fields Hf Hall [IH1 IH2]]; [split; reflexivity|].
  destruct (plain_text_parts f Hf) as [_ [Hlb Hascii]].
  destruct fields as [|g fields]; [split; assumption|].
  change (String.concat TABS (f :: g :: fields))
    with (f ++ String PyStr.TAB (String.concat TABS (g :: fields)))%string.
  rewrite no_linebreak_app, ascii_text_app, Hlb, Hascii.
  cbn [no_linebreak ascii_text]. rewrite IH1, IH2. split; reflexivity.
Qed.

Lemma message_line_shape m :
  feed_message m = true ->
  no_linebreak (message_line m) = true
  /\ message_line m <> EmptyString
  /\ ascii_text (message_line m) = true.
Proof.
  intros H. pose proof (feed_message_fields_plain m H) as Hplain.
  rewrite message_line_join.
  destruct (plain_text_join_tabs _ Hplain) as [Hlb Hascii].
  repeat split; try assumption.
  intros Hempty.
  pose proof (split_join (hex08 (m_id m) :: snd (tuple_of m))
                ltac:(discriminate)) as Hsplit.
  rewrite Hempty in Hsplit. simpl in Hsplit.
  assert (Hnotab : Forall (fun f => no_tab f = true)
                          (hex08 (m_id m) :: snd (tuple_of m))).
  { apply Forall_forall. intros f Hf.
    exact (proj1 (plain_text_parts f
                    (proj1 (Forall_forall _ _) Hplain f Hf))). }
  specialize (Hsplit Hnotab). discriminate Hsplit.
Qed.

Lemma comprehension_message_lines rows :
  Forall (fun m => feed_message m = true) rows ->
  comprehension message_tuple (map message_line rows)
  = Return (map tuple_of rows).
Proof.
  induction 1 as [|m rows Hm _ IH]; simpl; [reflexivity|].
  rewrite (message_tuple_line m Hm), IH. reflexivity.
Qed.

Lemma inserted_all_fresh rows :
  forall ms,
    NoDup (map fst rows) ->
    (forall id, In id (map fst rows) -> ~ In id (ids ms)) ->
    inserted ms rows = ms ++ map message_of rows.
Proof.
  induction rows as [|row rows IH]; intros ms Hnd Hfresh; simpl.
  - rewrite app_nil_r. reflexivity.
  - inversion Hnd as [|? ? Hnotin Hnd']; subst.
    rewrite (existsb_id_false (fst row) ms (Hfresh _ (or_introl eq_refl))).
    rewrite IH; [rewrite <- app_assoc; reflexivity | exact Hnd' |].
    intros id Hin Hstored. unfold ids in Hstored. rewrite map_app in Hstored.
    apply in_app_or in Hstored. destruct Hstored as [Hold|Hnew].
    + apply (Hfresh id); [right; exact Hin | exact Hold].
    + simpl in Hnew. destruct Hnew as [Heq|[]].
      apply Hnotin. destruct row as [rid rrest]. simpl in Heq.
      rewrite Heq. exact Hin.
Qed.

Lemma map_message_of_tuple_of rows :
  Forall (fun m => feed_message m = true) rows ->
  map message_of (map tuple_of rows) = rows
  /\ Forall insertable (map tuple_of rows)
  /\ map fst (map tuple_of rows) = ids rows.
Proof.
  induction 1 as [|m rows Hm _ [IH1 [IH2 IH3]]]; simpl.
  - repeat split. constructor.
  - destruct (message_of_tuple_of m Hm) as [Hof Hins].
    rewrite Hof, IH1. unfold ids in *. simpl. rewrite IH3.
    repeat split. constructor; assumption.
Qed.

Lemma pruned_within limit ms :
  Z.of_nat (List.length ms) <= limit -> pruned limit ms = ms.
Proof.
  intros H. unfold pruned.
  destruct (Z.ltb_spec 0 (Z.of_nat (List.length ms) - limit)); [lia|].
  reflexivity.
Qed.

Lemma get_raw_messages_lines c :
  (forall m, In m (messages (working c)) -> feed_message m = true) ->
  let sorted := order_by_epoch_asc_id_asc (messages (working c)) in
  get_raw_messages c = (Return (join LFS (map message_line sorted)), c)
  /\ Forall (fun m => feed_message m = true) sorted
  /\ PyStr.splitlines (join LFS (map message_line sorted))
     = map message_line sorted.
Proof.
  intros Hfeed sorted.
  assert (Hsorted : Forall (fun m => feed_message m = true) sorted).
  { apply Forall_forall. intros m Hm. apply Hfeed.
    exact (Permutation_in _ (Permutation_sym (sort_by_permutation _ _)) Hm). }
  split; [reflexivity|]. split; [exact Hsorted|].
  apply splitlines_join. apply Forall_forall. intros l Hl.
  apply in_map_iff in Hl. destruct Hl as [m [<- Hm]].
  destruct (message_line_shape m (proj1 (Forall_forall _ _) Hsorted m Hm))
    as [Hlb [Hne _]].
  split; assumption.
Qed.

Lemma update_messages_of_served_lines self src dst :
  (forall m, In m (messages (working src)) -> feed_message m = true) ->
  NoDup (ids (messages (working src))) ->
  (forall id, In id (ids (messages (working src))) ->
              ~ In id (ids (messages (working dst)))) ->
  let served := order_by_epoch_asc_id_asc (messages (working src)) in
  update_messages self (join LFS (map message_line served)) dst
  = (Return tt,
     let db := set_messages (working dst)
                 (pruned (max_messages self)
                         (messages (working dst) ++ served)) in
     Connection db db).
Proof.
  intros Hfeed Hnd Hfresh served.
  destruct (get_raw_messages_lines src Hfeed) as [Hget [Hsorted Hlines]].
  fold served in Hget, Hsorted, Hlines.
  assert (Hperm : Permutation (messages (working src)) served)
    by apply sort_by_permutation.
  destruct (map_message_of_tuple_of served Hsorted) as [Hof [Hins Hfst]].
  rewrite (update_messages_run self _ dst (map tuple_of served)).
  - rewrite inserted_all_fresh, Hof; [reflexivity | |].
    + rewrite Hfst. unfold ids.
      apply (Permutation_NoDup (Permutation_map m_id Hperm)). exact Hnd.
    + rewrite Hfst. intros id Hin. apply Hfresh. unfold ids in *.
      exact (Permutation_in _
               (Permutation_sym (Permutation_map m_id Hperm)) Hin).
  - rewrite Hlines. apply comprehension_message_lines. exact Hsorted.
  - exact Hins.
Qed.


Lemma three_messages_feed :
  forall m, In m (messages (working three_messages)) -> feed_message m = true.
Proof.
  intros m [<-|[<-|[<-|[]]]]; reflexivity.
Qed.


(* ===================================================================== *)
(** ** The checksum: what a node sends is what a peer accepts *)
(* ===================================================================== *)

Lemma utf8_ascii s : ascii_text s = true -> utf8 s = s.
Proof.
  induction s as [|c s IH]; simpl; intros H; [reflexivity|].
  apply andb_true_iff in H. destruct H as [Hc Hs].
  rewrite Hc, (IH Hs). reflexivity.
Qed.

Lemma fetch_checksummed_text text (update_function : string -> M unit) c :
  ascii_text text = true ->
  text <> EmptyString ->
  fetch_raw_list (send_checksummed_text text) update_function c
  = update_function text c.
Proof.
  intros Hascii Hne.
  unfold send_checksummed_text, fetch_raw_list, check_message_checksum.
  rewrite (utf8_ascii text Hascii).
  replace (200 =? 404) with false by reflexivity.
  assert (Hhdr : header "Content-MD5"
                   [("Content-Type", "text/plain; charset=utf-8");
                    ("Content-Length",
                     str_int (Z.of_nat (String.length text)));
                    ("Content-MD5", MD5.hexdigest text)]
                 = Some (MD5.hexdigest text)) by reflexivity.
  rewrite Hhdr, String.eqb_refl.
  destruct text as [|ch text]; [contradiction|].
  reflexivity.
Qed.

(** X4.  The response [send_checksummed_text] builds for an ASCII text
    passes [check_message_checksum]: [fetch_raw_list] hands a text that
    is not empty to the update function, exactly as it was sent, and
    does nothing for the empty text. *)
Theorem served_text_passes_checksum :
  forall text (update_function : string -> M unit) c,
    ascii_text text = true ->
    (text <> EmptyString ->
     fetch_raw_list (send_checksummed_text text) update_function c
     = update_function text c)
    /\ (text = EmptyString ->
        fetch_raw_list (send_checksummed_text text) update_function c
        = (Return tt, c)).
Proof.
  intros text update_function c Hascii. split.
  - intros Hne. apply fetch_checksummed_text; assumption.
  - intros ->. reflexivity.
Qed.

Lemma served_text_passes_checksum_witness :
  ascii_text scenario_line = true
  /\ fetch_raw_list (send_checksummed_text scenario_line)
                    (update_messages default_chat) fresh_connection
     = update_messages default_chat scenario_line fresh_connection.
Proof.
  split; [reflexivity|].
  apply (proj1 (served_text_passes_checksum scenario_line
                  (update_messages default_chat) fresh_connection eq_refl)).
  discriminate.
Defined.

(* ===================================================================== *)
(** ** Versions: serving, probing, and skipping peers in sync *)
(* ===================================================================== *)

(** X1.  The version a peer serves through [do_messages_version] is the
    version [poll_node] stores for it: the decimal text is read back as
    the same integer (within 64 bits), and the peer is marked alive. *)
Theorem probed_version_is_served_version :
  forall now requests_get node c peer served,
    fst (do_messages_version peer) = Return served ->
    requests_get node = served ->
    int64 (sum_ids (messages (working peer))) = true ->
    poll_node now requests_get node c
    = (Return tt,
       Connection (committed c)
         (set_nodes (working c)
            (map (fun r =>
                    if sql_eq (n_name r) (bind_str (fst node))
                    then Node (n_name r) (n_port r)
                              (VInt (sum_ids (messages (working peer))))
                              (VInt 1) (n_last_polled r) (n_non_mesh r)
                    else r)
                 (nodes (working c))))).
Proof.
  intros now requests_get node c peer served Hserved Hget H64.
  unfold do_messages_version, bind in Hserved.
  rewrite get_message_version_sum in Hserved. cbn in Hserved.
  injection Hserved as <-.
  unfold poll_node. rewrite Hget.
  replace (negb (200 =? 200)) with false by reflexivity.
  unfold bind, lift, int_. rewrite py_int_str_int.
  unfold execute, update_node_version. rewrite H64. reflexivity.
Qed.

Lemma probed_version_is_served_version_witness :
  int64 (sum_ids (messages (working three_messages))) = true
  /\ map n_messages_version
       (nodes (working (snd
          (poll_node "2024-01-02 00:00:00"
             (fun _ => Response 200
                         [("Content-Type", "text/plain; charset=utf-8");
                          ("Content-Length", "1")] "6")
             (Some "nodeA", Some 8080) registry_a))))
     = [VInt 6].
Proof.
  split; [reflexivity|].
  rewrite (probed_version_is_served_version "2024-01-02 00:00:00"
             (fun _ => Response 200
                         [("Content-Type", "text/plain; charset=utf-8");
                          ("Content-Length", "1")] "6")
             (Some "nodeA", Some 8080) registry_a three_messages
             (Response 200
                [("Content-Type", "text/plain; charset=utf-8");
                 ("Content-Length", "1")] "6")
             eq_refl eq_refl eq_refl).
  reflexivity.
Defined.



Lemma refresh_messages_one_stale self now requests_get c node c1 :
  select_stale_nodes (sum_ids (messages (working c))) (working c) = [node] ->
  fetch_raw_list (requests_get node) (update_messages self) c = (Return tt, c1) ->
  refresh_messages self now requests_get c
  = (Return tt,
     let db :=
       set_nodes (working c1)
         (map (fun n =>
                 if sql_eq (n_alive n) (VInt 1)
                 then Node (n_name n) (n_port n) (n_messages_version n)
                           (n_alive n) (VText now) (n_non_mesh n)
                 else n)
              (nodes (working c1))) in
     Connection db db).
Proof.
  intros Hstale Hfetch. unfold refresh_messages.
  unfold bind at 1. rewrite get_message_version_sum.
  unfold bind at 1. unfold query at 1. rewrite Hstale.
  cbn [for_each]. unfold bind. rewrite Hfetch. reflexivity.
Qed.

Lemma ascii_text_join_lines lines :
  Forall (fun l => ascii_text l = true) lines ->
  ascii_text (join LFS lines) = true.
Proof.
  unfold join. induction 1 as [|l lines Hl _ IH]; [reflexivity|].
  destruct lines as [|l' lines]; [exact Hl|].
  change (String.concat LFS (l :: l' :: lines))
    with (l ++ String PyStr.LF (String.concat LFS (l' :: lines)))%string.
  rewrite ascii_text_app, Hl. cbn [ascii_text]. rewrite IH. reflexivity.
Qed.

Lemma join_lines_nonempty l lines :
  l <> EmptyString -> join LFS (l :: lines) <> EmptyString.
Proof.
  intros Hne. unfold join. destruct l as [|ch l]; [contradiction|].
  destruct lines; simpl; discriminate.
Qed.

(** X5.  A pull, end to end.  The local store has no message and one
    registry row is stale; that peer serves its messages through
    [do_messages_raw].  For a peer store of distinct 64-bit ids, 64-bit
    epochs and plain texts that fits the local limit, [refresh_messages]
    returns and commits, the local store then holds exactly the peer's
    rows, in (epoch, id) ascending order, and the local version equals
    the peer's. *)
Theorem refresh_messages_pulls_the_peer_feed :
  forall self now requests_get c peer node served,
    messages (working c) = [] ->
    select_stale_nodes 0 (working c) = [node] ->
    fst (do_messages_raw peer) = Return served ->
    requests_get node = served ->
    messages (working peer) <> [] ->
    (forall m, In m (messages (working peer)) -> feed_message m = true) ->
    NoDup (ids (messages (working peer))) ->
    Z.of_nat (List.length (messages (working peer))) <= max_messages self ->
    let r := refresh_messages self now requests_get c in
    fst r = Return tt
    /\ messages (working (snd r))
       = order_by_epoch_asc_id_asc (messages (working peer))
    /\ Permutation (messages (working (snd r))) (messages (working peer))
    /\ fst (get_message_version (snd r)) = fst (get_message_version peer)
    /\ committed (snd r) = working (snd r).
Proof.
  intros self now requests_get c peer node served
         Hempty Hstale Hserved Hget Hne Hfeed Hnd Hlimit r.
  set (rows := order_by_epoch_asc_id_asc (messages (working peer))).
  destruct (get_raw_messages_lines peer Hfeed) as [Hraw [Hsorted Hlines]].
  fold rows in Hraw, Hsorted, Hlines.
  set (text := join LFS (map message_line rows)) in *.
  assert (Hperm : Permutation (messages (working peer)) rows)
    by apply sort_by_permutation.
  (* what the peer serves *)
  unfold do_messages_raw, bind in Hserved. rewrite Hraw in Hserved.
  cbn in Hserved. injection Hserved as <-.
  (* the text is ASCII and not empty *)
  assert (Hascii : ascii_text text = true).
  { apply ascii_text_join_lines. apply Forall_forall. intros l Hl.
    apply in_map_iff in Hl. destruct Hl as [m [<- Hm]].
    exact (proj2 (proj2 (message_line_shape m
                           (proj1 (Forall_forall _ _) Hsorted m Hm)))). }
  assert (Htext : text <> EmptyString).
  { destruct rows as [|m rows'] eqn:Hrows.
    - apply Permutation_length in Hperm. simpl in Hperm.
      destruct (messages (working peer)); [contradiction | discriminate].
    - apply join_lines_nonempty.
      exact (proj1 (proj2 (message_line_shape m (Forall_inv Hsorted)))). }
  (* the merge *)
  assert (Hfresh : forall id, In id (ids (messages (working peer))) ->
                              ~ In id (ids (messages (working c)))).
  { intros id _. rewrite Hempty. intros []. }
  pose proof (update_messages_of_served_lines self peer c Hfeed Hnd Hfresh)
    as Hrun.
  cbv zeta in Hrun. fold rows in Hrun. fold text in Hrun.
  rewrite Hempty in Hrun. cbn [app] in Hrun.
  rewrite (pruned_within (max_messages self) rows) in Hrun
    by (rewrite <- (Permutation_length Hperm); exact Hlimit).
  assert (Hfetch : fetch_raw_list (requests_get node) (update_messages self) c
                   = update_messages self text c).
  { rewrite Hget. apply fetch_checksummed_text; assumption. }
  rewrite Hrun in Hfetch.
  assert (Hstale' : select_stale_nodes (sum_ids (messages (working c)))
                                       (working c) = [node]).
  { rewrite Hempty. exact Hstale. }
  subst r.
  rewrite (refresh_messages_one_stale self now requests_get c node _
             Hstale' Hfetch).
  cbn [fst snd working committed messages set_messages set_nodes].
  split; [reflexivity|]. split; [reflexivity|].
  split; [apply Permutation_sym; exact Hperm|].
  split; [|reflexivity].
  rewrite !get_message_version_sum. cbn [fst working messages set_nodes].
  f_equal. apply sum_ids_permutation.
  apply Permutation_sym. exact Hperm.
Qed.

Lemma refresh_messages_pulls_the_peer_feed_witness :
  let served :=
    send_checksummed_text
      (join LFS (map message_line
                     [plain_message 1 10; plain_message 3 20;
                      plain_message 2 30])) in
  (messages (working registry_a) = []
   /\ select_stale_nodes 0 (working registry_a) = [node_a]
   /\ fst (do_messages_raw three_messages) = Return served
   /\ messages (working three_messages) <> []
   /\ NoDup (ids (messages (working three_messages)))
   /\ Z.of_nat (List.length (messages (working three_messages)))
      <= max_messages default_chat)
  /\ messages (working (snd (refresh_messages default_chat
                               "2024-06-01 00:00:00" (fun _ => served)
                               registry_a)))
     = [plain_message 1 10; plain_message 3 20; plain_message 2 30]
  /\ fst (get_message_version
            (snd (refresh_messages default_chat "2024-06-01 00:00:00"
                                   (fun _ => served) registry_a)))
     = Return 6.
Proof.
  intros served.
  assert (Hnd : NoDup (ids (messages (working three_messages)))).
  { simpl. repeat constructor; simpl; intuition discriminate. }
  assert (Hne : messages (working three_messages) <> []) by discriminate.
  assert (Hlimit : Z.of_nat (List.length (messages (working three_messages)))
                   <= max_messages default_chat) by (simpl; lia).
  split.
  { split; [reflexivity|]. split; [reflexivity|]. split; [reflexivity|].
    split; [exact Hne|]. split; [exact Hnd | exact Hlimit]. }
  pose proof (refresh_messages_pulls_the_peer_feed default_chat
                "2024-06-01 00:00:00" (fun _ => served) registry_a
                three_messages node_a served
                eq_refl eq_refl eq_refl eq_refl Hne three_messages_feed
                Hnd Hlimit) as H.
  cbv zeta in H. destruct H as [_ [Hrows [_ [Hversion _]]]].
  split; [exact Hrows | exact Hversion].
Defined.

(* ===================================================================== *)
(** ** The users and files feeds: export, then merge *)
(* ===================================================================== *)

Lemma executemany_replace_user rows :
  forall c,
    executemany replace_user
      (map (fun u => map py_str (user_columns u)) rows) c
    = (Return tt,
       Connection (committed c)
         (set_users (working c)
            (fold_left upsert_user (map user_as_received rows)
                       (users (working c))))).
Proof.
  induction rows as [|u rows IH]; intros c.
  - destruct c as [cm [ms us fs ns]]. reflexivity.
  - cbn [map executemany]. unfold bind at 1.
    unfold execute at 1. cbn [replace_user user_columns map List.length
                              bindings Nat.eqb].
    rewrite IH. destruct c as [cm [ms us fs ns]]. reflexivity.
Qed.

Lemma executemany_replace_file rows :
  Forall (fun f => feed_file f = true) rows ->
  forall c,
    executemany replace_file
      (map (fun f => map py_str (file_columns f)) rows) c
    = (Return tt,
       Connection (committed c)
         (set_files (working c)
            (fold_left upsert_file (map as_remote rows)
                       (files (working c))))).
Proof.
  induction 1 as [|f rows Hf _ IH]; intros c.
  - destruct c as [cm [ms us fs ns]]. reflexivity.
  - cbn [map executemany]. unfold bind at 1.
    unfold execute at 1. cbn [replace_file file_columns map List.length
                              bindings Nat.eqb].
    unfold feed_file in Hf.
    do 4 (apply andb_true_iff in Hf; destruct Hf as [Hf ?]).
    destruct f as [file epoch size node local platform].
    cbn [f_file f_epoch f_size f_node f_platform] in *.
    destruct file as [| |file]; try discriminate.
    destruct node as [| |node]; try discriminate.
    destruct platform as [| |platform]; try discriminate.
    destruct size as [|size|]; try discriminate.
    destruct epoch as [|epoch|]; try discriminate.
    cbn [py_str int64_value] in *.
    rewrite !integer_affinity_str_int by assumption.
    rewrite IH. destruct c as [cm [ms us fs ns]]. reflexivity.
Qed.

Lemma join_tabs_nonempty f g fields :
  join TABS (f :: g :: fields) <> EmptyString.
Proof.
  unfold join.
  change (String.concat TABS (f :: g :: fields))
    with (f ++ String PyStr.TAB (String.concat TABS (g :: fields)))%string.
  destruct f; discriminate.
Qed.

Lemma feed_lines_split {A : Type} (columns : A -> list sqlval) rows :
  (forall r, In r rows ->
             (2 <= List.length (columns r))%nat
             /\ Forall (fun f => plain_text f = true)
                       (map py_str (columns r))) ->
  map (PyStr.split PyStr.TAB)
      (PyStr.splitlines
         (join LFS (map (fun r => join TABS (map py_str (columns r))) rows)))
  = map (fun r => map py_str (columns r)) rows.
Proof.
  intros Hrows.
  rewrite splitlines_join.
  - rewrite map_map. apply map_ext_in. intros r Hr.
    destruct (Hrows r Hr) as [Hlen Hplain].
    apply split_join.
    + destruct (columns r); [simpl in Hlen; lia | discriminate].
    + apply Forall_forall. intros f Hf.
      exact (proj1 (plain_text_parts f
                      (proj1 (Forall_forall _ _) Hplain f Hf))).
  - apply Forall_forall. intros l Hl.
    apply in_map_iff in Hl. destruct Hl as [r [<- Hr]].
    destruct (Hrows r Hr) as [Hlen Hplain].
    split.
    + exact (proj1 (plain_text_join_tabs _ Hplain)).
    + destruct (columns r) as [|v [|w cols]];
        [simpl in Hlen; lia | simpl in Hlen; lia |].
      cbn [map]. apply join_tabs_nonempty.
Qed.

Lemma feed_user_columns u :
  feed_user u = true ->
  (2 <= List.length (user_columns u))%nat
  /\ Forall (fun f => plain_text f = true) (map py_str (user_columns u)).
Proof.
  intros H. split; [simpl; lia|].
  unfold feed_user in H. rewrite forallb_forall in H.
  apply Forall_forall. intros f Hf.
  apply in_map_iff in Hf. destruct Hf as [v [<- Hv]]. exact (H v Hv).
Qed.

Lemma feed_file_columns f :
  feed_file f = true ->
  (2 <= List.length (file_columns f))%nat
  /\ Forall (fun s => plain_text s = true) (map py_str (file_columns f)).
Proof.
  intros H. split; [simpl; lia|].
  unfold feed_file in H.
  do 4 (apply andb_true_iff in H; destruct H as [H ?]).
  destruct f as [file epoch size node local platform].
  cbn [f_file f_epoch f_size f_node f_platform] in *.
  destruct file as [| |file]; try discriminate.
  destruct node as [| |node]; try discriminate.
  destruct platform as [| |platform]; try discriminate.
  destruct size as [|size|]; try discriminate.
  destruct epoch as [|epoch|]; try discriminate.
  cbn [file_columns f_file f_epoch f_size f_node f_platform map py_str
       plain_value] in *.
  repeat constructor; try assumption; apply str_int_plain.
Qed.

Lemma get_raw_users_lines node local_only c :
  get_raw_users node local_only c
  = (Return (join LFS (map user_line
                           (users_served node local_only (working c)))), c).
Proof. destruct local_only; reflexivity. Qed.

Lemma get_raw_files_lines local_only c :
  get_raw_files local_only c
  = (Return (join LFS (map file_line (files_served local_only (working c)))),
     c).
Proof. destruct local_only; reflexivity. Qed.

(** X6.  The users feed does not come back as it was stored.
    [get_raw_users] prints the columns of "SELECT *" in the order of the
    table (id, call_sign, epoch, node, platform) and [update_users] binds
    the fields of a line to (call_sign, id, node, epoch, platform): the
    merge returns, and every served row is upserted with its id and call
    sign exchanged, the text of its epoch as its node, and its node in
    the epoch column. *)
Theorem served_users_are_stored_exchanged :
  forall node local_only src dst,
    (forall u, In u (users_served node local_only (working src)) ->
               feed_user u = true) ->
    exists text,
      get_raw_users node local_only src = (Return text, src)
      /\ update_users text dst
         = (Return tt,
            let db :=
              set_users (working dst)
                (fold_left upsert_user
                   (map user_as_received
                        (users_served node local_only (working src)))
                   (users (working dst))) in
            Connection db db).
Proof.
  intros node local_only src dst Hfeed.
  exists (join LFS (map user_line
                        (users_served node local_only (working src)))).
  split; [apply get_raw_users_lines|].
  unfold update_users, user_line.
  rewrite (feed_lines_split user_columns)
    by (intros u Hu; apply feed_user_columns, Hfeed, Hu).
  unfold bind. rewrite executemany_replace_user. reflexivity.
Qed.

Lemma served_users_are_stored_exchanged_witness :
  (forall u, In u (users_served "nodeA" true (working one_user)) ->
             feed_user u = true)
  /\ exists text,
      get_raw_users "nodeA" true one_user = (Return text, one_user)
      /\ users (working (snd (update_users text fresh_connection)))
         = [User (VText "KB1XYZ") (VText "7") (VText "nodeA")
                 (VText "1700000000") (VText "pi")].
Proof.
  assert (Hfeed : forall u, In u (users_served "nodeA" true
                                                (working one_user)) ->
                            feed_user u = true).
  { intros u [<-|[]]. reflexivity. }
  split; [exact Hfeed|].
  destruct (served_users_are_stored_exchanged "nodeA" true one_user
              fresh_connection Hfeed) as [text [Hget Hrun]].
  exists text. split; [exact Hget|].
  rewrite Hrun. reflexivity.
Defined.

Lemma served_files_export_merge local_only src dst :
  (forall f, In f (files_served local_only (working src)) ->
             feed_file f = true) ->
  get_raw_files local_only src
  = (Return (join LFS (map file_line
                           (files_served local_only (working src)))), src)
  /\ update_files
       (join LFS (map file_line (files_served local_only (working src)))) dst
     = (Return tt,
        let db :=
          set_files (working dst)
            (fold_left upsert_file
               (map as_remote (files_served local_only (working src)))
               (files (working dst))) in
        Connection db db).
Proof.
  intros Hfeed. split; [apply get_raw_files_lines|].
  unfold update_files, file_line.
  rewrite (feed_lines_split file_columns)
    by (intros f Hf; apply feed_file_columns, Hfeed, Hf).
  unfold bind. rewrite executemany_replace_file; [reflexivity|].
  apply Forall_forall. exact Hfeed.
Qed.

(** X7.  The files feed comes back whole.  For local rows with plain
    names and 64-bit sizes and epochs, what [get_raw_files] prints,
    [update_files] upserts row by row with the same file, node, size,
    epoch and platform, and with [local] 0. *)
Theorem served_files_are_stored_as_remote :
  forall local_only src dst,
    (forall f, In f (files_served local_only (working src)) ->
               feed_file f = true) ->
    exists text,
      get_raw_files local_only src = (Return text, src)
      /\ update_files text dst
         = (Return tt,
            let db :=
              set_files (working dst)
                (fold_left upsert_file
                   (map as_remote (files_served local_only (working src)))
                   (files (working dst))) in
            Connection db db).
Proof.
  intros local_only src dst Hfeed.
  destruct (served_files_export_merge local_only src dst Hfeed)
    as [Hget Hrun].
  exists (join LFS (map file_line (files_served local_only (working src)))).
  split; [exact Hget | exact Hrun].
Qed.

Lemma served_files_are_stored_as_remote_witness :
  (forall f, In f (files_served true (working two_files)) ->
             feed_file f = true)
  /\ exists text,
      get_raw_files true two_files = (Return text, two_files)
      /\ files (working (snd (update_files text fresh_connection)))
         = [File (VText "map.png") (VInt 1700000000) (VInt 1024)
                 (VText "nodeA") (VInt 0) (VText "pi")].
Proof.
  assert (Hfeed : forall f, In f (files_served true (working two_files)) ->
                            feed_file f = true).
  { intros f [<-|[]]. reflexivity. }
  split; [exact Hfeed|].
  destruct (served_files_are_stored_as_remote true two_files
              fresh_connection Hfeed) as [text [Hget Hrun]].
  exists text. split; [exact Hget|].
  rewrite Hrun. reflexivity.
Defined.

(* ===================================================================== *)
(** ** A node that merges its own files feed *)
(* ===================================================================== *)

Lemma sql_eq_true a b : sql_eq a b = true -> a = b /\ sql_eq b b = true.
Proof.
  destruct a as [|x|s], b as [|y|t]; simpl; try discriminate; intros H.
  - apply Z.eqb_eq in H. subst y. split; [reflexivity | apply Z.eqb_refl].
  - apply String.eqb_eq in H. subst t.
    split; [reflexivity | apply String.eqb_refl].
Qed.

Lemma same_file_chain g a b :
  same_file g b = true -> same_file a b = true -> same_file g a = true.
Proof.
  unfold same_file. intros Hg Ha.
  apply andb_true_iff in Hg. destruct Hg as [Hg1 Hg2].
  apply andb_true_iff in Ha. destruct Ha as [Ha1 Ha2].
  destruct (sql_eq_true _ _ Hg1) as [-> Hb1].
  destruct (sql_eq_true _ _ Hg2) as [-> Hb2].
  destruct (sql_eq_true _ _ Ha1) as [-> _].
  destruct (sql_eq_true _ _ Ha2) as [-> _].
  rewrite Hb1, Hb2. reflexivity.
Qed.

Lemma feed_file_same_file f : feed_file f = true -> same_file f f = true.
Proof.
  unfold feed_file, same_file. intros H.
  do 4 (apply andb_true_iff in H; destruct H as [H ?]).
  destruct (f_file f) as [| |file]; try discriminate.
  destruct (f_node f) as [| |node]; try discriminate.
  simpl. rewrite !String.eqb_refl. reflexivity.
Qed.

(** Where the rows of a table come from after a run of upserts. *)
Lemma fold_upsert_file_elements rs :
  forall l x,
    In x (fold_left upsert_file rs l) ->
    (In x l /\ forall r, In r rs -> same_file x r = false) \/ In x rs.
Proof.
  induction rs as [|a rs IH]; intros l x Hx; simpl in Hx.
  - left. split; [exact Hx | intros r []].
  - destruct (IH _ _ Hx) as [[Hin Hnone]|Hin].
    + unfold upsert_file in Hin. apply in_app_or in Hin.
      destruct Hin as [Hin|[<-|[]]].
      * apply filter_In in Hin. destruct Hin as [Hin Hneg].
        left. split; [exact Hin|].
        intros r [<-|Hr]; [|exact (Hnone r Hr)].
        destruct (same_file x a); [discriminate | reflexivity].
      * right. left. reflexivity.
    + right. right. exact Hin.
Qed.

Lemma same_file_right a b : same_file a b = true -> same_file b b = true.
Proof.
  unfold same_file. intros H.
  apply andb_true_iff in H. destruct H as [H1 H2].
  rewrite (proj2 (sql_eq_true _ _ H1)), (proj2 (sql_eq_true _ _ H2)).
  reflexivity.
Qed.

(** A key that is in the table stays in the table. *)
Lemma fold_upsert_file_keeps_key rs :
  forall l a,
    In a l -> same_file a a = true ->
    exists g, In g (fold_left upsert_file rs l)
              /\ (g = a \/ In g rs) /\ same_file g a = true.
Proof.
  induction rs as [|b rs IH]; intros l a Ha Hkey; simpl.
  - exists a. split; [exact Ha|]. split; [left; reflexivity | exact Hkey].
  - destruct (same_file a b) eqn:Hab.
    + assert (Hb : In b (upsert_file l b))
        by (unfold upsert_file; apply in_or_app; right; left; reflexivity).
      destruct (IH _ b Hb (same_file_right a b Hab)) as [g [Hg [Hor Hgb]]].
      exists g. split; [exact Hg|]. split.
      * right. destruct Hor as [->|Hin]; [left; reflexivity | right; exact Hin].
      * exact (same_file_chain g a b Hgb Hab).
    + assert (Ha' : In a (upsert_file l b)).
      { unfold upsert_file. apply in_or_app. left.
        apply filter_In. split; [exact Ha|]. rewrite Hab. reflexivity. }
      destruct (IH _ a Ha' Hkey) as [g [Hg [Hor Hga]]].
      exists g. split; [exact Hg|]. split; [|exact Hga].
      destruct Hor as [->|Hin]; [left; reflexivity | right; right; exact Hin].
Qed.

(** X8.  A node that merges its own files feed stops serving its files.
    [update_files] stores every row of a feed with [local] 0, also the
    rows of the node's own export: after the merge each file that was
    local still has a row with its file name and node, no row is local,
    and [get_raw_files] returns the empty text. *)
Theorem merging_own_files_feed_clears_local :
  forall c,
    (forall f, In f (files_served true (working c)) -> feed_file f = true) ->
    exists text,
      get_raw_files true c = (Return text, c)
      /\ fst (update_files text c) = Return tt
      /\ (forall f, In f (files_served true (working c)) ->
            exists g, In g (files (working (snd (update_files text c))))
                      /\ same_file g f = true /\ f_local g = VInt 0)
      /\ files_served true (working (snd (update_files text c))) = []
      /\ get_raw_files true (snd (update_files text c))
         = (Return EmptyString, snd (update_files text c)).
Proof.
  intros c Hfeed.
  destruct (served_files_export_merge true c c Hfeed) as [Hget Hrun].
  set (rows := files_served true (working c)) in *.
  exists (join LFS (map file_line rows)).
  split; [exact Hget|]. rewrite Hrun.
  cbn [fst snd working files set_files].
  split; [reflexivity|].
  assert (Hnone : files_served true
                    (set_files (working c)
                       (fold_left upsert_file (map as_remote rows)
                                  (files (working c)))) = []).
  { unfold files_served. cbn [files set_files].
    apply filter_nothing. intros x Hx.
    destruct (fold_upsert_file_elements _ _ _ Hx) as [[Hin Hno]|Hin].
    - destruct (sql_eq (f_local x) (VInt 1)) eqn:Hlocal; [|reflexivity].
      assert (Hrow : In x rows).
      { unfold rows, files_served. apply filter_In. split; assumption. }
      pose proof (Hno (as_remote x) (in_map as_remote _ _ Hrow)) as Hdiff.
      change (same_file x (as_remote x)) with (same_file x x) in Hdiff.
      rewrite (feed_file_same_file x (Hfeed x Hrow)) in Hdiff.
      discriminate.
    - apply in_map_iff in Hin. destruct Hin as [r [<- _]]. reflexivity. }
  split; [|split].
  - intros f Hf.
    assert (Hin : In f (files (working c))).
    { unfold rows, files_served in Hf. apply filter_In in Hf. tauto. }
    destruct (fold_upsert_file_keeps_key (map as_remote rows)
                (files (working c)) f Hin
                (feed_file_same_file f (Hfeed f Hf))) as [g [Hg [Hor Hkey]]].
    exists g. split; [exact Hg|]. split; [exact Hkey|].
    destruct Hor as [->|Hmap].
    + exfalso.
      assert (Hserved : In f (files_served true
                                 (set_files (working c)
                                    (fold_left upsert_file
                                       (map as_remote rows)
                                       (files (working c)))))).
      { unfold files_served. cbn [files set_files].
        apply filter_In. split; [exact Hg|].
        unfold rows, files_served in Hf. apply filter_In in Hf. tauto. }
      rewrite Hnone in Hserved. exact Hserved.
    + apply in_map_iff in Hmap. destruct Hmap as [r [<- _]]. reflexivity.
  - exact Hnone.
  - rewrite get_raw_files_lines. cbn [working]. rewrite Hnone. reflexivity.
Qed.

Lemma merging_own_files_feed_clears_local_witness :
  (forall f, In f (files_served true (working two_files)) ->
             feed_file f = true)
  /\ exists text,
      get_raw_files true two_files = (Return text, two_files)
      /\ files (working (snd (update_files text two_files)))
         = [remote_notes; as_remote local_map]
      /\ get_raw_files true (snd (update_files text two_files))
         = (Return EmptyString, snd (update_files text two_files)).
Proof.
  assert (Hfeed : forall f, In f (files_served true (working two_files)) ->
                            feed_file f = true).
  { intros f [<-|[]]. reflexivity. }
  split; [exact Hfeed|].
  destruct (merging_own_files_feed_clears_local two_files Hfeed)
    as [text [Hget [_ [_ [_ Hempty]]]]].
  exists text. split; [exact Hget|]. split; [|exact Hempty].
  rewrite get_raw_files_lines in Hget. injection Hget as <-.
  reflexivity.
Defined.

(* ===================================================================== *)
(** ** [create_message] *)
(* ===================================================================== *)

Lemma byte_nibbles x :
  0 <= Z.shiftr (Z.land x 255) 4 < 16 /\ 0 <= Z.land (Z.land x 255) 15 < 16.
Proof.
  change 255 with (Z.ones 8). change 15 with (Z.ones 4).
  rewrite !Z.land_ones by lia. rewrite Z.shiftr_div_pow2 by lia.
  change (2 ^ 8) with 256. change (2 ^ 4) with 16.
  pose proof (Z.mod_pos_bound x 256 ltac:(lia)) as Hb.
  pose proof (Z.mod_pos_bound (x mod 256) 16 ltac:(lia)) as Hn.
  split; [|exact Hn]. split.
  - apply Z.div_pos; lia.
  - apply Z.div_lt_upper_bound; lia.
Qed.

(** The first eight characters of a digest are hexadecimal digits. *)
Lemma hexdigest_prefix_hex_id content :
  hex_id (String.substring 0 8 (MD5.hexdigest content)).
Proof.
  unfold MD5.hexdigest, MD5.digest.
  match goal with
  | |- context [fold_left MD5.block ?l ?i] =>
      destruct (fold_left MD5.block l i) as [a b c d]
  end.
  cbn [MD5.le_bytes app MD5.hex String.substring].
  split; [reflexivity|].
  cbn [list_ascii_of_string].
  repeat (apply Forall_cons;
          [apply hex_digit_char; apply byte_nibbles|]).
  apply Forall_nil.
Qed.

Lemma message_id_range seconds draw :
  exists id, message_id seconds draw = Return id /\ 0 <= id < 2 ^ 32.
Proof.
  unfold message_id, int_.
  destruct (py_int_hex_id _ (hexdigest_prefix_hex_id
              (utf8 (str_int seconds ++ "." ++ str_int draw)%string)))
    as [id [Hid Hrange]].
  exists id. rewrite Hid. split; [reflexivity | exact Hrange].
Qed.

Lemma int64_of_id id : 0 <= id < 2 ^ 32 -> int64 id = true.
Proof.
  intros H. unfold int64. apply andb_true_iff.
  split; [apply Z.leb_le | apply Z.ltb_lt]; lia.
Qed.

(** The row [create_message] inserts. *)
Lemma create_message_run self node seconds draw callsign message channel
      epoch c id :
  message_id seconds draw = Return id ->
  0 <= id < 2 ^ 32 ->
  int64 epoch = true ->
  ~ In id (ids (messages (working c))) ->
  create_message self node seconds draw callsign message channel epoch c
  = (Return tt,
     let db :=
       set_messages (working c)
         (pruned (max_messages self)
            (messages (working c)
             ++ [Message id (VInt epoch) (bind_str message)
                         (bind_str callsign) (VText node) (VText "pi")
                         (bind_str channel)])) in
     Connection db db).
Proof.
  intros Hid Hrange Hepoch Hfresh.
  unfold create_message. rewrite Hid.
  unfold bind at 1. unfold lift.
  unfold bind at 1. unfold execute, insert_local_message.
  rewrite (int64_of_id id Hrange), Hepoch. cbn [andb negb].
  rewrite (existsb_id_false id _ Hfresh).
  unfold bind at 1. unfold commit at 1. cbn [working].
  rewrite prune_messages_run. cbn [working messages set_messages].
  destruct c as [cm [ms us fs ns]]. reflexivity.
Qed.



Lemma pruned_drops_newest limit ms new :
  Z.of_nat (List.length ms) = limit ->
  NoDup (ids ms) ->
  ~ In (m_id new) (ids ms) ->
  (forall m, In m ms -> sql_compare (m_epoch m) (m_epoch new) = Lt) ->
  pruned limit (ms ++ [new]) = ms.
Proof.
  intros Hlen Hnd Hfresh Holder.
  assert (Hnd' : NoDup (ids (ms ++ [new]))).
  { unfold ids. rewrite map_app. simpl.
    apply (Permutation_NoDup
             (l := m_id new :: map m_id ms)).
    - apply Permutation_cons_append.
    - constructor; assumption. }
  assert (Hfront : forall a s, In a [new] -> In s ms ->
                     comes_before a s /\ ~ comes_before s a).
  { intros a s [<-|[]] Hs. pose proof (Holder s Hs) as Hlt.
    unfold comes_before, sorts_before.
    rewrite (proj2 (sql_compare_gt_lt _ _) Hlt), Hlt.
    split; [reflexivity | discriminate]. }
  destruct (head_of_order_is_front ms [new] Hnd' Hfront) as [Hsub Hsup].
  rewrite pruned_by_head. cbv zeta.
  replace (Z.to_nat (Z.max 0 (Z.of_nat (List.length (ms ++ [new])) - limit)))
    with (List.length [new])
    by (rewrite length_app; simpl; lia).
  set (head := firstn (List.length [new])
                      (order_by_epoch_desc_id_desc (ms ++ [new]))) in *.
  rewrite filter_app. rewrite filter_all.
  - simpl. rewrite (existsb_id_in head new (Hsup new (or_introl eq_refl))).
    simpl. apply app_nil_r.
  - intros m Hm.
    destruct (existsb (Z.eqb (m_id m)) (ids head)) eqn:Hex; [|reflexivity].
    exfalso. apply existsb_exists in Hex. destruct Hex as [id [Hin Heq]].
    apply Z.eqb_eq in Heq. unfold ids in Hin. apply in_map_iff in Hin.
    destruct Hin as [h [Hh Hhead]].
    destruct (Hsub h Hhead) as [<-|[]].
    apply Hfresh. rewrite Hh, <- Heq. apply in_map. exact Hm.
Qed.

(** X10.  A store at its limit does not keep a new message.  When the
    table holds exactly [max_messages] rows, all with an epoch below the
    new one, [create_message] returns, and the row it inserted is the one
    [prune_messages] deletes: the table is as before, and committed. *)
Theorem create_message_at_limit_keeps_nothing :
  forall self node seconds draw callsign message channel epoch c id,
    message_id seconds draw = Return id ->
    ~ In id (ids (messages (working c))) ->
    NoDup (ids (messages (working c))) ->
    int64 epoch = true ->
    Z.of_nat (List.length (messages (working c))) = max_messages self ->
    (forall m, In m (messages (working c)) ->
               sql_compare (m_epoch m) (VInt epoch) = Lt) ->
    create_message self node seconds draw callsign message channel epoch c
    = (Return tt, Connection (working c) (working c)).
Proof.
  intros self node seconds draw callsign message channel epoch c id
         Hid Hfresh Hnd Hepoch Hfull Holder.
  destruct (message_id_range seconds draw) as [id' [Hid' Hrange]].
  rewrite Hid in Hid'. injection Hid' as <-.
  rewrite (create_message_run self node seconds draw callsign message
             channel epoch c id Hid Hrange Hepoch Hfresh).
  cbv zeta.
  rewrite (pruned_drops_newest (max_messages self) (messages (working c)));
    [rewrite set_messages_same; reflexivity | exact Hfull | exact Hnd
     | exact Hfresh | exact Holder].
Qed.

Lemma create_message_at_limit_keeps_nothing_witness :
  (message_id 1700000000 12345 = Return 2354268707
   /\ ~ In 2354268707 (ids (messages (working two_messages)))
   /\ NoDup (ids (messages (working two_messages)))
   /\ int64 1700000000 = true
   /\ Z.of_nat (List.length (messages (working two_messages)))
      = max_messages chat_limit_2)
  /\ create_message chat_limit_2 "nodeA" 1700000000 12345 (Some "KB1XYZ")
                    (Some "hello") None 1700000000 two_messages
     = (Return tt, two_messages).
Proof.
  assert (Hid : message_id 1700000000 12345 = Return 2354268707)
    by (vm_compute; reflexivity).
  assert (Hfresh : ~ In 2354268707 (ids (messages (working two_messages)))).
  { simpl. intuition discriminate. }
  assert (Hnd : NoDup (ids (messages (working two_messages)))).
  { simpl. repeat constructor; simpl; intuition discriminate. }
  split.
  { split; [exact Hid|]. split; [exact Hfresh|]. split; [exact Hnd|].
    split; reflexivity. }
  apply (create_message_at_limit_keeps_nothing chat_limit_2 "nodeA"
           1700000000 12345 (Some "KB1XYZ") (Some "hello") None 1700000000
           two_messages 2354268707 Hid Hfresh Hnd eq_refl eq_refl).
  intros m [<-|[<-|[]]]; reflexivity.
Defined.

(* ===================================================================== *)
(** ** The local user: [update_local_user] and [update_user_epoch] *)
(* ===================================================================== *)

Lemma same_user_null_id u row :
  u_id row = VNull \/ u_call_sign row = VNull -> same_user u row = false.
Proof.
  unfold same_user. intros [H|H]; rewrite H.
  - destruct (u_id u); reflexivity.
  - destruct (u_id u), (u_call_sign u); simpl;
      rewrite ?andb_false_r; reflexivity.
Qed.

(** X11.  [update_local_user] without an id or without a call sign adds
    a row on every call.  The handler passes [args.get('call_sign')] and
    [args.get('id')], which are [None] when the parameter is missing; a
    NULL is in conflict with no row under UNIQUE(id, call_sign, node), so
    nothing is replaced: the call returns, no stored row is removed or
    changed and one row is appended, also when the same call was made
    before. *)
Theorem update_local_user_without_key_appends :
  forall node callsign id epoch c,
    id = None \/ callsign = None ->
    int64 epoch = true ->
    update_local_user node callsign id epoch c
    = (Return tt,
       let db :=
         set_users (working c)
           (users (working c)
            ++ [User (bind_str id) (bind_str callsign) (VInt epoch)
                     (VText node) (VText "pi")]) in
       Connection db db).
Proof.
  intros node callsign id epoch c Hnone Hepoch.
  unfold update_local_user, bind, execute, replace_local_user.
  rewrite Hepoch. cbn [negb].
  rewrite filter_all; [reflexivity|].
  intros u _. rewrite same_user_null_id; [reflexivity|].
  cbn [u_id u_call_sign].
  destruct Hnone as [->| ->]; [left | right]; reflexivity.
Qed.

Lemma update_local_user_without_key_appends_witness :
  ((None : option string) = None \/ Some "KB1XYZ" = None)
  /\ int64 1700000000 = true
  /\ List.length
       (users (working
          (snd (update_local_user "nodeA" (Some "KB1XYZ") None 1700000000
                  (snd (update_local_user "nodeA" (Some "KB1XYZ") None
                          1700000000 fresh_connection))))))
     = 2%nat.
Proof.
  split; [left; reflexivity|]. split; [reflexivity|].
  rewrite (update_local_user_without_key_appends "nodeA" (Some "KB1XYZ")
             None 1700000000 fresh_connection (or_introl eq_refl) eq_refl).
  cbv zeta. cbn [snd].
  rewrite (update_local_user_without_key_appends "nodeA" (Some "KB1XYZ")
             None 1700000000 _ (or_introl eq_refl) eq_refl).
  reflexivity.
Defined.

Lemma set_user_epoch_keeps epoch callsign node us :
  map (fun u => (u_id u, u_call_sign u, u_node u, u_platform u))
      (map (fun u =>
              if sql_eq (u_call_sign u) (VText callsign)
                 && sql_eq (u_node u) (VText node)
              then User (u_id u) (u_call_sign u) (VInt epoch) (u_node u)
                        (u_platform u)
              else u) us)
  = map (fun u => (u_id u, u_call_sign u, u_node u, u_platform u)) us.
Proof.
  rewrite map_map. apply map_ext. intros u.
  destruct (sql_eq (u_call_sign u) (VText callsign)
            && sql_eq (u_node u) (VText node)); reflexivity.
Qed.

(** X12.  [update_user_epoch] changes epochs and nothing else.  With a
    64-bit epoch the call returns and commits; the table keeps its rows
    in number and order, each with its id, call sign, node and platform;
    the rows of this call sign on this node get the epoch, whatever their
    id, and the other rows keep theirs.  A call sign that has no row on
    this node gets none: the table is unchanged. *)
Theorem update_user_epoch_changes_epochs_only :
  forall node callsign epoch c,
    int64 epoch = true ->
    let r := update_user_epoch node callsign epoch c in
    let known u := sql_eq (u_call_sign u) (VText callsign)
                   && sql_eq (u_node u) (VText node) in
    fst r = Return tt
    /\ committed (snd r) = working (snd r)
    /\ map (fun u => (u_id u, u_call_sign u, u_node u, u_platform u))
           (users (working (snd r)))
       = map (fun u => (u_id u, u_call_sign u, u_node u, u_platform u))
             (users (working c))
    /\ map u_epoch (users (working (snd r)))
       = map (fun u => if known u then VInt epoch else u_epoch u)
             (users (working c))
    /\ ((forall u, In u (users (working c)) -> known u = false) ->
        working (snd r) = working c).
Proof.
  intros node callsign epoch c Hepoch r known.
  subst r. unfold update_user_epoch, bind, execute, set_user_epoch, commit.
  rewrite Hepoch. cbn [negb fst snd working committed users set_users].
  split; [reflexivity|]. split; [reflexivity|].
  split; [apply set_user_epoch_keeps|]. split.
  - rewrite map_map. apply map_ext. intros u. unfold known.
    destruct (sql_eq (u_call_sign u) (VText callsign)
              && sql_eq (u_node u) (VText node)); reflexivity.
  - intros Hnone.
    rewrite (map_ext_in _ (fun u => u)).
    + rewrite map_id. destruct (working c). reflexivity.
    + intros u Hu. pose proof (Hnone u Hu) as Hk. unfold known in Hk.
      rewrite Hk. reflexivity.
Qed.

Lemma update_user_epoch_changes_epochs_only_witness :
  int64 1700000900 = true
  /\ users (working (snd (update_user_epoch "nodeA" "KB1XYZ" 1700000900
                            one_user)))
     = [User (VText "7") (VText "KB1XYZ") (VInt 1700000900) (VText "nodeA")
             (VText "pi")]
  /\ working (snd (update_user_epoch "nodeA" "N0CALL" 1700000900 one_user))
     = working one_user.
Proof.
  split; [reflexivity|]. split; [reflexivity|].
  apply (update_user_epoch_changes_epochs_only "nodeA" "N0CALL" 1700000900
           one_user eq_refl).
  intros u [<-|[]]. reflexivity.
Defined.

(* ===================================================================== *)
(** ** [update_messages] on any text *)
(* ===================================================================== *)

Lemma insert_message_effect row db db' :
  insert_message row db = Return db' ->
  ~ In (fst row) (ids (messages db))
  /\ db' = set_messages db (messages db ++ [message_of row]).
Proof.
  intros H.
  destruct (in_dec Z.eq_dec (fst row) (ids (messages db))) as [Hin|Hnot].
  - exfalso. destruct row as [id rest]. cbn [fst] in Hin.
    unfold insert_message in H.
    destruct rest as [|f1 [|f2 [|f3 [|f4 [|f5 [|f6 [|f7 rest]]]]]]];
      simpl in H; try discriminate.
    destruct (int64 id); simpl in H; try discriminate.
    rewrite (existsb_id_true id _ Hin) in H. discriminate.
  - split; [exact Hnot|].
    destruct (insert_message_fresh_cases row db Hnot) as [Hr|[Hr|Hr]];
      rewrite Hr in H; [injection H as <-; reflexivity | discriminate
                        | discriminate].
Qed.

(** Whatever the tuples and however it ends, [executemany] of the
    INSERT appends rows with new, distinct ids and touches nothing
    else. *)
Lemma executemany_insert_effect rows :
  forall c,
  exists new,
    snd (executemany insert_message rows c)
    = Connection (committed c)
        (set_messages (working c) (messages (working c) ++ new))
    /\ NoDup (ids new)
    /\ (forall id, In id (ids new) -> ~ In id (ids (messages (working c)))).
Proof.
  induction rows as [|row rows IH]; intros c.
  - exists []. rewrite app_nil_r, set_messages_same.
    split; [destruct c; reflexivity|].
    split; [constructor | intros id []].
  - cbn [executemany]. unfold bind at 1. unfold execute at 1.
    destruct (insert_message row (working c)) as [db'|e] eqn:Hrow.
    + destruct (insert_message_effect _ _ _ Hrow) as [Hfresh ->].
      destruct (IH (Connection (committed c)
                      (set_messages (working c)
                         (messages (working c) ++ [message_of row]))))
        as [new [Hrun [Hnd Hnew]]].
      cbn [working committed messages set_messages] in Hrun, Hnew.
      exists (message_of row :: new).
      split; [|split].
      * rewrite Hrun. rewrite <- app_assoc.
        destruct (working c). reflexivity.
      * simpl. constructor; [|exact Hnd].
        intros Hin. apply (Hnew _ Hin). unfold ids. rewrite map_app.
        apply in_or_app. right. left. reflexivity.
      * intros id [<-|Hin].
        -- destruct row. exact Hfresh.
        -- intros Hold. apply (Hnew _ Hin). unfold ids. rewrite map_app.
           apply in_or_app. left. exact Hold.
    + exists []. rewrite app_nil_r, set_messages_same.
      split; [destruct c; reflexivity|].
      split; [constructor | intros id []].
Qed.

Lemma pruned_incl limit ms : incl (pruned limit ms) ms.
Proof.
  unfold pruned.
  destruct (0 <? Z.of_nat (List.length ms) - limit).
  - intros m Hm. apply filter_In in Hm. tauto.
  - apply incl_refl.
Qed.

Lemma pruned_nodup limit ms : NoDup (ids ms) -> NoDup (ids (pruned limit ms)).
Proof.
  intros Hnd. unfold pruned.
  destruct (0 <? Z.of_nat (List.length ms) - limit).
  - apply NoDup_ids_filter. exact Hnd.
  - exact Hnd.
Qed.

(** The table after [update_messages], for any text and any outcome. *)
Lemma update_messages_state self text c :
  exists new kept,
    working (snd (update_messages self text c))
    = set_messages (working c) kept
    /\ incl kept (messages (working c) ++ new)
    /\ (NoDup (ids (messages (working c) ++ new)) -> NoDup (ids kept))
    /\ NoDup (ids new)
    /\ (forall id, In id (ids new) -> ~ In id (ids (messages (working c)))).
Proof.
  unfold update_messages. unfold bind at 1. unfold lift.
  destruct (comprehension message_tuple (PyStr.splitlines text))
    as [rows|e].
  - destruct (executemany_insert_effect rows c) as [new [Hrun [Hnd Hnew]]].
    exists new.
    unfold bind at 1. unfold try_except_pass.
    destruct (executemany insert_message rows c) as [[[]|e] c1] eqn:Hex;
      cbn [snd] in Hrun; subst c1.
    + exists (pruned (max_messages self) (messages (working c) ++ new)).
      unfold bind at 1. unfold commit at 1. rewrite prune_messages_run.
      cbn [snd working messages set_messages].
      split; [destruct (working c); reflexivity|].
      split; [apply pruned_incl|].
      split; [apply pruned_nodup|]. split; assumption.
    + destruct (exn_eqb IntegrityError e).
      * exists (pruned (max_messages self) (messages (working c) ++ new)).
        unfold bind at 1. unfold commit at 1. rewrite prune_messages_run.
        cbn [snd working messages set_messages].
        split; [destruct (working c); reflexivity|].
        split; [apply pruned_incl|].
        split; [apply pruned_nodup|]. split; assumption.
      * exists (messages (working c) ++ new).
        cbn [snd working].
        split; [reflexivity|]. split; [apply incl_refl|].
        split; [tauto|]. split; assumption.
  - exists [], (messages (working c)). cbn [snd].
    rewrite set_messages_same, app_nil_r.
    split; [reflexivity|]. split; [apply incl_refl|].
    split; [tauto|]. split; [constructor | intros id []].
Qed.

Lemma NoDup_append {A : Type} (l1 l2 : list A) :
  NoDup l1 -> NoDup l2 -> (forall a, In a l2 -> ~ In a l1) ->
  NoDup (l1 ++ l2).
Proof.
  intros H1 H2 Hdis. induction H1 as [|x l1 Hx H1 IH]; [exact H2|].
  simpl. constructor.
  - intros Hin. apply in_app_or in Hin. destruct Hin as [Hin|Hin].
    + exact (Hx Hin).
    + apply (Hdis x Hin). left. reflexivity.
  - apply IH. intros a Ha Hin. apply (Hdis a Ha). right. exact Hin.
Qed.

(** X13.  [update_messages] never alters a stored message.  For any
    text, and whether the call returns or raises, every row of the
    messages table afterwards is a row that was there before or has an
    id that was not stored; distinct ids stay distinct; and the users,
    files and nodes tables are as they were. *)
Theorem update_messages_never_alters_a_stored_row :
  forall self text c,
    let before := working c in
    let after := working (snd (update_messages self text c)) in
    (forall m, In m (messages after) ->
               In m (messages before)
               \/ ~ In (m_id m) (ids (messages before)))
    /\ (NoDup (ids (messages before)) -> NoDup (ids (messages after)))
    /\ users after = users before
    /\ files after = files before
    /\ nodes after = nodes before.
Proof.
  intros self text c before after. subst before after.
  destruct (update_messages_state self text c)
    as [new [kept [Hstate [Hincl [Hkept [Hnd Hnew]]]]]].
  rewrite Hstate. cbn [messages users files nodes set_messages].
  split; [|split; [|repeat split]].
  - intros m Hm. apply Hincl in Hm. apply in_app_or in Hm.
    destruct Hm as [Hm|Hm]; [left; exact Hm | right].
    apply Hnew. apply in_map. exact Hm.
  - intros Hbefore. apply Hkept. unfold ids. rewrite map_app.
    apply NoDup_append; [exact Hbefore | exact Hnd | exact Hnew].
Qed.

Lemma update_messages_never_alters_a_stored_row_witness :
  NoDup (ids (messages (working store_with_1)))
  /\ NoDup (ids (messages (working
                   (snd (update_messages default_chat line_1_again
                           store_with_1)))))
  /\ forall m,
       In m (messages (working (snd (update_messages default_chat
                                       line_1_again store_with_1)))) ->
       m_id m = 1 -> m_message m = VText "one".
Proof.
  assert (Hnd : NoDup (ids (messages (working store_with_1)))).
  { vm_compute. repeat constructor. intros []. }
  destruct (update_messages_never_alters_a_stored_row default_chat
              line_1_again store_with_1) as [Hrows [Hkeep _]].
  split; [exact Hnd|]. split; [exact (Hkeep Hnd)|].
  intros m Hm Hid. destruct (Hrows m Hm) as [Hold|Hnew].
  - vm_compute in Hold. destruct Hold as [<-|[]]. reflexivity.
  - exfalso. apply Hnew. rewrite Hid. vm_compute. left. reflexivity.
Defined.

(* ===================================================================== *)
(** ** A peer that serves a malformed messages feed *)
(* ===================================================================== *)




(* ===================================================================== *)
(** ** Pulling users and files from a peer *)
(* ===================================================================== *)

Lemma feed_text_shape {A : Type} (columns : A -> list sqlval) rows :
  (forall r, In r rows ->
             (2 <= List.length (columns r))%nat
             /\ Forall (fun f => plain_text f = true)
                       (map py_str (columns r))) ->
  let text :=
    join LFS (map (fun r => join TABS (map py_str (columns r))) rows) in
  ascii_text text = true /\ (rows <> [] -> text <> EmptyString).
Proof.
  intros Hrows text. subst text. split.
  - apply ascii_text_join_lines. apply Forall_forall. intros l Hl.
    apply in_map_iff in Hl. destruct Hl as [r [<- Hr]].
    exact (proj2 (plain_text_join_tabs _ (proj2 (Hrows r Hr)))).
  - destruct rows as [|r rows]; [intros H; contradiction | intros _].
    cbn [map]. apply join_lines_nonempty.
    destruct (Hrows r (or_introl eq_refl)) as [Hlen _].
    destruct (columns r) as [|v [|w cols]];
      [simpl in Hlen; lia | simpl in Hlen; lia |].
    cbn [map]. apply join_tabs_nonempty.
Qed.

Lemma update_users_of_served_lines rows dst :
  (forall u, In u rows -> feed_user u = true) ->
  update_users (join LFS (map user_line rows)) dst
  = (Return tt,
     let db :=
       set_users (working dst)
         (fold_left upsert_user (map user_as_received rows)
                    (users (working dst))) in
     Connection db db).
Proof.
  intros Hfeed. unfold update_users, user_line.
  rewrite (feed_lines_split user_columns)
    by (intros u Hu; apply feed_user_columns, Hfeed, Hu).
  unfold bind. rewrite executemany_replace_user. reflexivity.
Qed.

Lemma Return_inj {A : Type} (a b : A) : Return a = Return b -> a = b.
Proof. intros H. injection H as H. exact H. Qed.

Lemma for_each_one {A : Type} (x : A) (body : A -> M unit) c c' :
  body x c = (Return tt, c') -> for_each [x] body c = (Return tt, c').
Proof. intros H. cbn [for_each]. unfold bind. rewrite H. reflexivity. Qed.

(** X15.  A files pull, end to end.  The one peer that is alive serves
    its local files through [do_local_files_raw].  [refresh_files]
    returns; when the peer has local files, each is upserted on
    (file, node) with [local] 0 and the table is committed; when it has
    none, the body is empty, nothing is merged and nothing is
    committed. *)
Theorem refresh_files_pulls_the_local_files :
  forall requests_get c peer node served,
    select_nodes true (working c) = [node] ->
    fst (do_local_files_raw peer) = Return served ->
    requests_get node = served ->
    (forall f, In f (files_served true (working peer)) ->
               feed_file f = true) ->
    refresh_files requests_get c
    = (Return tt,
       match files_served true (working peer) with
       | [] => c
       | rows =>
           let db :=
             set_files (working c)
               (fold_left upsert_file (map as_remote rows)
                          (files (working c))) in
           Connection db db
       end).
Proof.
  intros requests_get c peer node served Halive Hserved Hget Hfeed.
  unfold do_local_files_raw, bind in Hserved.
  rewrite get_raw_files_lines in Hserved. unfold ret in Hserved.
  cbn [fst] in Hserved.
  apply Return_inj in Hserved. subst served.
  destruct (feed_text_shape file_columns (files_served true (working peer))
              (fun f Hf => feed_file_columns f (Hfeed f Hf)))
    as [Hascii Hne].
  fold file_line in Hascii, Hne.
  unfold refresh_files, get_node_list. unfold bind at 1. unfold query.
  rewrite Halive. apply for_each_one. rewrite Hget.
  destruct (files_served true (working peer)) as [|f rows] eqn:Hrows.
  - reflexivity.
  - rewrite (fetch_checksummed_text _ update_files c Hascii
               (Hne ltac:(discriminate))).
    rewrite <- Hrows in *.
    rewrite (proj2 (served_files_export_merge true peer c Hfeed)).
    reflexivity.
Qed.

Lemma refresh_files_pulls_the_local_files_witness :
  (select_nodes true (working alive_a)
   = [Node (VText "nodeA") (VInt 8080) (VInt 0) (VInt 1) VNull VNull]
   /\ (forall f, In f (files_served true (working two_files)) ->
                 feed_file f = true))
  /\ forall served,
       fst (do_local_files_raw two_files) = Return served ->
       files (working (snd (refresh_files (fun _ => served) alive_a)))
       = [as_remote local_map].
Proof.
  assert (Hfeed : forall f, In f (files_served true (working two_files)) ->
                            feed_file f = true).
  { intros f [<-|[]]. reflexivity. }
  split; [split; [reflexivity | exact Hfeed]|].
  intros served Hserved.
  rewrite (refresh_files_pulls_the_local_files (fun _ => served) alive_a
             two_files _ served eq_refl Hserved eq_refl Hfeed).
  reflexivity.
Defined.

(** X16.  A users pull, end to end.  The one peer that is alive serves
    the users of its node through [do_users_raw].  [refresh_users]
    returns; when the peer has such users, each is upserted with the
    columns of its line read in the order of [update_users]: the id as
    call sign, the call sign as id, the epoch as node and the node as
    epoch; when it has none, nothing is merged and nothing is
    committed. *)
Theorem refresh_users_pulls_exchanged_users :
  forall requests_get c peer peer_name node served,
    select_nodes true (working c) = [node] ->
    fst (do_users_raw peer_name peer) = Return served ->
    requests_get node = served ->
    (forall u, In u (users_served peer_name true (working peer)) ->
               feed_user u = true) ->
    refresh_users requests_get c
    = (Return tt,
       match users_served peer_name true (working peer) with
       | [] => c
       | rows =>
           let db :=
             set_users (working c)
               (fold_left upsert_user (map user_as_received rows)
                          (users (working c))) in
           Connection db db
       end).
Proof.
  intros requests_get c peer peer_name node served
         Halive Hserved Hget Hfeed.
  unfold do_users_raw, bind in Hserved.
  rewrite get_raw_users_lines in Hserved. unfold ret in Hserved.
  cbn [fst] in Hserved.
  apply Return_inj in Hserved. subst served.
  destruct (feed_text_shape user_columns
              (users_served peer_name true (working peer))
              (fun u Hu => feed_user_columns u (Hfeed u Hu)))
    as [Hascii Hne].
  fold user_line in Hascii, Hne.
  unfold refresh_users, get_node_list. unfold bind at 1. unfold query.
  rewrite Halive. apply for_each_one. rewrite Hget.
  destruct (users_served peer_name true (working peer)) as [|u rows]
    eqn:Hrows.
  - reflexivity.
  - rewrite (fetch_checksummed_text _ update_users c Hascii
               (Hne ltac:(discriminate))).
    apply update_users_of_served_lines. exact Hfeed.
Qed.

Lemma refresh_users_pulls_exchanged_users_witness :
  (select_nodes true (working alive_a)
   = [Node (VText "nodeA") (VInt 8080) (VInt 0) (VInt 1) VNull VNull]
   /\ (forall u, In u (users_served "nodeA" true (working one_user)) ->
                 feed_user u = true))
  /\ forall served,
       fst (do_users_raw "nodeA" one_user) = Return served ->
       users (working (snd (refresh_users (fun _ => served) alive_a)))
       = [User (VText "KB1XYZ") (VText "7") (VText "nodeA")
               (VText "1700000000") (VText "pi")].
Proof.
  assert (Hfeed : forall u, In u (users_served "nodeA" true
                                                (working one_user)) ->
                            feed_user u = true).
  { intros u [<-|[]]. reflexivity. }
  split; [split; [reflexivity | exact Hfeed]|].
  intros served Hserved.
  rewrite (refresh_users_pulls_exchanged_users (fun _ => served) alive_a
             one_user "nodeA" _ served eq_refl Hserved eq_refl Hfeed).
  reflexivity.
Defined.
